(** * Econetra DPP backend: canonical hashing, content store, ledger and
      passport coordinator

    A shallow embedding of the three service modules of the backend

      - [services/blockchain_service.py]  (class [BlockchainService])
      - [services/ipfs_service.py]        (class [IPFSService])
      - [services/dpp_service.py]         (class [DPPService])

    together with the two tables they use ([models/product.py],
    [models/dpp.py]), followed by the properties of the integrity
    protocol that the specification states about them.

    Modelling conventions.

    - A Python [str] is a Rocq [string]; each character stands for the code
      point of the same number (U+0000 .. U+00FF).
    - A JSON-compatible Python value is a [json]; a Python [dict] is an
      association list in insertion order whose keys are pairwise distinct
      ([wf_json]).  Python [float] values are outside the modelled fragment.
    - Every service function returns the tuple the source returns,
      [(success, value, error_message)], with [None] as [option].
    - Calls that leave the process (content store, ledger node, clock,
      uuid generator) take their outcome from an oracle record, and each call
      to the content store or the ledger is appended to a trace of events
      carried by the world state; the relational tables are part of the
      world state.  Output written with [print] is left out. *)

From Stdlib Require Import ZArith String Ascii List Bool Lia Permutation.
From Stdlib Require Import DecimalString.
Import ListNotations.
Local Open Scope Z_scope.

(* ===================================================================== *)
(** * Keccak-256 ([Web3.keccak]) *)
(* ===================================================================== *)

(** The sponge over Keccak-f[1600] with rate 136 bytes, the original Keccak
    padding (domain byte 0x01) and 32 bytes of output.  The state is the list
    of its 25 lanes, lane (x, y) at index x + 5 y, each lane a 64-bit word
    held in a [Z]; bytes are [Z] in 0 .. 255. *)
Module Keccak.

Definition mask64 : Z := Z.ones 64.

Definition rotl64 (x : Z) (n : Z) : Z :=
  Z.lor (Z.land (Z.shiftl x n) mask64) (Z.shiftr x (64 - n)).

Definition lane (st : list Z) (i : nat) : Z := nth i st 0.

Definition rotation_offsets : list Z :=
  [ 0;  1; 62; 28; 27;
   36; 44;  6; 55; 20;
    3; 10; 43; 25; 39;
   41; 45; 15; 21;  8;
   18;  2; 61; 56; 14].

Definition round_constants : list Z :=
  [0x0000000000000001; 0x0000000000008082; 0x800000000000808A;
   0x8000000080008000; 0x000000000000808B; 0x0000000080000001;
   0x8000000080008081; 0x8000000000008009; 0x000000000000008A;
   0x0000000000000088; 0x0000000080008009; 0x000000008000000A;
   0x000000008000808B; 0x800000000000008B; 0x8000000000008089;
   0x8000000000008003; 0x8000000000008002; 0x8000000000000080;
   0x000000000000800A; 0x800000008000000A; 0x8000000080008081;
   0x8000000000008080; 0x0000000080000001; 0x8000000080008008].

Definition theta (st : list Z) : list Z :=
  let c := map (fun x =>
                  Z.lxor (lane st x)
                    (Z.lxor (lane st (x + 5))
                       (Z.lxor (lane st (x + 10))
                          (Z.lxor (lane st (x + 15)) (lane st (x + 20))))))
               (seq 0 5) in
  let d := map (fun x =>
                  Z.lxor (lane c ((x + 4) mod 5))
                         (rotl64 (lane c ((x + 1) mod 5)) 1))
               (seq 0 5) in
  map (fun i => Z.lxor (lane st i) (lane d (i mod 5))) (seq 0 25).

Definition rho_pi (st : list Z) : list Z :=
  map (fun j =>
         let X := (j mod 5)%nat in
         let Y := (j / 5)%nat in
         let src := ((X + 3 * Y) mod 5 + 5 * X)%nat in
         rotl64 (lane st src) (nth src rotation_offsets 0))
      (seq 0 25).

Definition chi (st : list Z) : list Z :=
  map (fun i =>
         let x := (i mod 5)%nat in
         let y := (i / 5)%nat in
         Z.lxor (lane st i)
           (Z.land (Z.lxor (lane st ((x + 1) mod 5 + 5 * y)) mask64)
                   (lane st ((x + 2) mod 5 + 5 * y))))
      (seq 0 25).

Definition iota (rc : Z) (st : list Z) : list Z :=
  match st with
  | [] => []
  | a :: rest => Z.lxor a rc :: rest
  end.

Definition round (st : list Z) (rc : Z) : list Z :=
  iota rc (chi (rho_pi (theta st))).

Definition keccak_f (st : list Z) : list Z :=
  fold_left round round_constants st.

Definition rate_bytes : nat := 136.

(** Little-endian packing of up to eight bytes into a lane. *)
Fixpoint lane_of_bytes (bs : list Z) : Z :=
  match bs with
  | [] => 0
  | b :: rest => Z.lor b (Z.shiftl (lane_of_bytes rest) 8)
  end.

Fixpoint lanes_of_bytes (n : nat) (bs : list Z) : list Z :=
  match n with
  | O => []
  | S n' => lane_of_bytes (firstn 8 bs) :: lanes_of_bytes n' (skipn 8 bs)
  end.

Definition absorb_block (st : list Z) (block : list Z) : list Z :=
  let ls := lanes_of_bytes 17 block in
  keccak_f (map (fun i => Z.lxor (lane st i) (lane ls i)) (seq 0 25)).

Definition pad (msg : list Z) : list Z :=
  let r := (rate_bytes - (List.length msg mod rate_bytes))%nat in
  match r with
  | 1%nat => msg ++ [0x81]
  | _ => msg ++ [0x01] ++ repeat 0 (r - 2) ++ [0x80]
  end.

Fixpoint absorb (n : nat) (st : list Z) (bs : list Z) : list Z :=
  match n with
  | O => st
  | S n' =>
      absorb n' (absorb_block st (firstn rate_bytes bs)) (skipn rate_bytes bs)
  end.

Definition bytes_of_lane (l : Z) : list Z :=
  map (fun i => Z.land (Z.shiftr l (8 * Z.of_nat i)) 255) (seq 0 8).

Definition keccak256 (msg : list Z) : list Z :=
  let p := pad msg in
  let st := absorb (List.length p / rate_bytes) (repeat 0 25) p in
  bytes_of_lane (lane st 0) ++ bytes_of_lane (lane st 1) ++
  bytes_of_lane (lane st 2) ++ bytes_of_lane (lane st 3).

End Keccak.

(* ===================================================================== *)
(** * Bytes, text and hexadecimal rendering *)
(* ===================================================================== *)

Definition hex_chars : list ascii :=
  ["0"; "1"; "2"; "3"; "4"; "5"; "6"; "7";
   "8"; "9"; "a"; "b"; "c"; "d"; "e"; "f"]%char.

Definition hex_digit (n : Z) : ascii := nth (Z.to_nat n) hex_chars "0"%char.

Definition is_hex_digit (c : ascii) : bool :=
  existsb (Ascii.eqb c) hex_chars.

(** [bytes.hex()]: two lowercase digits per byte, no prefix. *)
Fixpoint bytes_hex (bs : list Z) : string :=
  match bs with
  | [] => EmptyString
  | b :: rest =>
      String (hex_digit (b / 16)) (String (hex_digit (b mod 16)) (bytes_hex rest))
  end.

(** [str.encode('utf-8')] on text whose characters are all below U+0080,
    which is the only text the hasher encodes ([json_dumps_is_ascii]). *)
Definition bytes_of_text (s : string) : list Z :=
  map (fun c => Z.of_N (N_of_ascii c)) (list_ascii_of_string s).

Fixpoint string_forallb (p : ascii -> bool) (s : string) : bool :=
  match s with
  | EmptyString => true
  | String c s' => p c && string_forallb p s'
  end.

Definition is_ascii (c : ascii) : bool := Nat.ltb (nat_of_ascii c) 128.

(* ===================================================================== *)
(** * JSON-compatible Python values *)
(* ===================================================================== *)

#[local] Unset Elimination Schemes.
Inductive json : Type :=
| JNull
| JBool (b : bool)
| JInt (z : Z)
| JStr (s : string)
| JList (items : list json)
| JDict (entries : list (string * json)).
#[local] Set Elimination Schemes.

(** Structural induction that reaches the items of lists and the values
    of mappings. *)

Section JsonInduction.
Variable P : json -> Prop.
Hypothesis HNull : P JNull.
Hypothesis HBool : forall b, P (JBool b).
Hypothesis HInt : forall z, P (JInt z).
Hypothesis HStr : forall s, P (JStr s).
Hypothesis HList : forall items, Forall P items -> P (JList items).
Hypothesis HDict :
  forall entries, Forall (fun kv => P (snd kv)) entries -> P (JDict entries).

Fixpoint json_ind (j : json) : P j :=
  match j with
  | JNull => HNull
  | JBool b => HBool b
  | JInt z => HInt z
  | JStr s => HStr s
  | JList items =>
      HList items
        ((fix go (l : list json) : Forall P l :=
            match l with
            | [] => Forall_nil P
            | x :: r => Forall_cons x (json_ind x) (go r)
            end) items)
  | JDict entries =>
      HDict entries
        ((fix go (l : list (string * json))
            : Forall (fun kv => P (snd kv)) l :=
            match l with
            | [] => Forall_nil _
            | kv :: r =>
                Forall_cons kv
                  (match kv as p return P (snd p) with
                   | (_, v) => json_ind v
                   end)
                  (go r)
            end) entries)
  end.
End JsonInduction.

(** A Python [dict] with [str] keys, in insertion order. *)
Definition pydict : Type := list (string * json).

Section DictOps.
Context {V : Type}.

(** [d.get(k)] *)
Fixpoint dict_get (k : string) (d : list (string * V)) : option V :=
  match d with
  | [] => None
  | (k', v) :: rest => if String.eqb k k' then Some v else dict_get k rest
  end.

(** [k in d] *)
Definition dict_mem (k : string) (d : list (string * V)) : bool :=
  match dict_get k d with Some _ => true | None => false end.

(** [d[k] = v]: an existing key keeps its position, a new key goes last. *)
Fixpoint dict_set (k : string) (v : V) (d : list (string * V))
  : list (string * V) :=
  match d with
  | [] => [(k, v)]
  | (k', v') :: rest =>
      if String.eqb k k' then (k', v) :: rest
      else (k', v') :: dict_set k v rest
  end.

(** [d.pop(k, None)], the value dropped. *)
Fixpoint dict_pop (k : string) (d : list (string * V)) : list (string * V) :=
  match d with
  | [] => []
  | (k', v') :: rest =>
      if String.eqb k k' then rest else (k', v') :: dict_pop k rest
  end.

(** [{**a, **b}] *)
Definition dict_merge (a b : list (string * V)) : list (string * V) :=
  fold_left (fun acc kv => dict_set (fst kv) (snd kv) acc) b a.

Definition dict_keys (d : list (string * V)) : list string := map fst d.

(** Insertion of an item into a list sorted by key, and the sort that
    [sort_keys=True] applies to the items of every mapping. *)
Fixpoint insert_item (kv : string * V) (l : list (string * V))
  : list (string * V) :=
  match l with
  | [] => [kv]
  | kv' :: rest =>
      if String.leb (fst kv) (fst kv') then kv :: l
      else kv' :: insert_item kv rest
  end.

Fixpoint sort_items (l : list (string * V)) : list (string * V) :=
  match l with
  | [] => []
  | kv :: rest => insert_item kv (sort_items rest)
  end.

(** Sortedness by key, against which [sort_items] is checked. *)
Definition key_le (a b : string * V) : Prop :=
  String.leb (fst a) (fst b) = true.

Inductive sorted_by_key : list (string * V) -> Prop :=
| sorted_nil : sorted_by_key []
| sorted_cons a l :
    Forall (key_le a) l -> sorted_by_key l -> sorted_by_key (a :: l).
End DictOps.

(** Keys of every mapping, at every depth, are pairwise distinct. *)
Fixpoint nodupb (l : list string) : bool :=
  match l with
  | [] => true
  | k :: rest => negb (existsb (String.eqb k) rest) && nodupb rest
  end.

Fixpoint wf_json (j : json) : bool :=
  match j with
  | JList items => forallb wf_json items
  | JDict entries =>
      nodupb (map fst entries) && forallb (fun kv => wf_json (snd kv)) entries
  | _ => true
  end.

Definition wf_dict (d : pydict) : bool := wf_json (JDict d).

(** Python's [==] on JSON-compatible values.  [bool] is a subclass of [int],
    so [True == 1] and [False == 0]; lists compare item by item; dicts
    compare as mappings, whatever the insertion order. *)
Definition Z_of_bool (b : bool) : Z := if b then 1 else 0.

Fixpoint py_eq (a b : json) {struct a} : bool :=
  match a, b with
  | JNull, JNull => true
  | JBool x, JBool y => Bool.eqb x y
  | JBool x, JInt y => Z.eqb (Z_of_bool x) y
  | JInt x, JBool y => Z.eqb x (Z_of_bool y)
  | JInt x, JInt y => Z.eqb x y
  | JStr x, JStr y => String.eqb x y
  | JList xs, JList ys =>
      (fix go (xs : list json) (ys : list json) {struct xs} : bool :=
         match xs, ys with
         | [], [] => true
         | x :: xs', y :: ys' => py_eq x y && go xs' ys'
         | _, _ => false
         end) xs ys
  | JDict xs, JDict ys =>
      Nat.eqb (List.length xs) (List.length ys) &&
      forallb (fun kv =>
                 match dict_get (fst kv) ys with
                 | Some v' => py_eq (snd kv) v'
                 | None => false
                 end) xs
  | _, _ => false
  end.

(** Equality as finite maps: the same key-value pairs at every nesting
    level, in any insertion order, each leaf of the same JSON type. *)
Fixpoint json_same (a b : json) {struct a} : bool :=
  match a, b with
  | JNull, JNull => true
  | JBool x, JBool y => Bool.eqb x y
  | JInt x, JInt y => Z.eqb x y
  | JStr x, JStr y => String.eqb x y
  | JList xs, JList ys =>
      (fix go (xs : list json) (ys : list json) {struct xs} : bool :=
         match xs, ys with
         | [], [] => true
         | x :: xs', y :: ys' => json_same x y && go xs' ys'
         | _, _ => false
         end) xs ys
  | JDict xs, JDict ys =>
      Nat.eqb (List.length xs) (List.length ys) &&
      forallb (fun kv =>
                 match dict_get (fst kv) ys with
                 | Some v' => json_same (snd kv) v'
                 | None => false
                 end) xs
  | _, _ => false
  end.

(* ===================================================================== *)
(** * [json.dumps(data, sort_keys=True, separators=(',', ':'))] *)
(* ===================================================================== *)

Local Open Scope string_scope.

Definition dquote : ascii := "034"%char.
Definition backslash : ascii := "092"%char.

(** One character under [ensure_ascii=True] (the default). *)
Definition escape_char (c : ascii) : string :=
  let n := nat_of_ascii c in
  if Ascii.eqb c dquote then String backslash (String dquote "")
  else if Ascii.eqb c backslash then String backslash (String backslash "")
  else if Nat.eqb n 10 then String backslash "n"
  else if Nat.eqb n 13 then String backslash "r"
  else if Nat.eqb n 9 then String backslash "t"
  else if Nat.eqb n 8 then String backslash "b"
  else if Nat.eqb n 12 then String backslash "f"
  else if (Nat.leb 32 n && Nat.leb n 126)%bool then String c ""
  else String backslash
         ("u00" ++ String (hex_digit (Z.of_nat (n / 16)))
                     (String (hex_digit (Z.of_nat (n mod 16))) "")).

Fixpoint escape_chars (s : string) : string :=
  match s with
  | EmptyString => ""
  | String c s' => escape_char c ++ escape_chars s'
  end.

Definition encode_basestring_ascii (s : string) : string :=
  String dquote (escape_chars s ++ String dquote "").

(** [int.__repr__] *)
Definition dumps_int (z : Z) : string := NilZero.string_of_int (Z.to_int z).

Fixpoint join (sep : string) (l : list string) : string :=
  match l with
  | [] => ""
  | [x] => x
  | x :: rest => x ++ sep ++ join sep rest
  end.

Definition dumps_item (kv : string * string) : string :=
  encode_basestring_ascii (fst kv) ++ ":" ++ snd kv.

(** The values of a mapping are rendered first and the items sorted after,
    which keeps the recursion structural; [json_dumps_dict] below states the
    equation in the order the encoder works (sort, then render). *)
Fixpoint json_dumps (j : json) : string :=
  match j with
  | JNull => "null"
  | JBool true => "true"
  | JBool false => "false"
  | JInt z => dumps_int z
  | JStr s => encode_basestring_ascii s
  | JList items => "[" ++ join "," (map json_dumps items) ++ "]"
  | JDict entries =>
      "{" ++ join ","
               (map dumps_item
                  (sort_items
                     (map (fun kv => (fst kv, json_dumps (snd kv))) entries)))
          ++ "}"
  end.

(* ===================================================================== *)
(** * [BlockchainService.generate_data_hash] *)
(* ===================================================================== *)

(** [HexBytes.hex()].  [Web3.keccak] returns a [HexBytes]; the source is
    written against the web3 v6 interface ([w3.is_connected],
    [signed_txn.rawTransaction]), whose [HexBytes.hex()] writes ["0x"] in
    front of the digits of [bytes.hex()]. *)
Definition hexbytes_hex (bs : list Z) : string := "0x" ++ bytes_hex bs.

Definition generate_data_hash (data : pydict) : string :=
  let json_str := json_dumps (JDict data) in
  let hash_bytes := Keccak.keccak256 (bytes_of_text json_str) in
  hexbytes_hex hash_bytes.

(** The two fields [upload_dpp_metadata] stamps into every uploaded copy. *)
Definition ipfs_upload_timestamp : string := "ipfs_upload_timestamp".
Definition ipfs_version : string := "ipfs_version".

Definition strip_volatile (d : pydict) : pydict :=
  dict_pop ipfs_version (dict_pop ipfs_upload_timestamp d).

(* ===================================================================== *)
(** * Tables ([models/product.py], [models/dpp.py]) *)
(* ===================================================================== *)

Module Product.
Record t : Type := {
  id : string;
  supplier_id : string;
  product_name : string;
  description : option string;
  material_composition : json;       (* [JNull] for [None] *)
  production_location : option string;
  production_date : option string;   (* the date, already in ISO format *)
  gtin : option string;
  created_at : string;
  updated_at : string
}.
End Product.

Module DigitalProductPassport.
Record t : Type := {
  id : string;                 (* primary key *)
  product_id : string;         (* unique *)
  dpp_url : string;            (* unique *)
  ipfs_cid : string;           (* unique *)
  blockchain_hash : string;    (* unique *)
  gs1_digital_link : string;
  epcis_events : list json;
  json_ld_data : pydict;
  issued_at : string;
  updated_at : string
}.
End DigitalProductPassport.

Definition DPP : Type := DigitalProductPassport.t.

(** An external call either returns or raises; [Raised msg] carries
    [str(e)]. *)
Inductive outcome (A : Type) : Type :=
| Returned (a : A)
| Raised (msg : string).
Arguments Returned {A} a.
Arguments Raised {A} msg.

(** The unique columns of [digital_product_passports] other than the
    primary key. *)
Definition unique_columns_free (r : DPP) (others : list DPP) : bool :=
  forallb (fun o =>
             negb (DigitalProductPassport.product_id o =? DigitalProductPassport.product_id r) &&
             negb (DigitalProductPassport.dpp_url o =? DigitalProductPassport.dpp_url r) &&
             negb (DigitalProductPassport.ipfs_cid o =? DigitalProductPassport.ipfs_cid r) &&
             negb (DigitalProductPassport.blockchain_hash o =? DigitalProductPassport.blockchain_hash r))%bool
          others.

Definition primary_key_free (r : DPP) (rows : list DPP) : bool :=
  forallb (fun o => negb (DigitalProductPassport.id o =? DigitalProductPassport.id r)) rows.

Definition integrity_error : string := "IntegrityError".

(** [db.session.add(dpp); db.session.commit()]: the commit raises when the
    primary key or a unique column is already taken.  Column lengths are not
    enforced. *)
Definition db_insert (r : DPP) (rows : list DPP) : outcome (list DPP) :=
  if (primary_key_free r rows && unique_columns_free r rows)%bool
  then Returned (rows ++ [r])%list
  else Raised integrity_error.

(** [db.session.commit()] after attribute assignments on the row whose
    primary key is [id r]. *)
Definition db_update (r : DPP) (rows : list DPP) : outcome (list DPP) :=
  let others :=
    filter (fun o => negb (DigitalProductPassport.id o =? DigitalProductPassport.id r)) rows in
  if unique_columns_free r others
  then Returned (map (fun o =>
                        if DigitalProductPassport.id o =? DigitalProductPassport.id r
                        then r else o) rows)
  else Raised integrity_error.

(* ===================================================================== *)
(** * World state, events and oracle *)
(* ===================================================================== *)

(** One entry per call that leaves the process, appended when the call is
    issued, whatever its outcome. *)
Inductive event : Type :=
| IpfsAddJson (metadata : pydict)
| IpfsGetJson (cid : string)
| IpfsPinAdd (cid : string)
| IpfsPinRm (cid : string)
| LedgerRegisterDPP (ipfs_cid data_hash product_id supplier_info : string)
| LedgerVerifyByCid (ipfs_cid : string).

Record World : Type := {
  products : list Product.t;
  passports : list DPP;
  trace : list event
}.

(** What the ledger node reports for a mined [registerDPP] transaction:
    [tx_hash.hex()], the receipt fields, and for each log of the receipt the
    outcome of decoding it as a [DPPRegistered] event. *)
Record Receipt : Type := {
  tx_hash : string;
  blockNumber : Z;
  gasUsed : Z;
  logs : list (outcome Z);
  status : Z
}.

Record Env : Type := {
  uuid4 : string;
  (** the k-th reading of [datetime.utcnow().isoformat()] in an operation *)
  utcnow : nat -> string;
  add_json : pydict -> outcome string;
  (** the k-th call of [client.get_json] in an operation *)
  get_json : nat -> string -> outcome json;
  pin_add : string -> outcome unit;
  pin_rm : string -> outcome unit;
  w3_is_connected : bool;
  (** build, sign, send and wait for the receipt of [registerDPP] *)
  registerDPP : string -> string -> string -> string -> outcome Receipt;
  (** [verifyByCid(cid).call()]: is_valid, dpp_id, [data_hash.hex()] *)
  verifyByCid : string -> outcome (bool * Z * string)
}.

(** State passing over the world. *)
Definition M (A : Type) : Type := World -> World * A.

Definition ret {A : Type} (a : A) : M A := fun w => (w, a).

Definition bind {A B : Type} (c : M A) (k : A -> M B) : M B :=
  fun w => let (w', a) := c w in k a w'.

Notation "x <- c ;; k" := (bind c (fun x => k))
  (at level 61, c at next level, right associativity).
Notation "' p <- c ;; k" := (bind c (fun p => k))
  (at level 61, p pattern, c at next level, right associativity).
Notation "c ;;; k" := (bind c (fun _ => k))
  (at level 61, right associativity).

Definition log (w : World) (e : event) : World :=
  {| products := products w;
     passports := passports w;
     trace := (trace w ++ [e])%list |}.

Definition emit (e : event) : M unit := fun w => (log w e, tt).

(** The world after, and the value returned by, a computation. *)
Definition exec {A : Type} (c : M A) (w : World) : World := fst (c w).
Definition eval {A : Type} (c : M A) (w : World) : A := snd (c w).

Definition get_world : M World := fun w => (w, w).

Definition set_passports (rows : list DPP) : M unit :=
  fun w => ({| products := products w; passports := rows; trace := trace w |}, tt).

(* ===================================================================== *)
(** * [IPFSService] *)
(* ===================================================================== *)

Module IPFSService.
(** [client] is [false] when [self.client] is [None]. *)
Record t : Type := { client : bool }.
End IPFSService.

Module BlockchainService.
(** [contract] and [account] are [false] when the attribute is [None]. *)
Record t : Type := {
  contract_address : option string;
  account : bool;
  contract : bool
}.
End BlockchainService.

Module DPPService.
Record t : Type := {
  ipfs_service : IPFSService.t;
  blockchain_service : BlockchainService.t
}.
End DPPService.

(** The Python tuple [(success, value, error_message)]. *)
Definition result3 (A : Type) : Type := (bool * option A * option string)%type.

Section Services.
Variable env : Env.

(* ------------------------------------------------------------------- *)
(** ** [ipfs_service.py] *)

(** [{**dpp_data, "ipfs_upload_timestamp": ..., "ipfs_version": "1.0"}].
    The [json.dumps(metadata, indent=2, sort_keys=True)] that follows it in
    [upload_dpp_metadata] produces a string nothing reads. *)
Definition stamped (now : string) (dpp_data : pydict) : pydict :=
  dict_set ipfs_version (JStr "1.0")
    (dict_set ipfs_upload_timestamp (JStr now) dpp_data).

Definition upload_dpp_metadata (self : IPFSService.t) (k : nat)
    (dpp_data : pydict) : M (result3 string) :=
  if negb (IPFSService.client self)
  then ret (false, None, Some "IPFS client not initialized")
  else
    let metadata := stamped (utcnow env k) dpp_data in
    emit (IpfsAddJson metadata) ;;;
    match add_json env metadata with
    | Returned cid => ret (true, Some cid, None)
    | Raised e => ret (false, None, Some ("Error uploading to IPFS: " ++ e))
    end.

Definition retrieve_dpp_metadata (self : IPFSService.t) (k : nat)
    (cid : string) : M (result3 json) :=
  if negb (IPFSService.client self)
  then ret (false, None, Some "IPFS client not initialized")
  else
    emit (IpfsGetJson cid) ;;;
    match get_json env k cid with
    | Returned metadata => ret (true, Some metadata, None)
    | Raised e => ret (false, None, Some ("Error retrieving from IPFS: " ++ e))
    end.

Definition pin_content (self : IPFSService.t) (cid : string)
  : M (bool * option string) :=
  if negb (IPFSService.client self)
  then ret (false, Some "IPFS client not initialized")
  else
    emit (IpfsPinAdd cid) ;;;
    match pin_add env cid with
    | Returned _ => ret (true, None)
    | Raised e => ret (false, Some ("Error pinning content: " ++ e))
    end.

Definition unpin_content (self : IPFSService.t) (cid : string)
  : M (bool * option string) :=
  if negb (IPFSService.client self)
  then ret (false, Some "IPFS client not initialized")
  else
    emit (IpfsPinRm cid) ;;;
    match pin_rm env cid with
    | Returned _ => ret (true, None)
    | Raised e => ret (false, Some ("Error unpinning content: " ++ e))
    end.

(** [retrieved_data.copy()] followed by [.pop(key, None)]: a [dict] gives
    the copy without the two fields, any other JSON value raises. *)
Definition copy_and_pop (retrieved_data : json) : outcome pydict :=
  match retrieved_data with
  | JDict d => Returned (strip_volatile d)
  | JList _ => Raised "pop expected at most 1 argument, got 2"
  | JStr _ => Raised "'str' object has no attribute 'copy'"
  | JInt _ => Raised "'int' object has no attribute 'copy'"
  | JBool _ => Raised "'bool' object has no attribute 'copy'"
  | JNull => Raised "'NoneType' object has no attribute 'copy'"
  end.

Definition verify_content_integrity (self : IPFSService.t) (k : nat)
    (cid : string) (expected_data : pydict)
  : M (bool * bool * option string) :=
  '(success, retrieved_data, error) <- retrieve_dpp_metadata self k cid ;;
  match success, retrieved_data with
  | true, Some retrieved =>
      match copy_and_pop retrieved with
      | Returned retrieved_copy =>
          let expected_copy := strip_volatile expected_data in
          let is_valid := py_eq (JDict retrieved_copy) (JDict expected_copy) in
          ret (true, is_valid, None)
      | Raised e =>
          ret (false, false, Some ("Error verifying content integrity: " ++ e))
      end
  | _, _ => ret (false, false, error)
  end.

(* ------------------------------------------------------------------- *)
(** ** [blockchain_service.py] *)

(** The [dppId] of the first log that decodes as [DPPRegistered]. *)
Fixpoint first_decoded (ls : list (outcome Z)) : option Z :=
  match ls with
  | [] => None
  | Returned n :: _ => Some n
  | Raised _ :: rest => first_decoded rest
  end.

Definition transaction_info_of (r : Receipt) : pydict :=
  [ ("transaction_hash", JStr (tx_hash r));
    ("block_number", JInt (blockNumber r));
    ("gas_used", JInt (gasUsed r));
    ("dpp_id", match first_decoded (logs r) with
               | Some n => JInt n
               | None => JNull
               end);
    ("status", JInt (status r)) ].

Definition register_dpp_on_blockchain (self : BlockchainService.t)
    (ipfs_cid data_hash product_id supplier_info : string)
  : M (result3 pydict) :=
  if (negb (BlockchainService.contract self) ||
      negb (BlockchainService.account self))%bool
  then ret (false, None, Some "Contract or account not initialized")
  else if negb (w3_is_connected env)
  then ret (false, None, Some "Not connected to blockchain")
  else
    emit (LedgerRegisterDPP ipfs_cid data_hash product_id supplier_info) ;;;
    match registerDPP env ipfs_cid data_hash product_id supplier_info with
    | Returned receipt => ret (true, Some (transaction_info_of receipt), None)
    | Raised e =>
        ret (false, None, Some ("Error registering DPP on blockchain: " ++ e))
    end.

Record CidVerification : Type := {
  is_valid : bool;
  ledger_dpp_id : Z;
  ledger_data_hash : string
}.

Definition verify_dpp_by_cid (self : BlockchainService.t) (ipfs_cid : string)
  : M (result3 CidVerification) :=
  if negb (BlockchainService.contract self)
  then ret (false, None, Some "Contract not initialized")
  else if negb (w3_is_connected env)
  then ret (false, None, Some "Not connected to blockchain")
  else
    emit (LedgerVerifyByCid ipfs_cid) ;;;
    match verifyByCid env ipfs_cid with
    | Returned (v, n, h) =>
        ret (true,
             Some {| is_valid := v; ledger_dpp_id := n; ledger_data_hash := h |},
             None)
    | Raised e => ret (false, None, Some ("Error verifying DPP by CID: " ++ e))
    end.
End Services.

(* ===================================================================== *)
(** * [DPPService] ([dpp_service.py]) *)
(* ===================================================================== *)

(** Python truth value of a JSON-compatible value. *)
Definition py_truthy (j : json) : bool :=
  match j with
  | JNull => false
  | JBool b => b
  | JInt z => negb (Z.eqb z 0)
  | JStr s => negb (s =? "")
  | JList l => match l with [] => false | _ => true end
  | JDict d => match d with [] => false | _ => true end
  end.

(** [x or dflt] for an optional string [x]. *)
Definition or_str (x : option string) (dflt : string) : string :=
  match x with
  | Some s => if s =? "" then dflt else s
  | None => dflt
  end.

Definition json_of_opt_str (x : option string) : json :=
  match x with
  | Some s => JStr s
  | None => JNull
  end.

(** [str(x)] inside an f-string, for an optional string. *)
Definition py_str_opt (x : option string) : string :=
  match x with
  | Some s => s
  | None => "None"
  end.

Module CreateResult.
Record t : Type := {
  dpp_id : string;
  ipfs_cid : string;
  blockchain_hash : string;
  dpp_url : string;
  gs1_digital_link : string;
  json_ld_data : pydict;
  blockchain_success : bool;
  transaction_info : pydict
}.
End CreateResult.

Module VerificationResult.
Record t : Type := {
  dpp_id : string;
  database_check : bool;
  ipfs_check : bool;
  blockchain_check : bool;
  data_integrity : bool;
  overall_valid : bool
}.
End VerificationResult.

Module UpdateResult.
Record t : Type := {
  dpp_id : string;
  new_ipfs_cid : string;
  new_data_hash : string;
  updated_at : string
}.
End UpdateResult.

Module PublicData.
Record t : Type := {
  dpp_id : string;
  product_name : string;
  product_description : option string;
  material_composition : json;
  production_location : option string;
  production_date : option string;
  json_ld_data : pydict;
  gs1_digital_link : string;
  blockchain_hash : string;
  ipfs_cid : string;
  ipfs_gateway_url : string;
  issued_at : string;
  (** [None] stands for the literal [{'overall_valid': False}] *)
  verification_status : option VerificationResult.t;
  compliance_info : pydict
}.
End PublicData.

Definition get_ipfs_gateway_url (cid : string) (gateway : string) : string :=
  gateway ++ "/ipfs/" ++ cid.

Section Coordinator.
Variable env : Env.

Definition generate_json_ld_metadata (self : DPPService.t)
    (product : Product.t) (dpp_id : string) : pydict :=
  let base_url := "https://econetra.com/dpp" in
  [ ("@context",
     JList [ JStr "https://www.w3.org/ns/credentials/v1";
             JStr "https://test.uncefact.org/vocabulary/untp/dpp/0.5.0/";
             JDict [ ("dpp", JStr "https://test.uncefact.org/vocabulary/untp/dpp/0.5.0/");
                     ("gs1", JStr "https://gs1.org/voc/");
                     ("epcis", JStr "https://ref.gs1.org/epcis/");
                     ("schema", JStr "https://schema.org/") ] ]);
    ("@type", JStr "DigitalProductPassport");
    ("@id", JStr (base_url ++ "/" ++ dpp_id));
    ("dpp:productIdentifier",
     JDict [ ("@type", JStr "gs1:GTIN");
             ("@value", JStr (or_str (Product.gtin product)
                                ("ECONETRA-" ++ Product.id product))) ]);
    ("dpp:productName", JStr (Product.product_name product));
    ("dpp:productDescription", json_of_opt_str (Product.description product));
    ("dpp:materialComposition",
     if py_truthy (Product.material_composition product)
     then Product.material_composition product else JDict []);
    ("dpp:productionLocation",
     JDict [ ("@type", JStr "schema:Place");
             ("schema:name", JStr (or_str (Product.production_location product)
                                     "Tiruppur, India")) ]);
    ("dpp:productionDate", json_of_opt_str (Product.production_date product));
    ("dpp:supplier",
     JDict [ ("@type", JStr "schema:Organization");
             ("@id", JStr ("urn:supplier:" ++ Product.supplier_id product));
             ("schema:name", JStr "Textile Supplier");
             ("schema:location", JStr "Tiruppur, India") ]);
    ("dpp:sustainability",
     JDict [ ("dpp:carbonFootprint",
              JDict [ ("@type", JStr "schema:QuantitativeValue");
                      ("schema:value", JStr "TBD");
                      ("schema:unitCode", JStr "KGM") ]);
             ("dpp:recyclability", JStr "TBD");
             ("dpp:certifications", JList []);
             ("dpp:waterUsage",
              JDict [ ("@type", JStr "schema:QuantitativeValue");
                      ("schema:value", JStr "TBD");
                      ("schema:unitCode", JStr "LTR") ]) ]);
    ("dpp:traceability",
     JDict [ ("dpp:supplyChainEvents", JList []);
             ("epcis:events", JList []) ]);
    ("dpp:compliance",
     JDict [ ("dpp:euRegulations", JList [JStr "ESPR"; JStr "DPP Delegated Act"]);
             ("dpp:standards",
              JList [JStr "JSON-LD"; JStr "GS1 Digital Link"; JStr "EPCIS 2.0"]);
             ("dpp:certificationBodies", JList []) ]);
    ("dpp:digitalSignature",
     JDict [ ("@type", JStr "dpp:CryptographicSignature");
             ("dpp:signatureMethod", JStr "blockchain");
             ("dpp:blockchain", JStr "Polygon");
             ("dpp:contractAddress",
              json_of_opt_str
                (BlockchainService.contract_address
                   (DPPService.blockchain_service self))) ]);
    ("dpp:issuedAt", JStr (utcnow env 0));
    ("dpp:version", JStr "1.0");
    ("dpp:issuer",
     JDict [ ("@type", JStr "schema:Organization");
             ("schema:name", JStr "Econetra DPP Platform");
             ("schema:url", JStr "https://econetra.com") ]) ].

(** [if epcis_events: json_ld_data["dpp:traceability"]["epcis:events"] = epcis_events] *)
Definition add_epcis_events (epcis_events : option (list json))
    (json_ld_data : pydict) : outcome pydict :=
  match epcis_events with
  | Some (e :: es) =>
      match dict_get "dpp:traceability" json_ld_data with
      | Some (JDict t) =>
          Returned (dict_set "dpp:traceability"
                      (JDict (dict_set "epcis:events" (JList (e :: es)) t))
                      json_ld_data)
      | Some _ => Raised "object does not support item assignment"
      | None => Raised "'dpp:traceability'"
      end
  | _ => Returned json_ld_data
  end.

(** [tx_info['transaction_hash']] *)
Definition transaction_hash_of (tx_info : option pydict) : outcome string :=
  match tx_info with
  | Some ti =>
      match dict_get "transaction_hash" ti with
      | Some (JStr h) => Returned h
      | Some _ => Raised "transaction_hash is not a string"
      | None => Raised "'transaction_hash'"
      end
  | None => Raised "'NoneType' object is not subscriptable"
  end.

Definition gs1_link (product : Product.t) : string :=
  "https://id.gs1.org/01/"
    ++ or_str (Product.gtin product) ("ECONETRA" ++ Product.id product)
    ++ "/10/LOT123?linkType=gs1:pip".

Definition commit_insert (dpp : DPP) : M (outcome unit) :=
  w <- get_world ;;
  match db_insert dpp (passports w) with
  | Returned rows => set_passports rows ;;; ret (Returned tt)
  | Raised e => ret (Raised e)
  end.

Definition commit_update (dpp : DPP) : M (outcome unit) :=
  w <- get_world ;;
  match db_update dpp (passports w) with
  | Returned rows => set_passports rows ;;; ret (Returned tt)
  | Raised e => ret (Raised e)
  end.

(** The handler of the outer [try] of [create_complete_dpp]; the rollback
    leaves the tables as they were, since nothing was committed. *)
Definition create_failed {A : Type} (e : string) : M (result3 A) :=
  ret (false, None, Some ("Error creating DPP: " ++ e)).

Definition create_complete_dpp (self : DPPService.t) (product_id : string)
    (epcis_events : option (list json)) : M (result3 CreateResult.t) :=
  w <- get_world ;;
  match find (fun p => Product.id p =? product_id) (products w) with
  | None => ret (false, None, Some "Product not found")
  | Some product =>
  match find (fun d => DigitalProductPassport.product_id d =? product_id)
             (passports w) with
  | Some _ => ret (false, None, Some "DPP already exists for this product")
  | None =>
  let dpp_id := uuid4 env in
  match add_epcis_events epcis_events
          (generate_json_ld_metadata self product dpp_id) with
  | Raised e => create_failed e
  | Returned json_ld_data =>
  '(ipfs_success, ipfs_cid, ipfs_error) <-
     upload_dpp_metadata env (DPPService.ipfs_service self) 1 json_ld_data ;;
  match ipfs_success, ipfs_cid with
  | false, _ =>
      ret (false, None, Some ("IPFS upload failed: " ++ py_str_opt ipfs_error))
  | true, None => create_failed "ipfs_cid is None"
  | true, Some ipfs_cid =>
  let data_hash := generate_data_hash json_ld_data in
  '(blockchain_success, tx_info, blockchain_error) <-
     register_dpp_on_blockchain env (DPPService.blockchain_service self)
       ipfs_cid data_hash product_id
       ("supplier:" ++ Product.supplier_id product) ;;
  match (if negb blockchain_success
         then let blockchain_hash := "0x" ++ data_hash in
              Returned (blockchain_hash,
                        [("transaction_hash", JStr blockchain_hash)])
         else match transaction_hash_of tx_info, tx_info with
              | Returned h, Some ti => Returned (h, ti)
              | Returned h, None => Raised "'NoneType' object is not subscriptable"
              | Raised e, _ => Raised e
              end) with
  | Raised e => create_failed e
  | Returned (blockchain_hash, tx_info) =>
  let dpp_url := "https://econetra.com/verify/" ++ dpp_id in
  let gs1_digital_link := gs1_link product in
  let dpp :=
    {| DigitalProductPassport.id := dpp_id;
       DigitalProductPassport.product_id := product_id;
       DigitalProductPassport.dpp_url := dpp_url;
       DigitalProductPassport.ipfs_cid := ipfs_cid;
       DigitalProductPassport.blockchain_hash := blockchain_hash;
       DigitalProductPassport.gs1_digital_link := gs1_digital_link;
       DigitalProductPassport.epcis_events :=
         match epcis_events with Some evs => evs | None => [] end;
       DigitalProductPassport.json_ld_data := json_ld_data;
       DigitalProductPassport.issued_at := utcnow env 2;
       DigitalProductPassport.updated_at := utcnow env 3 |} in
  committed <- commit_insert dpp ;;
  match committed with
  | Raised e => create_failed e
  | Returned _ =>
      pin_content env (DPPService.ipfs_service self) ipfs_cid ;;;
      ret (true,
           Some {| CreateResult.dpp_id := dpp_id;
                   CreateResult.ipfs_cid := ipfs_cid;
                   CreateResult.blockchain_hash := blockchain_hash;
                   CreateResult.dpp_url := dpp_url;
                   CreateResult.gs1_digital_link := gs1_digital_link;
                   CreateResult.json_ld_data := json_ld_data;
                   CreateResult.blockchain_success := blockchain_success;
                   CreateResult.transaction_info := tx_info |},
           None)
  end end end end end end.

Definition verify_dpp_integrity (self : DPPService.t) (dpp_id : string)
  : M (result3 VerificationResult.t) :=
  w <- get_world ;;
  match find (fun d => DigitalProductPassport.id d =? dpp_id) (passports w) with
  | None => ret (false, None, Some "DPP not found")
  | Some dpp =>
  let cid := DigitalProductPassport.ipfs_cid dpp in
  '(ipfs_success, ipfs_data, ipfs_error) <-
     retrieve_dpp_metadata env (DPPService.ipfs_service self) 0 cid ;;
  data_integrity <-
    (if ipfs_success
     then '(integrity_success, is_valid, integrity_error) <-
            verify_content_integrity env (DPPService.ipfs_service self) 1 cid
              (DigitalProductPassport.json_ld_data dpp) ;;
          ret (integrity_success && is_valid)%bool
     else ret false) ;;
  '(blockchain_success, blockchain_data, blockchain_error) <-
     verify_dpp_by_cid env (DPPService.blockchain_service self) cid ;;
  match (if blockchain_success
         then match blockchain_data with
              | Some data => Returned (is_valid data)
              | None => Raised "'NoneType' object is not subscriptable"
              end
         else Returned false) with
  | Raised e =>
      ret (false, None, Some ("Error verifying DPP integrity: " ++ e))
  | Returned blockchain_check =>
      let database_check := true in
      ret (true,
           Some {| VerificationResult.dpp_id := dpp_id;
                   VerificationResult.database_check := database_check;
                   VerificationResult.ipfs_check := ipfs_success;
                   VerificationResult.blockchain_check := blockchain_check;
                   VerificationResult.data_integrity := data_integrity;
                   VerificationResult.overall_valid :=
                     (database_check && ipfs_success &&
                      data_integrity && blockchain_check)%bool |},
           None)
  end end.

Definition get_dpp_public_data (self : DPPService.t) (dpp_id : string)
  : M (result3 PublicData.t) :=
  w <- get_world ;;
  match find (fun d => DigitalProductPassport.id d =? dpp_id) (passports w) with
  | None => ret (false, None, Some "DPP not found")
  | Some dpp =>
  let product :=
    find (fun p => Product.id p =? DigitalProductPassport.product_id dpp)
         (products w) in
  '(verification_success, verification_result, _) <-
     verify_dpp_integrity self dpp_id ;;
  ret (true,
       Some {| PublicData.dpp_id := DigitalProductPassport.id dpp;
               PublicData.product_name :=
                 match product with
                 | Some p => Product.product_name p
                 | None => "Unknown"
                 end;
               PublicData.product_description :=
                 match product with
                 | Some p => Product.description p
                 | None => None
                 end;
               PublicData.material_composition :=
                 match product with
                 | Some p => Product.material_composition p
                 | None => JDict []
                 end;
               PublicData.production_location :=
                 match product with
                 | Some p => Product.production_location p
                 | None => None
                 end;
               PublicData.production_date :=
                 match product with
                 | Some p => Product.production_date p
                 | None => None
                 end;
               PublicData.json_ld_data := DigitalProductPassport.json_ld_data dpp;
               PublicData.gs1_digital_link :=
                 DigitalProductPassport.gs1_digital_link dpp;
               PublicData.blockchain_hash :=
                 DigitalProductPassport.blockchain_hash dpp;
               PublicData.ipfs_cid := DigitalProductPassport.ipfs_cid dpp;
               PublicData.ipfs_gateway_url :=
                 get_ipfs_gateway_url (DigitalProductPassport.ipfs_cid dpp)
                   "https://ipfs.io";
               PublicData.issued_at := DigitalProductPassport.issued_at dpp;
               PublicData.verification_status :=
                 if verification_success then verification_result else None;
               PublicData.compliance_info :=
                 [ ("eu_regulations",
                    JList [JStr "ESPR"; JStr "DPP Delegated Act"]);
                   ("standards",
                    JList [JStr "JSON-LD"; JStr "GS1 Digital Link";
                           JStr "EPCIS 2.0"]);
                   ("blockchain_network", JStr "Polygon") ] |},
       None)
  end.

Definition update_dpp_metadata (self : DPPService.t) (dpp_id : string)
    (updated_data : pydict) : M (result3 UpdateResult.t) :=
  w <- get_world ;;
  match find (fun d => DigitalProductPassport.id d =? dpp_id) (passports w) with
  | None => ret (false, None, Some "DPP not found")
  | Some dpp =>
  let updated_json_ld :=
    dict_set "dpp:updatedAt" (JStr (utcnow env 0))
      (dict_merge (DigitalProductPassport.json_ld_data dpp) updated_data) in
  '(ipfs_success, new_ipfs_cid, ipfs_error) <-
     upload_dpp_metadata env (DPPService.ipfs_service self) 1 updated_json_ld ;;
  match ipfs_success, new_ipfs_cid with
  | false, _ =>
      ret (false, None, Some ("IPFS upload failed: " ++ py_str_opt ipfs_error))
  | true, None =>
      ret (false, None, Some "Error updating DPP metadata: ipfs_cid is None")
  | true, Some new_ipfs_cid =>
  let new_data_hash := generate_data_hash updated_json_ld in
  let updated_at := utcnow env 2 in
  let dpp' :=
    {| DigitalProductPassport.id := DigitalProductPassport.id dpp;
       DigitalProductPassport.product_id := DigitalProductPassport.product_id dpp;
       DigitalProductPassport.dpp_url := DigitalProductPassport.dpp_url dpp;
       DigitalProductPassport.ipfs_cid := new_ipfs_cid;
       DigitalProductPassport.blockchain_hash :=
         DigitalProductPassport.blockchain_hash dpp;
       DigitalProductPassport.gs1_digital_link :=
         DigitalProductPassport.gs1_digital_link dpp;
       DigitalProductPassport.epcis_events :=
         DigitalProductPassport.epcis_events dpp;
       DigitalProductPassport.json_ld_data := updated_json_ld;
       DigitalProductPassport.issued_at := DigitalProductPassport.issued_at dpp;
       DigitalProductPassport.updated_at := updated_at |} in
  committed <- commit_update dpp' ;;
  match committed with
  | Raised e =>
      ret (false, None, Some ("Error updating DPP metadata: " ++ e))
  | Returned _ =>
      pin_content env (DPPService.ipfs_service self) new_ipfs_cid ;;;
      ret (true,
           Some {| UpdateResult.dpp_id := dpp_id;
                   UpdateResult.new_ipfs_cid := new_ipfs_cid;
                   UpdateResult.new_data_hash := new_data_hash;
                   UpdateResult.updated_at := updated_at |},
           None)
  end end end.
End Coordinator.

(* ===================================================================== *)
(** * The verdict of the specification *)
(* ===================================================================== *)

(** The classification of a verification result that the specification
    words (its section 4.4), applied to the flags the source returns.  It
    follows the specification and has no counterpart in the source, which
    returns the flags themselves and no verdict. *)
Inductive Verdict : Type := Valid | Degraded | Invalid | Unverifiable.

Definition verdict_of (r : VerificationResult.t) : Verdict :=
  if negb (VerificationResult.ipfs_check r) then Unverifiable
  else if negb (VerificationResult.data_integrity r) then Invalid
  else if negb (VerificationResult.blockchain_check r) then Degraded
  else Valid.


(* ===================================================================== *)
(** * Notions used by the statements *)
(* ===================================================================== *)

(** Two documents are content-equivalent when they are equal as finite maps
    once the two volatile fields are left out. *)
Definition content_equivalent (d1 d2 : pydict) : bool :=
  json_same (JDict (strip_volatile d1)) (JDict (strip_volatile d2)).

(** The uniqueness invariant of the passport table. *)
Definition at_most_one_per_product (rows : list DPP) : Prop :=
  NoDup (map DigitalProductPassport.product_id rows).

(** The operations of the coordinator. *)
Inductive operation : Type :=
| OpCreate (product_id : string) (epcis_events : option (list json))
| OpVerify (dpp_id : string)
| OpPublicData (dpp_id : string)
| OpUpdate (dpp_id : string) (updated_data : pydict).

Definition run (env : Env) (self : DPPService.t) (op : operation)
    (w : World) : World :=
  match op with
  | OpCreate product_id epcis_events =>
      exec (create_complete_dpp env self product_id epcis_events) w
  | OpVerify dpp_id => exec (verify_dpp_integrity env self dpp_id) w
  | OpPublicData dpp_id => exec (get_dpp_public_data env self dpp_id) w
  | OpUpdate dpp_id updated_data =>
      exec (update_dpp_metadata env self dpp_id updated_data) w
  end.

(** The document [create_complete_dpp] assembles for a product: the
    generated JSON-LD with the EPCIS events put in, when there are any. *)
Definition assembled_document (env : Env) (self : DPPService.t)
    (product : Product.t) (epcis_events : option (list json)) : pydict :=
  match add_epcis_events epcis_events
          (generate_json_ld_metadata env self product (uuid4 env)) with
  | Returned d => d
  | Raised _ => generate_json_ld_metadata env self product (uuid4 env)
  end.

(** The row [create_complete_dpp] builds, given the content identifier and
    the ledger reference. *)
Definition new_passport (env : Env) (product : Product.t)
    (product_id : string) (epcis_events : option (list json))
    (json_ld_data : pydict) (ipfs_cid blockchain_hash : string) : DPP :=
  {| DigitalProductPassport.id := uuid4 env;
     DigitalProductPassport.product_id := product_id;
     DigitalProductPassport.dpp_url := "https://econetra.com/verify/" ++ uuid4 env;
     DigitalProductPassport.ipfs_cid := ipfs_cid;
     DigitalProductPassport.blockchain_hash := blockchain_hash;
     DigitalProductPassport.gs1_digital_link := gs1_link product;
     DigitalProductPassport.epcis_events :=
       match epcis_events with Some evs => evs | None => [] end;
     DigitalProductPassport.json_ld_data := json_ld_data;
     DigitalProductPassport.issued_at := utcnow env 2;
     DigitalProductPassport.updated_at := utcnow env 3 |}.

(** The row [update_dpp_metadata] leaves in place of [dpp]. *)
Definition republished (env : Env) (dpp : DPP) (updated_json_ld : pydict)
    (new_ipfs_cid : string) : DPP :=
  {| DigitalProductPassport.id := DigitalProductPassport.id dpp;
     DigitalProductPassport.product_id := DigitalProductPassport.product_id dpp;
     DigitalProductPassport.dpp_url := DigitalProductPassport.dpp_url dpp;
     DigitalProductPassport.ipfs_cid := new_ipfs_cid;
     DigitalProductPassport.blockchain_hash :=
       DigitalProductPassport.blockchain_hash dpp;
     DigitalProductPassport.gs1_digital_link :=
       DigitalProductPassport.gs1_digital_link dpp;
     DigitalProductPassport.epcis_events := DigitalProductPassport.epcis_events dpp;
     DigitalProductPassport.json_ld_data := updated_json_ld;
     DigitalProductPassport.issued_at := DigitalProductPassport.issued_at dpp;
     DigitalProductPassport.updated_at := utcnow env 2 |}.

(** The document [update_dpp_metadata] uploads and stores. *)
Definition merged_document (env : Env) (dpp : DPP) (updated_data : pydict)
  : pydict :=
  dict_set "dpp:updatedAt" (JStr (utcnow env 0))
    (dict_merge (DigitalProductPassport.json_ld_data dpp) updated_data).


(** The three checks of [verify_dpp_integrity], read off the oracle. *)
Definition content_ok (env : Env) (self : DPPService.t) (cid : string) : bool :=
  IPFSService.client (DPPService.ipfs_service self) &&
  match get_json env 0 cid with
  | Returned _ => true
  | Raised _ => false
  end.

Definition integrity_ok (env : Env) (self : DPPService.t) (cid : string)
    (stored : pydict) : bool :=
  content_ok env self cid &&
  match get_json env 1 cid with
  | Returned (JDict d) =>
      py_eq (JDict (strip_volatile d)) (JDict (strip_volatile stored))
  | _ => false
  end.

Definition ledger_ok (env : Env) (self : DPPService.t) (cid : string) : bool :=
  BlockchainService.contract (DPPService.blockchain_service self) &&
  w3_is_connected env &&
  match verifyByCid env cid with
  | Returned (v, _, _) => v
  | Raised _ => false
  end.

(** The integrity check in the words of the specification: the content was
    retrieved and the hash of its content-equivalent form is the stored data
    hash, the one [create_complete_dpp] derives from the stored document. *)
Definition spec_integrity_ok (retrieved : outcome json) (stored : pydict) : bool :=
  match retrieved with
  | Returned (JDict d) =>
      generate_data_hash (strip_volatile d) =? generate_data_hash stored
  | _ => false
  end.

(** The ledger check in the words of the specification: the query finds
    the content identifier and the hash it returns is the stored data hash.
    A [bytes32] returned by a contract call is a plain [bytes], whose
    [hex()] has no prefix, so the hash is compared in either rendering. *)
Definition spec_ledger_ok (env : Env) (self : DPPService.t) (cid : string)
    (stored : pydict) : bool :=
  BlockchainService.contract (DPPService.blockchain_service self) &&
  w3_is_connected env &&
  match verifyByCid env cid with
  | Returned (found, _, h) =>
      found && ((h =? generate_data_hash stored) ||
                ("0x" ++ h =? generate_data_hash stored))
  | Raised _ => false
  end.

(** The same oracle with the hash the ledger returns rewritten by [f]. *)
Definition with_ledger_hash (env : Env) (f : string -> string) : Env :=
  {| uuid4 := uuid4 env;
     utcnow := utcnow env;
     add_json := add_json env;
     get_json := get_json env;
     pin_add := pin_add env;
     pin_rm := pin_rm env;
     w3_is_connected := w3_is_connected env;
     registerDPP := registerDPP env;
     verifyByCid := fun cid =>
       match verifyByCid env cid with
       | Returned (v, n, h) => Returned (v, n, f h)
       | Raised e => Raised e
       end |}.


Definition is_register_event (e : event) : bool :=
  match e with
  | LedgerRegisterDPP _ _ _ _ => true
  | _ => false
  end.

Definition is_unpin_event (e : event) : bool :=
  match e with
  | IpfsPinRm _ => true
  | _ => false
  end.

(** The ledger leg of [create_complete_dpp]: the ledger reference that goes
    into the row, the [transaction_info] of the result, and
    [blockchain_success]. *)
Definition ledger_leg (env : Env) (self : DPPService.t) (product : Product.t)
    (product_id : string) (doc : pydict) (cid : string)
  : string * pydict * bool :=
  let bc := DPPService.blockchain_service self in
  let data_hash := generate_data_hash doc in
  let fallback := "0x" ++ data_hash in
  if (BlockchainService.contract bc && BlockchainService.account bc &&
      w3_is_connected env)%bool
  then match registerDPP env cid data_hash product_id
               ("supplier:" ++ Product.supplier_id product) with
       | Returned receipt => (tx_hash receipt, transaction_info_of receipt, true)
       | Raised _ => (fallback, [("transaction_hash", JStr fallback)], false)
       end
  else (fallback, [("transaction_hash", JStr fallback)], false).

(** The events of a creation that got past the upload, the pinning left
    out. *)
Definition creation_events (env : Env) (self : DPPService.t)
    (product : Product.t) (product_id : string) (doc : pydict) (cid : string)
  : list event :=
  let bc := DPPService.blockchain_service self in
  (IpfsAddJson (stamped (utcnow env 1) doc) ::
   (if (BlockchainService.contract bc && BlockchainService.account bc &&
        w3_is_connected env)%bool
    then [LedgerRegisterDPP cid (generate_data_hash doc) product_id
            ("supplier:" ++ Product.supplier_id product)]
    else []))%list.

(* ===================================================================== *)
(** * A concrete scenario *)
(* ===================================================================== *)

Module Scenario.

(** The document of the specification's scenario, in two insertion orders,
    and its stamped copy. *)
Definition doc : pydict :=
  [ ("name", JStr "Shirt");
    ("material", JDict [("cotton", JInt 80); ("polyester", JInt 20)]) ].

Definition doc_reordered : pydict :=
  [ ("material", JDict [("polyester", JInt 20); ("cotton", JInt 80)]);
    ("name", JStr "Shirt") ].

Definition doc_stamped : pydict := stamped "2024-05-01T10:00:00" doc.

Definition P1 : Product.t :=
  {| Product.id := "P1";
     Product.supplier_id := "S1";
     Product.product_name := "Shirt";
     Product.description := Some "Cotton blend shirt";
     Product.material_composition :=
       JDict [("cotton", JInt 80); ("polyester", JInt 20)];
     Product.production_location := None;
     Product.production_date := Some "2024-04-30";
     Product.gtin := None;
     Product.created_at := "2024-04-30T08:00:00";
     Product.updated_at := "2024-04-30T08:00:00" |}.

Definition service : DPPService.t :=
  {| DPPService.ipfs_service := {| IPFSService.client := true |};
     DPPService.blockchain_service :=
       {| BlockchainService.contract_address :=
            Some "0x5FbDB2315678afecb367f032d93F642f64180aa3";
          BlockchainService.account := true;
          BlockchainService.contract := true |} |}.

Definition clock (k : nat) : string :=
  match k with
  | 0%nat => "2024-05-01T10:00:00"
  | 1%nat => "2024-05-01T10:00:01"
  | 2%nat => "2024-05-01T10:00:02"
  | _ => "2024-05-01T10:00:03"
  end.

Definition receipt : Receipt :=
  {| tx_hash := "0x9f3c1d2e4b5a69788796a5b4c3d2e1f00112233445566778899aabbccddeeff0";
     blockNumber := 1200;
     gasUsed := 182000;
     logs := [Raised "MismatchedABI"; Returned 7];
     status := 1 |}.

(** The content store refuses the upload. *)
Definition env_store_down : Env :=
  {| uuid4 := "7c9e6679-7425-40de-944b-e07fc1f90ae7";
     utcnow := clock;
     add_json := fun _ => Raised "connection refused";
     get_json := fun _ _ => Raised "connection refused";
     pin_add := fun _ => Raised "connection refused";
     pin_rm := fun _ => Raised "connection refused";
     w3_is_connected := true;
     registerDPP := fun _ _ _ _ => Returned receipt;
     verifyByCid := fun _ => Returned (false, 0, "00") |}.

(** The document assembled for [P1], and the copy the store keeps of it. *)
Definition stored_doc : pydict := assembled_document env_store_down service P1 None.

Definition stored_copy : json := JDict (stamped (clock 1) stored_doc).

(** Content store and ledger both answer. *)
Definition env_ok : Env :=
  {| uuid4 := uuid4 env_store_down;
     utcnow := clock;
     add_json := fun _ => Returned "QmScenarioCid1";
     get_json := fun _ _ => Returned stored_copy;
     pin_add := fun _ => Returned tt;
     pin_rm := fun _ => Returned tt;
     w3_is_connected := true;
     registerDPP := fun _ _ _ _ => Returned receipt;
     verifyByCid := fun _ => Returned (true, 7, "00") |}.

(** The ledger node times out on the registration. *)
Definition env_ledger_down : Env :=
  {| uuid4 := uuid4 env_ok;
     utcnow := clock;
     add_json := fun _ => Returned "QmScenarioCid1";
     get_json := get_json env_ok;
     pin_add := fun _ => Returned tt;
     pin_rm := fun _ => Returned tt;
     w3_is_connected := true;
     registerDPP := fun _ _ _ _ => Raised "timed out";
     verifyByCid := fun _ => Returned (false, 0, "00") |}.

(** A republication: the store hands out a second content identifier. *)
Definition env_republish : Env :=
  {| uuid4 := uuid4 env_ok;
     utcnow := clock;
     add_json := fun _ => Returned "QmScenarioCid2";
     get_json := get_json env_ok;
     pin_add := fun _ => Returned tt;
     pin_rm := fun _ => Returned tt;
     w3_is_connected := true;
     registerDPP := fun _ _ _ _ => Returned receipt;
     verifyByCid := fun _ => Returned (false, 0, "00") |}.

Definition world0 : World :=
  {| products := [P1]; passports := []; trace := [] |}.

(** The world after a creation with the ledger down. *)
Definition world1 : World :=
  exec (create_complete_dpp env_ledger_down service "P1" None) world0.

Definition patch : pydict := [("dpp:productName", JStr "Shirt v2")].

(** A stored record and a retrieved document that differ only in that one
    holds [1] where the other holds [True]. *)
Definition stored_one : pydict := [("organic", JInt 1)].
Definition retrieved_true : json := JDict [("organic", JBool true)].

Definition record_one : DPP :=
  new_passport env_ok P1 "P1" None stored_one "QmScenarioCid3"
    ("0x" ++ generate_data_hash stored_one).

Definition world_one : World :=
  {| products := [P1]; passports := [record_one]; trace := [] |}.

(** The store answers with [retrieved_true]. *)
Definition env_true : Env :=
  {| uuid4 := uuid4 env_ok;
     utcnow := clock;
     add_json := fun _ => Returned "QmScenarioCid3";
     get_json := fun _ _ => Returned retrieved_true;
     pin_add := fun _ => Returned tt;
     pin_rm := fun _ => Returned tt;
     w3_is_connected := true;
     registerDPP := fun _ _ _ _ => Returned receipt;
     verifyByCid := fun _ => Returned (true, 7, "00") |}.

End Scenario.

(* ===================================================================== *)
(** * SHA-256 ([hashlib.sha256]) *)
(* ===================================================================== *)

(** The hash over 32-bit words held in [Z], words big-endian; bytes are [Z]
    in 0 .. 255. *)
Module Sha256.

Definition mask32 : Z := Z.ones 32.

Definition add32 (x y : Z) : Z := Z.land (x + y) mask32.

Definition rotr32 (x : Z) (n : Z) : Z :=
  Z.lor (Z.shiftr x n) (Z.land (Z.shiftl x (32 - n)) mask32).

(** The constants are fixed by their definition in FIPS 180-4: the first 32
    bits of the fractional parts of the square roots of the first eight
    primes (the initial hash value, section 5.3.3) and of the cube roots of
    the first sixty-four primes (the round constants, section 4.2.2). *)
Definition is_prime (n : nat) : bool :=
  forallb (fun d => negb (Nat.eqb (Nat.modulo n d) 0)) (seq 2 (n - 2)).

Definition primes : list Z :=
  map Z.of_nat (filter is_prime (seq 2 310)).

(** The integer cube root of [x], found bit by bit below [2 ^ bits]. *)
Fixpoint cube_root (bits : nat) (x r : Z) : Z :=
  match bits with
  | O => r
  | S bits' =>
      let c := r + 2 ^ Z.of_nat bits' in
      if (c * c * c <=? x)%Z then cube_root bits' x c else cube_root bits' x r
  end.

Definition initial_hash : list Z :=
  Eval vm_compute in
    map (fun p => Z.land (Z.sqrt (p * 2 ^ 64)) mask32) (firstn 8 primes).

Definition round_constants : list Z :=
  Eval vm_compute in
    map (fun p => Z.land (cube_root 40 (p * 2 ^ 96) 0) mask32) primes.

Definition small_sigma0 (x : Z) : Z :=
  Z.lxor (rotr32 x 7) (Z.lxor (rotr32 x 18) (Z.shiftr x 3)).
Definition small_sigma1 (x : Z) : Z :=
  Z.lxor (rotr32 x 17) (Z.lxor (rotr32 x 19) (Z.shiftr x 10)).
Definition big_sigma0 (x : Z) : Z :=
  Z.lxor (rotr32 x 2) (Z.lxor (rotr32 x 13) (rotr32 x 22)).
Definition big_sigma1 (x : Z) : Z :=
  Z.lxor (rotr32 x 6) (Z.lxor (rotr32 x 11) (rotr32 x 25)).
Definition ch (x y z : Z) : Z :=
  Z.lxor (Z.land x y) (Z.land (Z.lxor x mask32) z).
Definition maj (x y z : Z) : Z :=
  Z.lxor (Z.land x y) (Z.lxor (Z.land x z) (Z.land y z)).

(** Big-endian packing of four bytes into a word. *)
Definition word_of_bytes (bs : list Z) : Z :=
  fold_left (fun acc b => Z.lor (Z.shiftl acc 8) b) bs 0.

Fixpoint words_of_bytes (n : nat) (bs : list Z) : list Z :=
  match n with
  | O => []
  | S n' => word_of_bytes (firstn 4 bs) :: words_of_bytes n' (skipn 4 bs)
  end.

(** The message schedule: sixteen words of the block, extended to 64. *)
Fixpoint extend (n : nat) (ws : list Z) : list Z :=
  match n with
  | O => ws
  | S n' =>
      let t := List.length ws in
      let w := add32 (add32 (small_sigma1 (nth (t - 2) ws 0)) (nth (t - 7) ws 0))
                     (add32 (small_sigma0 (nth (t - 15) ws 0)) (nth (t - 16) ws 0)) in
      extend n' (ws ++ [w])
  end.

Definition step (st : list Z) (kw : Z * Z) : list Z :=
  match st with
  | [a; b; c; d; e; f; g; h] =>
      let t1 := add32 (add32 (add32 h (big_sigma1 e)) (ch e f g))
                      (add32 (fst kw) (snd kw)) in
      let t2 := add32 (big_sigma0 a) (maj a b c) in
      [add32 t1 t2; a; b; c; add32 d t1; e; f; g]
  | _ => st
  end.

Definition compress (hs : list Z) (block : list Z) : list Z :=
  let ws := extend 48 (words_of_bytes 16 block) in
  let st := fold_left step (combine round_constants ws) hs in
  map (fun p => add32 (fst p) (snd p)) (combine hs st).

Definition bytes_of_word (w : Z) : list Z :=
  [Z.land (Z.shiftr w 24) 255; Z.land (Z.shiftr w 16) 255;
   Z.land (Z.shiftr w 8) 255; Z.land w 255].

Definition length_bytes (bits : Z) : list Z :=
  map (fun i => Z.land (Z.shiftr bits (8 * (7 - Z.of_nat i))) 255) (seq 0 8).

Definition pad (msg : list Z) : list Z :=
  let l := List.length msg in
  let zeros := ((119 - l mod 64) mod 64)%nat in
  msg ++ [0x80] ++ repeat 0 zeros ++ length_bytes (8 * Z.of_nat l).

Fixpoint blocks (n : nat) (hs : list Z) (bs : list Z) : list Z :=
  match n with
  | O => hs
  | S n' => blocks n' (compress hs (firstn 64 bs)) (skipn 64 bs)
  end.

Definition sha256 (msg : list Z) : list Z :=
  let p := pad msg in
  let hs := blocks (List.length p / 64) initial_hash p in
  bytes_of_word (nth 0 hs 0) ++ bytes_of_word (nth 1 hs 0) ++
  bytes_of_word (nth 2 hs 0) ++ bytes_of_word (nth 3 hs 0) ++
  bytes_of_word (nth 4 hs 0) ++ bytes_of_word (nth 5 hs 0) ++
  bytes_of_word (nth 6 hs 0) ++ bytes_of_word (nth 7 hs 0).

End Sha256.

(* ===================================================================== *)
(** * [IPFSService.generate_content_hash] *)
(* ===================================================================== *)

Definition generate_content_hash (data : pydict) : string :=
  let json_str := json_dumps (JDict data) in
  bytes_hex (Sha256.sha256 (bytes_of_text json_str)).

(* ===================================================================== *)
(** * The read-only functions of the two clients *)
(* ===================================================================== *)

(** Outcomes of the calls these functions make; the calls are reads and are
    not entered in the trace. *)
Record LedgerTuple : Type := {
  lt_ipfs_cid : string;
  lt_data_hash : string;        (* [result[1].hex()] *)
  lt_issuer : string;
  lt_timestamp : Z;
  lt_is_active : bool;
  lt_product_id : string;
  lt_supplier_info : string
}.

Record ReadEnv : Type := {
  (** [verifyByHash(hash).call()]: is_valid, dpp_id, ipfs_cid *)
  verifyByHash : string -> outcome (bool * Z * string);
  (** [getDPP(dpp_id).call()] *)
  getDPP : Z -> outcome LedgerTuple;
  (** [getTotalDPPs().call()] *)
  getTotalDPPs : outcome Z;
  (** [client.object.stat(cid)] *)
  object_stat : string -> outcome pydict;
  (** [client.version()] *)
  version : outcome unit
}.

Record HashVerification : Type := {
  hv_is_valid : bool;
  hv_dpp_id : Z;
  hv_ipfs_cid : string
}.

(** [BlockchainService.is_connected] *)
Definition is_connected (env : Env) : bool := w3_is_connected env.

Definition verify_dpp_by_hash (env : Env) (renv : ReadEnv)
    (self : BlockchainService.t) (data_hash : string)
  : result3 HashVerification :=
  if negb (BlockchainService.contract self)
  then (false, None, Some "Contract not initialized")
  else if negb (is_connected env)
  then (false, None, Some "Not connected to blockchain")
  else match verifyByHash renv data_hash with
       | Returned (v, n, c) =>
           (true,
            Some {| hv_is_valid := v; hv_dpp_id := n; hv_ipfs_cid := c |},
            None)
       | Raised e => (false, None, Some ("Error verifying DPP by hash: " ++ e))
       end.

Definition get_dpp_from_blockchain (env : Env) (renv : ReadEnv)
    (self : BlockchainService.t) (dpp_id : Z) : result3 LedgerTuple :=
  if negb (BlockchainService.contract self)
  then (false, None, Some "Contract not initialized")
  else if negb (is_connected env)
  then (false, None, Some "Not connected to blockchain")
  else match getDPP renv dpp_id with
       | Returned dpp_info => (true, Some dpp_info, None)
       | Raised e =>
           (false, None, Some ("Error getting DPP from blockchain: " ++ e))
       end.

Definition get_total_dpps (env : Env) (renv : ReadEnv)
    (self : BlockchainService.t) : result3 Z :=
  if negb (BlockchainService.contract self)
  then (false, None, Some "Contract not initialized")
  else if negb (is_connected env)
  then (false, None, Some "Not connected to blockchain")
  else match getTotalDPPs renv with
       | Returned total => (true, Some total, None)
       | Raised e => (false, None, Some ("Error getting total DPPs: " ++ e))
       end.

(** The keys of the dictionary [get_content_stats] returns, each with the
    key of [stats] it is read from, in the order the literal reads them. *)
Definition stat_fields : list (string * string) :=
  [ ("hash", "Hash"); ("num_links", "NumLinks"); ("block_size", "BlockSize");
    ("links_size", "LinksSize"); ("data_size", "DataSize");
    ("cumulative_size", "CumulativeSize") ].

(** [str(KeyError(key))] *)
Definition key_error (key : string) : string := "'" ++ key ++ "'".

Fixpoint collect_stats (fields : list (string * string)) (stats : pydict)
  : outcome pydict :=
  match fields with
  | [] => Returned []
  | (out, key) :: rest =>
      match dict_get key stats with
      | None => Raised (key_error key)
      | Some v =>
          match collect_stats rest stats with
          | Returned d => Returned ((out, v) :: d)
          | Raised e => Raised e
          end
      end
  end.

Definition get_content_stats (renv : ReadEnv) (self : IPFSService.t)
    (cid : string) : result3 pydict :=
  if negb (IPFSService.client self)
  then (false, None, Some "IPFS client not initialized")
  else match object_stat renv cid with
       | Returned stats =>
           match collect_stats stat_fields stats with
           | Returned d => (true, Some d, None)
           | Raised e => (false, None, Some ("Error getting content stats: " ++ e))
           end
       | Raised e => (false, None, Some ("Error getting content stats: " ++ e))
       end.

Definition is_client_available (renv : ReadEnv) (self : IPFSService.t) : bool :=
  if negb (IPFSService.client self) then false
  else match version renv with
       | Returned _ => true
       | Raised _ => false
       end.

(* ===================================================================== *)
(** * Further notions used by the statements *)
(* ===================================================================== *)

(** A result tuple is either a success with a value and no message, or a
    failure with a message and no value. *)
Definition well_shaped {A : Type} (r : result3 A) : Prop :=
  match r with
  | (true, Some _, None) => True
  | (false, None, Some _) => True
  | _ => False
  end.

(** The same oracle with another outcome for [client.pin.add]. *)
Definition with_pin_add (env : Env) (f : string -> outcome unit) : Env :=
  {| uuid4 := uuid4 env;
     utcnow := utcnow env;
     add_json := add_json env;
     get_json := get_json env;
     pin_add := f;
     pin_rm := pin_rm env;
     w3_is_connected := w3_is_connected env;
     registerDPP := registerDPP env;
     verifyByCid := verifyByCid env |}.

(** Agreement of two mappings on a key, for Python's [==]. *)
Definition agree_on (key : string) (a b : pydict) : Prop :=
  match dict_get key a, dict_get key b with
  | Some v, Some v' => py_eq v v' = true
  | None, None => True
  | _, _ => False
  end.


(** The events [verify_dpp_integrity] issues for a stored record. *)
Definition verification_events (env : Env) (self : DPPService.t) (cid : string)
  : list event :=
  ((if IPFSService.client (DPPService.ipfs_service self)
    then IpfsGetJson cid ::
         match get_json env 0 cid with
         | Returned _ => [IpfsGetJson cid]
         | Raised _ => []
         end
    else []) ++
   (if BlockchainService.contract (DPPService.blockchain_service self) &&
       w3_is_connected env
    then [LedgerVerifyByCid cid] else []))%list.

(** A sequence of operations of the coordinator, each under the answers
    the external systems give while it runs. *)
Definition run_all (self : DPPService.t) (steps : list (Env * operation))
    (w : World) : World :=
  fold_left (fun w' step => run (fst step) self (snd step) w') steps w.

(** A log of a receipt that does not decode as [DPPRegistered]. *)
Definition undecodable (l : outcome Z) : Prop := exists e, l = Raised e.

(** Nothing of what [w] holds is lost in [w']: the same products, the
    identifiers of the passports of [w] still there in the same order, and
    the trace extended by calls of which none unpins. *)
Definition keeps_history (w w' : World) : Prop :=
  products w' = products w /\
  (exists new,
      map DigitalProductPassport.id (passports w') =
      (map DigitalProductPassport.id (passports w) ++ new)%list) /\
  (exists evs,
      trace w' = (trace w ++ evs)%list /\
      forallb (fun e => negb (is_unpin_event e)) evs = true).

(* ===================================================================== *)
(** * More of the scenario *)
(* ===================================================================== *)

Module Scenario2.

(** A second product, in a world that already holds the passport of [P1]. *)
Definition P2 : Product.t :=
  {| Product.id := "P2";
     Product.supplier_id := "S1";
     Product.product_name := "Scarf";
     Product.description := None;
     Product.material_composition := JNull;
     Product.production_location := Some "Erode, India";
     Product.production_date := None;
     Product.gtin := Some "08901234567894";
     Product.created_at := "2024-05-02T08:00:00";
     Product.updated_at := "2024-05-02T08:00:00" |}.

Definition world2 : World :=
  {| products := [Scenario.P1; P2];
     passports := passports Scenario.world1;
     trace := trace Scenario.world1 |}.

(** The store answers the upload for [P2] with the content identifier the
    passport of [P1] already holds. *)
Definition env_same_cid : Env :=
  {| uuid4 := "1b4e28ba-2fa1-41d2-883f-0016d3cca427";
     utcnow := Scenario.clock;
     add_json := fun _ => Returned "QmScenarioCid1";
     get_json := fun _ _ => Raised "not found";
     pin_add := fun _ => Returned tt;
     pin_rm := fun _ => Returned tt;
     w3_is_connected := true;
     registerDPP := fun _ _ _ _ => Returned Scenario.receipt;
     verifyByCid := fun _ => Returned (false, 0, "00") |}.

(** The registration transaction is mined and reverted. *)
Definition reverted : Receipt :=
  {| tx_hash := "0x5d0c7e1a9b3f4c6d8e2a1b0c9d8e7f6a5b4c3d2e1f0a9b8c7d6e5f4a3b2c1d0e";
     blockNumber := 1201;
     gasUsed := 500000;
     logs := [];
     status := 0 |}.

Definition env_reverted : Env :=
  {| uuid4 := "1b4e28ba-2fa1-41d2-883f-0016d3cca427";
     utcnow := Scenario.clock;
     add_json := fun _ => Returned "QmScenarioCid4";
     get_json := fun _ _ => Raised "not found";
     pin_add := fun _ => Raised "pin timeout";
     pin_rm := fun _ => Returned tt;
     w3_is_connected := true;
     registerDPP := fun _ _ _ _ => Returned reverted;
     verifyByCid := fun _ => Returned (false, 0, "00") |}.

(** A tampered copy of the stored document of [P1]. *)
Definition tampered_copy : json :=
  JDict (dict_set "dpp:productName" (JStr "Silk shirt")
           (stamped (Scenario.clock 1) Scenario.stored_doc)).

Definition env_tampered : Env :=
  {| uuid4 := uuid4 Scenario.env_ok;
     utcnow := Scenario.clock;
     add_json := fun _ => Returned "QmScenarioCid1";
     get_json := fun _ _ => Returned tampered_copy;
     pin_add := fun _ => Returned tt;
     pin_rm := fun _ => Returned tt;
     w3_is_connected := true;
     registerDPP := fun _ _ _ _ => Returned Scenario.receipt;
     verifyByCid := fun _ => Returned (true, 7, "00") |}.

(** The store answers with the stored document of [P1] as it was submitted,
    without the stamps. *)
Definition env_plain : Env :=
  {| uuid4 := uuid4 Scenario.env_ok;
     utcnow := Scenario.clock;
     add_json := fun _ => Returned "QmScenarioCid1";
     get_json := fun _ _ => Returned (JDict Scenario.stored_doc);
     pin_add := fun _ => Returned tt;
     pin_rm := fun _ => Returned tt;
     w3_is_connected := true;
     registerDPP := fun _ _ _ _ => Returned Scenario.receipt;
     verifyByCid := fun _ => Returned (true, 7, "00") |}.

(** The row of [P1] in [Scenario.world1], its document after the patch of
    the scenario, and a store that answers with the stamped copy of that
    document. *)
Definition stored_row : DPP :=
  new_passport Scenario.env_ok Scenario.P1 "P1" None Scenario.stored_doc
    "QmScenarioCid1" ("0x" ++ generate_data_hash Scenario.stored_doc).

Definition republished_doc : pydict :=
  merged_document Scenario.env_republish stored_row Scenario.patch.

Definition env_republished : Env :=
  {| uuid4 := uuid4 Scenario.env_ok;
     utcnow := Scenario.clock;
     add_json := fun _ => Returned "QmScenarioCid2";
     get_json := fun _ _ =>
       Returned (JDict (stamped (Scenario.clock 1) republished_doc));
     pin_add := fun _ => Returned tt;
     pin_rm := fun _ => Returned tt;
     w3_is_connected := true;
     registerDPP := fun _ _ _ _ => Returned Scenario.receipt;
     verifyByCid := fun _ => Returned (false, 0, "00") |}.

Definition service_offline : DPPService.t :=
  {| DPPService.ipfs_service := {| IPFSService.client := false |};
     DPPService.blockchain_service :=
       {| BlockchainService.contract_address := None;
          BlockchainService.account := false;
          BlockchainService.contract := false |} |}.

Definition reads : ReadEnv :=
  {| verifyByHash := fun _ => Returned (true, 7, "QmScenarioCid1");
     getDPP := fun _ => Raised "execution reverted";
     getTotalDPPs := Returned 8;
     object_stat := fun _ =>
       Returned [ ("Hash", JStr "QmScenarioCid1"); ("NumLinks", JInt 0);
                  ("BlockSize", JInt 1812); ("LinksSize", JInt 2);
                  ("DataSize", JInt 1810) ];
     version := Returned tt |}.

End Scenario2.

(* ===================================================================== *)
(** * Properties *)
(* ===================================================================== *)

(** ** The order on keys *)

Lemma ascii_compare_refl (c : ascii) : Ascii.compare c c = Eq.
Proof. unfold Ascii.compare. apply N.compare_refl. Qed.

Lemma string_compare_refl (s : string) : String.compare s s = Eq.
Proof.
  induction s as [|c s IH]; simpl; [reflexivity|].
  now rewrite ascii_compare_refl.
Qed.

Lemma string_leb_refl (s : string) : String.leb s s = true.
Proof. unfold String.leb. now rewrite string_compare_refl. Qed.

Lemma string_compare_le_trans (a b c : string) :
  String.compare a b <> Gt -> String.compare b c <> Gt ->
  String.compare a c <> Gt.
Proof.
  revert b c.
  induction a as [|x a IH]; intros [|y b] [|z c]; simpl; try congruence.
  unfold Ascii.compare.
  destruct (N.compare_spec (N_of_ascii x) (N_of_ascii y)) as [Hxy|Hxy|Hxy];
    destruct (N.compare_spec (N_of_ascii y) (N_of_ascii z)) as [Hyz|Hyz|Hyz];
    destruct (N.compare_spec (N_of_ascii x) (N_of_ascii z)) as [Hxz|Hxz|Hxz];
    try congruence; try lia; eauto.
Qed.

Lemma string_leb_trans (a b c : string) :
  String.leb a b = true -> String.leb b c = true -> String.leb a c = true.
Proof.
  unfold String.leb. intros Hab Hbc.
  pose proof (string_compare_le_trans a b c) as H.
  destruct (String.compare a b); destruct (String.compare b c);
    destruct (String.compare a c); try reflexivity; try discriminate;
    exfalso; apply H; congruence.
Qed.

(** ** Association lists and their sort *)

Lemma nodupb_NoDup (l : list string) : nodupb l = true <-> NoDup l.
Proof.
  induction l as [|k l IH]; simpl.
  - split; [constructor | reflexivity].
  - rewrite andb_true_iff, negb_true_iff, IH. split.
    + intros [Hk Hl]. constructor; [|assumption].
      intro Hin. assert (existsb (String.eqb k) l = true) as E.
      { apply existsb_exists. exists k. split; [assumption | apply String.eqb_refl]. }
      congruence.
    + intros H. inversion H as [|? ? Hk Hl]; subst. split; [|assumption].
      destruct (existsb (String.eqb k) l) eqn:E; [|reflexivity].
      apply existsb_exists in E. destruct E as [k' [Hin Heq]].
      apply String.eqb_eq in Heq. subst. contradiction.
Qed.

Section AssocLists.
Context {V : Type}.
Implicit Types (d l : list (string * V)) (k : string) (v : V).

Lemma dict_get_In k v d : dict_get k d = Some v -> In (k, v) d.
Proof.
  induction d as [|[k' v'] d IH]; simpl; [discriminate|].
  destruct (String.eqb_spec k k') as [->|Hne].
  - intros [= ->]. now left.
  - intros H. right. now apply IH.
Qed.

Lemma In_dict_get k v d :
  NoDup (map fst d) -> In (k, v) d -> dict_get k d = Some v.
Proof.
  induction d as [|[k' v'] d IH]; simpl; [contradiction|].
  intros Hnd [Heq|Hin].
  - injection Heq as -> ->. now rewrite String.eqb_refl.
  - inversion Hnd as [|? ? Hk Hd]; subst.
    destruct (String.eqb_spec k k') as [->|Hne].
    + exfalso. apply Hk. change k' with (fst (k', v)). now apply in_map.
    + now apply IH.
Qed.

Lemma dict_get_None k d : dict_get k d = None <-> ~ In k (map fst d).
Proof.
  induction d as [|[k' v'] d IH]; simpl.
  - tauto.
  - destruct (String.eqb_spec k k') as [->|Hne].
    + split; [discriminate | intros H; exfalso; apply H; now left].
    + rewrite IH. split; [intros H [E|E]; congruence | tauto].
Qed.

Lemma insert_item_perm (a : string * V) l :
  Permutation (insert_item a l) (a :: l).
Proof.
  induction l as [|b l IH]; simpl; [reflexivity|].
  destruct (String.leb (fst a) (fst b)); [reflexivity|].
  rewrite IH. apply perm_swap.
Qed.

Lemma sort_items_perm l : Permutation (sort_items l) l.
Proof.
  induction l as [|a l IH]; simpl; [reflexivity|].
  rewrite insert_item_perm. now constructor.
Qed.

Lemma insert_item_sorted (a : string * V) l :
  sorted_by_key l -> sorted_by_key (insert_item a l).
Proof.
  induction 1 as [|b l Hb Hl IH]; simpl.
  - repeat constructor.
  - destruct (String.leb (fst a) (fst b)) eqn:E.
    + constructor; [|now constructor].
      constructor; [exact E|].
      eapply Forall_impl; [|exact Hb].
      intros c Hc. unfold key_le in *. eapply string_leb_trans; eassumption.
    + constructor; [|assumption].
      assert (key_le b a) as Hba.
      { unfold key_le. destruct (String.leb_total (fst a) (fst b)); congruence. }
      eapply Permutation_Forall; [symmetry; apply insert_item_perm|].
      now constructor.
Qed.

Lemma sort_items_sorted l : sorted_by_key (sort_items l).
Proof.
  induction l as [|a l IH]; simpl; [constructor|].
  now apply insert_item_sorted.
Qed.

(** Two sorted lists with the same items and no repeated key are the same
    list. *)
Lemma sorted_by_key_unique l1 l2 :
  sorted_by_key l1 -> sorted_by_key l2 -> Permutation l1 l2 ->
  NoDup (map fst l1) -> l1 = l2.
Proof.
  intros H1. revert l2.
  induction H1 as [|a l1 Ha Hl1 IH]; intros l2 H2 Hp Hnd.
  - apply Permutation_nil in Hp. now subst.
  - destruct H2 as [|b l2 Hb Hl2].
    + symmetry in Hp. apply Permutation_nil in Hp. discriminate.
    + assert (a = b) as ->.
      { assert (In b (a :: l1)) as Hin_b
          by (eapply Permutation_in; [symmetry; exact Hp | now left]).
        assert (In a (b :: l2)) as Hin_a
          by (eapply Permutation_in; [exact Hp | now left]).
        destruct Hin_b as [E|Hin_b]; [assumption|].
        destruct Hin_a as [E|Hin_a]; [now symmetry|].
        rewrite Forall_forall in Ha, Hb.
        pose proof (Ha _ Hin_b) as Hab. pose proof (Hb _ Hin_a) as Hba.
        unfold key_le in *.
        pose proof (String.leb_antisym _ _ Hab Hba) as Hk.
        inversion Hnd as [|? ? Hnotin _]; subst.
        exfalso. apply Hnotin. rewrite Hk. now apply in_map. }
      f_equal. apply IH.
      * assumption.
      * eapply Permutation_cons_inv; exact Hp.
      * now inversion Hnd.
Qed.

Lemma sort_items_perm_eq l1 l2 :
  Permutation l1 l2 -> NoDup (map fst l1) -> sort_items l1 = sort_items l2.
Proof.
  intros Hp Hnd. apply sorted_by_key_unique.
  - apply sort_items_sorted.
  - apply sort_items_sorted.
  - rewrite !sort_items_perm. exact Hp.
  - eapply Permutation_NoDup; [|exact Hnd].
    apply Permutation_map. symmetry. apply sort_items_perm.
Qed.

Lemma dict_pop_keys_incl k d : incl (map fst (dict_pop k d)) (map fst d).
Proof.
  induction d as [|[k' v'] d IH]; simpl; [apply incl_refl|].
  destruct (String.eqb k k'); simpl.
  - apply incl_tl, incl_refl.
  - intros x [E|Hin]; [now left | right; now apply IH].
Qed.

Lemma dict_pop_NoDup k d : NoDup (map fst d) -> NoDup (map fst (dict_pop k d)).
Proof.
  induction d as [|[k' v'] d IH]; simpl; [trivial|].
  intros H. inversion H as [|? ? Hk Hd]; subst.
  destruct (String.eqb k k'); simpl; [assumption|].
  constructor; [|now apply IH].
  intro Hin. apply Hk. eapply dict_pop_keys_incl; exact Hin.
Qed.

Lemma dict_pop_incl k d : incl (dict_pop k d) d.
Proof.
  induction d as [|[k' v'] d IH]; simpl; [apply incl_refl|].
  destruct (String.eqb k k').
  - apply incl_tl, incl_refl.
  - intros x [E|Hin]; [now left | right; now apply IH].
Qed.

Lemma dict_get_pop_ne k k' d :
  k <> k' -> dict_get k (dict_pop k' d) = dict_get k d.
Proof.
  intros Hne. induction d as [|[k0 v0] d IH]; simpl; [reflexivity|].
  destruct (String.eqb_spec k' k0) as [->|Hne'].
  - destruct (String.eqb_spec k k0); [contradiction | reflexivity].
  - simpl. now rewrite IH.
Qed.

Lemma dict_get_pop_eq k d :
  NoDup (map fst d) -> dict_get k (dict_pop k d) = None.
Proof.
  induction d as [|[k0 v0] d IH]; simpl; [reflexivity|].
  intros H. inversion H as [|? ? Hk Hd]; subst.
  destruct (String.eqb_spec k k0) as [->|Hne].
  - now apply dict_get_None.
  - simpl. destruct (String.eqb_spec k k0); [contradiction|]. now apply IH.
Qed.

Lemma dict_pop_absent k d : dict_get k d = None -> dict_pop k d = d.
Proof.
  induction d as [|[k0 v0] d IH]; simpl; [reflexivity|].
  destruct (String.eqb k k0); [discriminate|].
  intros H. now rewrite IH.
Qed.

Lemma dict_get_set k k' v d :
  dict_get k (dict_set k' v d) =
  if String.eqb k k' then Some v else dict_get k d.
Proof.
  induction d as [|[k0 v0] d IH]; simpl.
  - destruct (String.eqb k k'); reflexivity.
  - destruct (String.eqb_spec k' k0) as [->|Hne]; simpl.
    + destruct (String.eqb k k0); reflexivity.
    + rewrite IH. destruct (String.eqb_spec k k0) as [->|Hne0].
      * destruct (String.eqb_spec k0 k'); [congruence | reflexivity].
      * reflexivity.
Qed.

Lemma dict_set_keys k v d :
  map fst (dict_set k v d) =
  if dict_mem k d then map fst d else (map fst d ++ [k])%list.
Proof.
  unfold dict_mem.
  induction d as [|[k0 v0] d IH]; simpl; [reflexivity|].
  destruct (String.eqb_spec k k0) as [->|Hne]; simpl; [reflexivity|].
  rewrite IH. now destruct (dict_get k d).
Qed.

Lemma dict_set_NoDup k v d :
  NoDup (map fst d) -> NoDup (map fst (dict_set k v d)).
Proof.
  intros H. rewrite dict_set_keys. unfold dict_mem.
  destruct (dict_get k d) eqn:E; [assumption|].
  apply dict_get_None in E.
  apply NoDup_rev in H. rewrite <- (rev_involutive (map fst d ++ [k])%list).
  apply NoDup_rev. rewrite rev_app_distr. simpl. constructor; [|assumption].
  now rewrite <- in_rev.
Qed.

Lemma dict_get_merge k (a b : list (string * V)) :
  dict_get k (dict_merge a b) =
  match dict_get k (rev b) with
  | Some v => Some v
  | None => dict_get k a
  end.
Proof.
  unfold dict_merge. revert a.
  induction b as [|[k0 v0] b IH]; intros a; simpl; [reflexivity|].
  rewrite IH.
  assert (forall l, dict_get k (l ++ [(k0, v0)])%list =
                    match dict_get k l with
                    | Some v => Some v
                    | None => if String.eqb k k0 then Some v0 else None
                    end) as Happ.
  { induction l as [|[k1 v1] l IHl]; simpl; [reflexivity|].
    destruct (String.eqb k k1); [reflexivity | apply IHl]. }
  rewrite Happ, dict_get_set.
  destruct (dict_get k (rev b)); [reflexivity|].
  now destruct (String.eqb k k0).
Qed.

Lemma dict_merge_NoDup (a b : list (string * V)) :
  NoDup (map fst a) -> NoDup (map fst (dict_merge a b)).
Proof.
  unfold dict_merge. revert a.
  induction b as [|[k0 v0] b IH]; intros a H; simpl; [assumption|].
  apply IH. now apply dict_set_NoDup.
Qed.
End AssocLists.

(** ** The serializer does not see insertion order *)

Lemma wf_json_dict (d : pydict) :
  wf_json (JDict d) = true <->
  NoDup (map fst d) /\ Forall (fun kv => wf_json (snd kv) = true) d.
Proof.
  simpl. rewrite andb_true_iff, nodupb_NoDup, forallb_forall, Forall_forall.
  reflexivity.
Qed.

Lemma wf_json_list (l : list json) :
  wf_json (JList l) = true <-> Forall (fun x => wf_json x = true) l.
Proof. simpl. now rewrite forallb_forall, Forall_forall. Qed.

Lemma json_dumps_same (a : json) :
  forall b,
    wf_json a = true -> wf_json b = true ->
    json_same a b = true -> json_dumps a = json_dumps b.
Proof.
  induction a as [| x | x | x | xs IH | xs IH] using json_ind;
    intros [| y | y | y | ys | ys] Ha Hb H; simpl in H; try discriminate.
  - reflexivity.
  - apply Bool.eqb_prop in H. now subst.
  - apply Z.eqb_eq in H. now subst.
  - apply String.eqb_eq in H. now subst.
  - (* lists: item by item *)
    apply wf_json_list in Ha. apply wf_json_list in Hb.
    assert (map json_dumps xs = map json_dumps ys) as E.
    { clear -IH Ha Hb H. revert ys Hb H.
      induction xs as [|x xs IHxs]; intros [|y ys] Hb H; try discriminate.
      - reflexivity.
      - apply andb_true_iff in H. destruct H as [Hxy Hrest].
        inversion IH; subst. inversion Ha; subst. inversion Hb; subst.
        simpl. f_equal; [now auto | now apply IHxs]. }
    simpl. now rewrite E.
  - (* mappings: same items up to order, hence the same sorted items *)
    apply wf_json_dict in Ha. destruct Ha as [Hnd_x Hwf_x].
    apply wf_json_dict in Hb. destruct Hb as [Hnd_y Hwf_y].
    apply andb_true_iff in H. destruct H as [Hlen Hall].
    apply Nat.eqb_eq in Hlen. rewrite forallb_forall in Hall.
    set (f := fun kv : string * json => (fst kv, json_dumps (snd kv))).
    assert (forall l : pydict, map fst (map f l) = map fst l) as Hkeys.
    { intros l. rewrite map_map. now apply map_ext. }
    assert (Permutation (map f xs) (map f ys)) as Hperm.
    { apply NoDup_Permutation_bis.
      - apply (NoDup_map_inv fst). now rewrite Hkeys.
      - rewrite !length_map. lia.
      - intros [k s] Hin. apply in_map_iff in Hin.
        destruct Hin as [[k' v] [Heq Hin]]. unfold f in Heq. simpl in Heq.
        injection Heq as -> <-.
        specialize (Hall _ Hin). simpl in Hall.
        destruct (dict_get k ys) as [v'|] eqn:Hget; [|discriminate].
        apply dict_get_In in Hget.
        rewrite Forall_forall in IH, Hwf_x, Hwf_y.
        pose proof (IH _ Hin v' (Hwf_x _ Hin) (Hwf_y _ Hget) Hall) as E.
        simpl in E. rewrite E.
        change (k, json_dumps v') with (f (k, v')). now apply in_map. }
    simpl. fold f. rewrite (sort_items_perm_eq _ _ Hperm); [reflexivity|].
    now rewrite Hkeys.
Qed.

Lemma insert_item_map {V W : Type} (g : V -> W) (a : string * V)
    (l : list (string * V)) :
  insert_item (fst a, g (snd a)) (map (fun kv => (fst kv, g (snd kv))) l) =
  map (fun kv => (fst kv, g (snd kv))) (insert_item a l).
Proof.
  induction l as [|b l IH]; simpl; [reflexivity|].
  destruct (String.leb (fst a) (fst b)); simpl; [reflexivity|].
  now rewrite IH.
Qed.

Lemma sort_items_map {V W : Type} (g : V -> W) (l : list (string * V)) :
  sort_items (map (fun kv => (fst kv, g (snd kv))) l) =
  map (fun kv => (fst kv, g (snd kv))) (sort_items l).
Proof.
  induction l as [|a l IH]; simpl; [reflexivity|].
  now rewrite IH, insert_item_map.
Qed.

(** The mapping case of the encoder in the order it works: sort the items
    by key, then render each as [key:value] and join with commas. *)
Lemma json_dumps_dict (d : pydict) :
  json_dumps (JDict d) =
  "{" ++ join ","
           (map (fun kv =>
                   encode_basestring_ascii (fst kv) ++ ":" ++ json_dumps (snd kv))
                (sort_items d))
      ++ "}".
Proof.
  simpl. rewrite sort_items_map, map_map. reflexivity.
Qed.

Lemma generate_data_hash_same (d1 d2 : pydict) :
  wf_dict d1 = true -> wf_dict d2 = true ->
  json_same (JDict d1) (JDict d2) = true ->
  generate_data_hash d1 = generate_data_hash d2.
Proof.
  intros H1 H2 Hsame. unfold generate_data_hash. cbv zeta.
  now rewrite (json_dumps_same (JDict d1) (JDict d2) H1 H2 Hsame).
Qed.

(** The text handed to Keccak is plain ASCII, so its UTF-8 encoding is the
    sequence of its character codes. *)
Lemma string_forallb_app (p : ascii -> bool) (a b : string) :
  string_forallb p (a ++ b) = (string_forallb p a && string_forallb p b)%bool.
Proof.
  induction a as [|c a IH]; simpl; [reflexivity|].
  now rewrite IH, andb_assoc.
Qed.

Lemma escape_char_is_ascii (c : ascii) :
  string_forallb is_ascii (escape_char c) = true.
Proof.
  destruct c as [[|] [|] [|] [|] [|] [|] [|] [|]]; reflexivity.
Qed.

Lemma encode_basestring_ascii_is_ascii (s : string) :
  string_forallb is_ascii (encode_basestring_ascii s) = true.
Proof.
  unfold encode_basestring_ascii. simpl.
  rewrite string_forallb_app. simpl. rewrite andb_true_r.
  induction s as [|c s IH]; simpl; [reflexivity|].
  now rewrite string_forallb_app, escape_char_is_ascii, IH.
Qed.

Lemma dumps_int_is_ascii (z : Z) : string_forallb is_ascii (dumps_int z) = true.
Proof.
  assert (forall d, string_forallb is_ascii (NilEmpty.string_of_uint d) = true)
    as Hempty by (induction d; simpl; auto).
  assert (forall d, string_forallb is_ascii (NilZero.string_of_uint d) = true)
    as Hzero by (intros []; simpl; auto; apply Hempty).
  unfold dumps_int. destruct (Z.to_int z); simpl; auto.
Qed.

Lemma join_is_ascii (l : list string) :
  Forall (fun s => string_forallb is_ascii s = true) l ->
  string_forallb is_ascii (join "," l) = true.
Proof.
  induction 1 as [|s l Hs Hl IH]; simpl; [reflexivity|].
  destruct l as [|s' l']; [assumption|].
  rewrite string_forallb_app, Hs. simpl. exact IH.
Qed.

Lemma json_dumps_is_ascii (j : json) :
  string_forallb is_ascii (json_dumps j) = true.
Proof.
  induction j as [| b | z | s | items IH | entries IH] using json_ind.
  - reflexivity.
  - now destruct b.
  - apply dumps_int_is_ascii.
  - apply encode_basestring_ascii_is_ascii.
  - simpl. rewrite string_forallb_app. simpl. rewrite andb_true_r.
    apply join_is_ascii. now rewrite Forall_map.
  - simpl. rewrite string_forallb_app. simpl. rewrite andb_true_r.
    apply join_is_ascii. rewrite Forall_map.
    eapply Permutation_Forall; [symmetry; apply sort_items_perm|].
    rewrite Forall_map. eapply Forall_impl; [|exact IH].
    intros [k v] Hv. unfold dumps_item. cbn [fst snd] in *.
    rewrite string_forallb_app, encode_basestring_ascii_is_ascii.
    rewrite string_forallb_app. exact Hv.
Qed.

(** Equality as finite maps is in particular equality for Python. *)
Lemma json_same_py_eq (a : json) :
  forall b, json_same a b = true -> py_eq a b = true.
Proof.
  induction a as [| x | x | x | xs IH | xs IH] using json_ind;
    intros [| y | y | y | ys | ys] H; simpl in H; try discriminate;
    try exact H.
  - revert ys H. induction xs as [|x xs IHxs]; intros [|y ys] H;
      try discriminate; [reflexivity|].
    apply andb_true_iff in H. destruct H as [Hxy Hrest].
    inversion IH; subst. simpl. apply andb_true_iff. split; [now auto|].
    now apply IHxs.
  - apply andb_true_iff in H. destruct H as [Hlen Hall].
    simpl. rewrite Hlen. simpl.
    rewrite forallb_forall in *. rewrite Forall_forall in IH.
    intros kv Hin. specialize (Hall _ Hin).
    destruct (dict_get (fst kv) ys); [now apply (IH _ Hin) | discriminate].
Qed.

Lemma wf_dict_pop (k : string) (d : pydict) :
  wf_dict d = true -> wf_dict (dict_pop k d) = true.
Proof.
  unfold wf_dict. rewrite !wf_json_dict. intros [Hnd Hwf]. split.
  - now apply dict_pop_NoDup.
  - rewrite Forall_forall in *. intros kv Hin. apply Hwf.
    eapply dict_pop_incl; exact Hin.
Qed.

Lemma wf_dict_strip (d : pydict) :
  wf_dict d = true -> wf_dict (strip_volatile d) = true.
Proof. intros H. unfold strip_volatile. now do 2 apply wf_dict_pop. Qed.

Lemma wf_dict_set (k : string) (v : json) (d : pydict) :
  wf_dict d = true -> wf_json v = true -> wf_dict (dict_set k v d) = true.
Proof.
  unfold wf_dict. rewrite !wf_json_dict. intros [Hnd Hwf] Hv. split.
  - now apply dict_set_NoDup.
  - clear Hnd. induction d as [|[k0 v0] d IH]; simpl.
    + now repeat constructor.
    + inversion Hwf; subst. destruct (String.eqb k k0).
      * constructor; assumption.
      * constructor; [assumption | now apply IH].
Qed.

Lemma strip_volatile_absent (d : pydict) :
  dict_get ipfs_upload_timestamp d = None ->
  dict_get ipfs_version d = None ->
  strip_volatile d = d.
Proof.
  intros Ht Hv. unfold strip_volatile.
  rewrite (dict_pop_absent _ _ Ht). now apply dict_pop_absent.
Qed.

Lemma dict_pop_set_absent {V : Type} (k : string) (v : V)
    (d : list (string * V)) :
  dict_get k d = None -> dict_pop k (dict_set k v d) = d.
Proof.
  induction d as [|[k0 v0] d IH]; simpl.
  - now rewrite String.eqb_refl.
  - destruct (String.eqb k k0) eqn:E; [discriminate|].
    intros H. simpl. rewrite E. now rewrite IH.
Qed.

Lemma dict_pop_set_ne {V : Type} (k k' : string) (v : V)
    (d : list (string * V)) :
  k <> k' -> dict_pop k (dict_set k' v d) = dict_set k' v (dict_pop k d).
Proof.
  intros Hne. induction d as [|[k0 v0] d IH]; simpl.
  - destruct (String.eqb_spec k k'); [contradiction | reflexivity].
  - destruct (String.eqb_spec k' k0) as [->|Hne0].
    + simpl. destruct (String.eqb_spec k k0); [contradiction|].
      simpl. now rewrite String.eqb_refl.
    + simpl. destruct (String.eqb_spec k k0) as [->|Hne1]; [reflexivity|].
      simpl. destruct (String.eqb_spec k' k0); [contradiction|].
      now rewrite IH.
Qed.

(** A document without the two fields comes back as it was once its
    stamped copy is stripped. *)
Lemma strip_volatile_stamped (now : string) (d : pydict) :
  dict_get ipfs_upload_timestamp d = None ->
  dict_get ipfs_version d = None ->
  strip_volatile (stamped now d) = d.
Proof.
  intros Ht Hv. unfold strip_volatile, stamped.
  rewrite dict_pop_set_ne by discriminate.
  rewrite (dict_pop_set_absent _ _ _ Ht).
  now apply dict_pop_set_absent.
Qed.

(** ** Shape of the digest *)



Lemma bytes_hex_length (bs : list Z) :
  String.length (bytes_hex bs) = (2 * List.length bs)%nat.
Proof. induction bs as [|b bs IH]; simpl; [reflexivity | rewrite IH; lia]. Qed.

Lemma hex_digit_is_hex (n : Z) : is_hex_digit (hex_digit n) = true.
Proof.
  unfold hex_digit.
  destruct (nth_in_or_default (Z.to_nat n) hex_chars "0"%char) as [Hin | ->];
    [|reflexivity].
  unfold is_hex_digit. apply existsb_exists.
  exists (nth (Z.to_nat n) hex_chars "0"%char). split; [exact Hin|].
  apply Ascii.eqb_refl.
Qed.

Lemma bytes_hex_is_hex (bs : list Z) :
  string_forallb is_hex_digit (bytes_hex bs) = true.
Proof.
  induction bs as [|b bs IH]; simpl; [reflexivity|].
  now rewrite !hex_digit_is_hex, IH.
Qed.


(* ===================================================================== *)
(** * The canonical hasher *)
(* ===================================================================== *)

(** C5.  The canonical serialization does not depend on the order in which
    the keys of a mapping were inserted: two well-formed documents that are
    equal as finite maps at every nesting level have the same canonical
    string, in which the items of every mapping appear sorted by key, and
    [generate_data_hash] returns the same digest for both. *)
Theorem generate_data_hash_key_order (d1 d2 : pydict) :
  wf_dict d1 = true -> wf_dict d2 = true ->
  json_same (JDict d1) (JDict d2) = true ->
  json_dumps (JDict d1) = json_dumps (JDict d2) /\
  generate_data_hash d1 = generate_data_hash d2.
Proof.
  intros H1 H2 Hsame. split.
  - apply json_dumps_same; assumption.
  - apply generate_data_hash_same; assumption.
Qed.

Lemma generate_data_hash_key_order_witness :
  wf_dict Scenario.doc = true /\
  wf_dict Scenario.doc_reordered = true /\
  json_same (JDict Scenario.doc) (JDict Scenario.doc_reordered) = true /\
  generate_data_hash Scenario.doc = generate_data_hash Scenario.doc_reordered.
Proof.
  split; [reflexivity|]. split; [reflexivity|]. split; [reflexivity|].
  apply (generate_data_hash_key_order Scenario.doc Scenario.doc_reordered);
    reflexivity.
Defined.

(** C1, as stated, fails: a document and its stamped copy are
    content-equivalent, yet [generate_data_hash], which serializes every
    field it is given, returns different digests for them. *)
Lemma content_equivalent_hash_differs :
  wf_dict Scenario.doc = true /\
  wf_dict Scenario.doc_stamped = true /\
  content_equivalent Scenario.doc Scenario.doc_stamped = true /\
  generate_data_hash Scenario.doc <> generate_data_hash Scenario.doc_stamped.
Proof.
  split; [reflexivity|]. split; [reflexivity|]. split; [reflexivity|].
  intro H. vm_compute in H. discriminate H.
Qed.

(** C1, amended.  [generate_data_hash] excludes no field.  For two
    well-formed content-equivalent documents, the digests of the documents
    with the two volatile fields removed are the same; in particular the
    digests of the documents themselves are the same when neither carries a
    volatile field. *)
Theorem content_equivalent_stripped_hash (d1 d2 : pydict) :
  wf_dict d1 = true -> wf_dict d2 = true ->
  content_equivalent d1 d2 = true ->
  generate_data_hash (strip_volatile d1) = generate_data_hash (strip_volatile d2) /\
  (dict_mem ipfs_upload_timestamp d1 = false -> dict_mem ipfs_version d1 = false ->
   dict_mem ipfs_upload_timestamp d2 = false -> dict_mem ipfs_version d2 = false ->
   generate_data_hash d1 = generate_data_hash d2).
Proof.
  intros H1 H2 Heq.
  assert (generate_data_hash (strip_volatile d1) =
          generate_data_hash (strip_volatile d2)) as E.
  { apply generate_data_hash_same; try apply wf_dict_strip; assumption. }
  split; [exact E|].
  unfold dict_mem. intros A1 B1 A2 B2.
  destruct (dict_get ipfs_upload_timestamp d1) eqn:Ea1; [discriminate|].
  destruct (dict_get ipfs_version d1) eqn:Eb1; [discriminate|].
  destruct (dict_get ipfs_upload_timestamp d2) eqn:Ea2; [discriminate|].
  destruct (dict_get ipfs_version d2) eqn:Eb2; [discriminate|].
  now rewrite !strip_volatile_absent in E by assumption.
Qed.

Lemma content_equivalent_stripped_hash_witness :
  wf_dict Scenario.doc_reordered = true /\
  wf_dict Scenario.doc_stamped = true /\
  content_equivalent Scenario.doc_reordered Scenario.doc_stamped = true /\
  generate_data_hash (strip_volatile Scenario.doc_reordered) =
  generate_data_hash (strip_volatile Scenario.doc_stamped).
Proof.
  split; [reflexivity|]. split; [reflexivity|]. split; [reflexivity|].
  apply (content_equivalent_stripped_hash
           Scenario.doc_reordered Scenario.doc_stamped); reflexivity.
Defined.

(* ===================================================================== *)
(** * The content store client *)
(* ===================================================================== *)

Lemma dict_set_In_keys {V : Type} (k k' : string) (v : V)
    (d : list (string * V)) :
  In k (map fst (dict_set k' v d)) <-> In k (map fst d) \/ k = k'.
Proof.
  rewrite dict_set_keys. unfold dict_mem.
  destruct (dict_get k' d) eqn:E.
  - split; [tauto|]. intros [H| ->]; [assumption|].
    apply dict_get_In in E. change k' with (fst (k', v0)). now apply in_map.
  - rewrite in_app_iff. simpl. intuition congruence.
Qed.

(** C10.  Whenever [upload_dpp_metadata] hands a document to the content
    store, that document is the input with [ipfs_upload_timestamp] set to
    the time of the upload and [ipfs_version] set to ["1.0"]: these two keys
    hold the stamped values whatever the input held under them, every other
    key holds what the input holds, the keys are those of the input together
    with the two, and no key is repeated. Without a client nothing is
    uploaded. *)
Theorem upload_adds_two_fields (env : Env) (self : IPFSService.t) (k : nat)
    (dpp_data : pydict) (w : World) :
  let uploaded := stamped (utcnow env k) dpp_data in
  trace (exec (upload_dpp_metadata env self k dpp_data) w) =
    (trace w ++ (if IPFSService.client self then [IpfsAddJson uploaded] else []))%list /\
  dict_get ipfs_upload_timestamp uploaded = Some (JStr (utcnow env k)) /\
  dict_get ipfs_version uploaded = Some (JStr "1.0") /\
  (forall key, key <> ipfs_upload_timestamp -> key <> ipfs_version ->
               dict_get key uploaded = dict_get key dpp_data) /\
  (forall key, In key (map fst uploaded) <->
               In key (map fst dpp_data) \/
               key = ipfs_upload_timestamp \/ key = ipfs_version) /\
  (NoDup (map fst dpp_data) -> NoDup (map fst uploaded)) /\
  strip_volatile uploaded = strip_volatile dpp_data.
Proof.
  intros uploaded. subst uploaded. unfold stamped. repeat split.
  - unfold upload_dpp_metadata, exec.
    destruct (IPFSService.client self); simpl.
    + unfold bind, emit. simpl.
      now destruct (add_json env _).
    + now rewrite app_nil_r.
  - rewrite !dict_get_set. reflexivity.
  - rewrite dict_get_set. reflexivity.
  - intros key Ht Hv. rewrite !dict_get_set.
    destruct (String.eqb_spec key ipfs_version); [contradiction|].
    destruct (String.eqb_spec key ipfs_upload_timestamp); [contradiction|].
    reflexivity.
  - rewrite !dict_set_In_keys. tauto.
  - rewrite !dict_set_In_keys. tauto.
  - intros H. now do 2 apply dict_set_NoDup.
  - unfold strip_volatile.
    assert (forall (key : string) (v : json) (d : pydict),
               dict_pop key (dict_set key v d) = dict_pop key d) as Hps.
    { intros key v d. induction d as [|[k0 v0] d IH]; simpl.
      - now rewrite String.eqb_refl.
      - destruct (String.eqb key k0) eqn:E; simpl; rewrite E; [reflexivity|].
        now rewrite IH. }
    rewrite (dict_pop_set_ne ipfs_upload_timestamp ipfs_version) by discriminate.
    rewrite Hps, Hps. reflexivity.
Qed.

Lemma upload_adds_two_fields_witness :
  trace (exec (upload_dpp_metadata Scenario.env_ok
                 (DPPService.ipfs_service Scenario.service) 1 Scenario.doc)
              Scenario.world0) =
  [IpfsAddJson
     [ ("name", JStr "Shirt");
       ("material", JDict [("cotton", JInt 80); ("polyester", JInt 20)]);
       ("ipfs_upload_timestamp", JStr "2024-05-01T10:00:01");
       ("ipfs_version", JStr "1.0") ]].
Proof.
  destruct (upload_adds_two_fields Scenario.env_ok
              (DPPService.ipfs_service Scenario.service) 1 Scenario.doc
              Scenario.world0) as [H _].
  exact H.
Defined.

(* ===================================================================== *)
(** * Verification *)
(* ===================================================================== *)

Lemma retrieve_dpp_metadata_cases (env : Env) (self : IPFSService.t) (k : nat)
    (cid : string) (w : World) :
  retrieve_dpp_metadata env self k cid w =
  if IPFSService.client self
  then (log w (IpfsGetJson cid),
        match get_json env k cid with
        | Returned metadata => (true, Some metadata, None)
        | Raised e => (false, None, Some ("Error retrieving from IPFS: " ++ e))
        end)
  else (w, (false, None, Some "IPFS client not initialized")).
Proof.
  unfold retrieve_dpp_metadata. destruct (IPFSService.client self); simpl.
  - unfold bind, emit, ret. now destruct (get_json env k cid).
  - reflexivity.
Qed.

(** What [verify_content_integrity] answers, case by case. *)
Lemma verify_content_integrity_cases (env : Env) (self : IPFSService.t)
    (k : nat) (cid : string) (expected : pydict) (w : World) :
  let valid :=
    IPFSService.client self &&
    match get_json env k cid with
    | Returned (JDict d) =>
        py_eq (JDict (strip_volatile d)) (JDict (strip_volatile expected))
    | _ => false
    end in
  let r := eval (verify_content_integrity env self k cid expected) w in
  (fst (fst r) && snd (fst r))%bool = valid /\
  passports (exec (verify_content_integrity env self k cid expected) w) = passports w /\
  products (exec (verify_content_integrity env self k cid expected) w) = products w /\
  trace (exec (verify_content_integrity env self k cid expected) w) =
    (trace w ++ (if IPFSService.client self then [IpfsGetJson cid] else []))%list.
Proof.
  unfold verify_content_integrity, eval, exec, bind.
  rewrite retrieve_dpp_metadata_cases.
  destruct (IPFSService.client self); simpl.
  - destruct (get_json env k cid) as [[| | | | |d]|e]; simpl; repeat split;
      reflexivity.
  - repeat split; try reflexivity. now rewrite app_nil_r.
Qed.

Lemma verify_dpp_by_cid_cases (env : Env) (self : BlockchainService.t)
    (cid : string) (w : World) :
  verify_dpp_by_cid env self cid w =
  if BlockchainService.contract self
  then if w3_is_connected env
       then (log w (LedgerVerifyByCid cid),
             match verifyByCid env cid with
             | Returned (v, n, h) =>
                 (true,
                  Some {| is_valid := v; ledger_dpp_id := n; ledger_data_hash := h |},
                  None)
             | Raised e => (false, None, Some ("Error verifying DPP by CID: " ++ e))
             end)
       else (w, (false, None, Some "Not connected to blockchain"))
  else (w, (false, None, Some "Contract not initialized")).
Proof.
  unfold verify_dpp_by_cid.
  destruct (BlockchainService.contract self); simpl; [|reflexivity].
  destruct (w3_is_connected env); simpl; [|reflexivity].
  unfold bind, emit, ret. now destruct (verifyByCid env cid) as [[[v n] h]|e].
Qed.

(** [verify_dpp_integrity] on a stored record always answers with a result,
    whose flags are the three checks; it changes no table. *)
Lemma verify_dpp_integrity_result (env : Env) (self : DPPService.t)
    (dpp_id : string) (w : World) (dpp : DPP) :
  find (fun d => DigitalProductPassport.id d =? dpp_id) (passports w) = Some dpp ->
  let cid := DigitalProductPassport.ipfs_cid dpp in
  let stored := DigitalProductPassport.json_ld_data dpp in
  eval (verify_dpp_integrity env self dpp_id) w =
    (true,
     Some {| VerificationResult.dpp_id := dpp_id;
             VerificationResult.database_check := true;
             VerificationResult.ipfs_check := content_ok env self cid;
             VerificationResult.blockchain_check := ledger_ok env self cid;
             VerificationResult.data_integrity := integrity_ok env self cid stored;
             VerificationResult.overall_valid :=
               content_ok env self cid && integrity_ok env self cid stored &&
               ledger_ok env self cid |},
     None) /\
  passports (exec (verify_dpp_integrity env self dpp_id) w) = passports w /\
  products (exec (verify_dpp_integrity env self dpp_id) w) = products w.
Proof.
  intros Hfind cid stored.
  unfold verify_dpp_integrity, eval, exec, bind, get_world.
  rewrite Hfind. fold cid. fold stored.
  rewrite retrieve_dpp_metadata_cases.
  unfold verify_content_integrity, bind.
  unfold integrity_ok, content_ok, ledger_ok.
  destruct (IPFSService.client (DPPService.ipfs_service self)) eqn:Hc; simpl.
  - destruct (get_json env 0 cid) as [m0|e0]; simpl.
    + rewrite retrieve_dpp_metadata_cases, Hc. simpl.
      destruct (get_json env 1 cid) as [[| | | | |d]|e1]; simpl;
        rewrite verify_dpp_by_cid_cases;
        destruct (BlockchainService.contract (DPPService.blockchain_service self));
        simpl; try (repeat split; reflexivity);
        destruct (w3_is_connected env); simpl; try (repeat split; reflexivity);
        destruct (verifyByCid env cid) as [[[v n] h]|e]; simpl;
        repeat split; try reflexivity;
        rewrite ?andb_true_r, ?andb_false_r; reflexivity.
    + rewrite verify_dpp_by_cid_cases;
        destruct (BlockchainService.contract (DPPService.blockchain_service self));
        simpl; try (repeat split; reflexivity);
        destruct (w3_is_connected env); simpl; try (repeat split; reflexivity);
        destruct (verifyByCid env cid) as [[[v n] h]|e]; simpl;
        repeat split; reflexivity.
  - rewrite verify_dpp_by_cid_cases;
      destruct (BlockchainService.contract (DPPService.blockchain_service self));
      simpl; try (repeat split; reflexivity);
      destruct (w3_is_connected env); simpl; try (repeat split; reflexivity);
      destruct (verifyByCid env cid) as [[[v n] h]|e]; simpl;
      repeat split; reflexivity.
Qed.

(** C2, as stated, fails: the store returns a document holding [True] where
    the stored record holds [1].  The comparison of
    [verify_content_integrity] finds them equal, so the integrity flag of
    [verify_dpp_integrity] is set, while the hash of the retrieved document
    is not the stored data hash. *)
Lemma structural_check_differs_from_hash_check :
  eval (verify_content_integrity Scenario.env_true
          (DPPService.ipfs_service Scenario.service) 1 "QmScenarioCid3"
          Scenario.stored_one) Scenario.world_one = (true, true, None) /\
  (exists r,
     eval (verify_dpp_integrity Scenario.env_true Scenario.service
             (uuid4 Scenario.env_true)) Scenario.world_one = (true, Some r, None) /\
     VerificationResult.data_integrity r = true) /\
  spec_integrity_ok (get_json Scenario.env_true 1 "QmScenarioCid3")
    Scenario.stored_one = false.
Proof.
  split; [reflexivity|]. split.
  - eexists. split; [vm_compute; reflexivity | reflexivity].
  - vm_compute. reflexivity.
Qed.

(** C2, amended.  For every stored record, the integrity flag of
    [verify_dpp_integrity] is set exactly when the content was retrieved and
    the document retrieved by [verify_content_integrity] is a mapping equal,
    for Python's [==], to the stored document once the two volatile fields
    are removed from both; no hash is computed.  Whenever the retrieved and
    the stored document are well formed and content-equivalent, the flag is
    set and the digests of their forms without the volatile fields are the
    same. *)
Theorem data_integrity_is_structural (env : Env) (self : DPPService.t)
    (dpp_id : string) (w : World) (dpp : DPP) :
  find (fun d => DigitalProductPassport.id d =? dpp_id) (passports w) = Some dpp ->
  let cid := DigitalProductPassport.ipfs_cid dpp in
  let stored := DigitalProductPassport.json_ld_data dpp in
  exists r,
    eval (verify_dpp_integrity env self dpp_id) w = (true, Some r, None) /\
    (VerificationResult.data_integrity r = true <->
     content_ok env self cid = true /\
     exists d, get_json env 1 cid = Returned (JDict d) /\
               py_eq (JDict (strip_volatile d)) (JDict (strip_volatile stored)) = true) /\
    (forall d,
        content_ok env self cid = true ->
        get_json env 1 cid = Returned (JDict d) ->
        wf_dict d = true -> wf_dict stored = true ->
        content_equivalent d stored = true ->
        VerificationResult.data_integrity r = true /\
        generate_data_hash (strip_volatile d) =
        generate_data_hash (strip_volatile stored)).
Proof.
  intros Hfind cid stored.
  destruct (verify_dpp_integrity_result env self dpp_id w dpp Hfind) as [Hr _].
  eexists. split; [exact Hr|]. simpl. fold cid. fold stored.
  unfold integrity_ok. split.
  - rewrite andb_true_iff. split.
    + intros [Hc Hd]. split; [exact Hc|].
      destruct (get_json env 1 cid) as [[| | | | |d]|e]; try discriminate.
      now exists d.
    + intros [Hc [d [Hget Heq]]]. now rewrite Hget.
  - intros d Hc Hget Hwd Hws Hequiv. rewrite Hc, Hget. split.
    + exact (json_same_py_eq _ _ Hequiv).
    + apply generate_data_hash_same; try apply wf_dict_strip; assumption.
Qed.

Lemma data_integrity_is_structural_witness :
  exists r,
    eval (verify_dpp_integrity Scenario.env_ok Scenario.service
            (uuid4 Scenario.env_ok)) Scenario.world1 = (true, Some r, None) /\
    VerificationResult.data_integrity r = true /\
    generate_data_hash
      (strip_volatile (stamped (Scenario.clock 1) Scenario.stored_doc)) =
    generate_data_hash (strip_volatile Scenario.stored_doc).
Proof.
  assert (find (fun d => DigitalProductPassport.id d =? uuid4 Scenario.env_ok)
               (passports Scenario.world1) =
          Some (new_passport Scenario.env_ok Scenario.P1 "P1" None
                  Scenario.stored_doc "QmScenarioCid1"
                  ("0x" ++ generate_data_hash Scenario.stored_doc))) as Hfind
    by (vm_compute; reflexivity).
  destruct (data_integrity_is_structural Scenario.env_ok Scenario.service
              (uuid4 Scenario.env_ok) Scenario.world1 _ Hfind)
    as [r [Hr [_ Himp]]].
  exists r. split; [exact Hr|].
  apply (Himp (stamped (Scenario.clock 1) Scenario.stored_doc));
    vm_compute; reflexivity.
Defined.

(** C3, as stated, fails.  The passport of the scenario is reported with
    [overall_valid] set although the hash the ledger returns for its content
    identifier is not the data hash of the stored document, so that the
    ledger check of the specification fails; and the record holding [1] is
    reported with [overall_valid] set although the retrieved content does
    not hash to the stored data hash, so that the integrity check of the
    specification fails. *)
Lemma overall_valid_without_hash_match :
  ((exists r,
       eval (verify_dpp_integrity Scenario.env_ok Scenario.service
               (uuid4 Scenario.env_ok)) Scenario.world1 = (true, Some r, None) /\
       VerificationResult.overall_valid r = true) /\
   verifyByCid Scenario.env_ok "QmScenarioCid1" = Returned (true, 7, "00") /\
   spec_ledger_ok Scenario.env_ok Scenario.service "QmScenarioCid1"
     Scenario.stored_doc = false) /\
  ((exists r,
       eval (verify_dpp_integrity Scenario.env_true Scenario.service
               (uuid4 Scenario.env_true)) Scenario.world_one = (true, Some r, None) /\
       VerificationResult.overall_valid r = true) /\
   spec_integrity_ok (get_json Scenario.env_true 1 "QmScenarioCid3")
     Scenario.stored_one = false).
Proof.
  split; split.
  - eexists. split; [vm_compute; reflexivity | reflexivity].
  - split; [reflexivity | vm_compute; reflexivity].
  - eexists. split; [vm_compute; reflexivity | reflexivity].
  - vm_compute. reflexivity.
Qed.

Lemma verify_dpp_integrity_ledger_hash (env : Env) (self : DPPService.t)
    (f : string -> string) (cid : string) (stored : pydict) :
  content_ok (with_ledger_hash env f) self cid = content_ok env self cid /\
  integrity_ok (with_ledger_hash env f) self cid stored =
    integrity_ok env self cid stored /\
  ledger_ok (with_ledger_hash env f) self cid = ledger_ok env self cid.
Proof.
  unfold integrity_ok, content_ok, ledger_ok, with_ledger_hash.
  cbn [get_json w3_is_connected verifyByCid].
  repeat split. now destruct (verifyByCid env cid) as [[[v n] h]|e].
Qed.

(** C3, amended.  For every stored record [verify_dpp_integrity] answers
    with five flags and no verdict: [database_check], which is set;
    [ipfs_check], set when the content was retrieved; [data_integrity], set
    when moreover the retrieved mapping equals the stored document for
    Python's [==] once the two volatile fields are removed; and
    [blockchain_check], set when [verifyByCid] answered with [is_valid].
    [overall_valid] is their conjunction.  No hash is computed or compared:
    the hash the ledger returns has no influence on the result. *)
Theorem overall_valid_iff_three_flags (env : Env) (self : DPPService.t)
    (dpp_id : string) (w : World) (dpp : DPP) :
  find (fun d => DigitalProductPassport.id d =? dpp_id) (passports w) = Some dpp ->
  let cid := DigitalProductPassport.ipfs_cid dpp in
  let stored := DigitalProductPassport.json_ld_data dpp in
  exists r,
    eval (verify_dpp_integrity env self dpp_id) w = (true, Some r, None) /\
    VerificationResult.dpp_id r = dpp_id /\
    VerificationResult.database_check r = true /\
    VerificationResult.ipfs_check r = content_ok env self cid /\
    VerificationResult.data_integrity r = integrity_ok env self cid stored /\
    VerificationResult.blockchain_check r = ledger_ok env self cid /\
    VerificationResult.overall_valid r =
      (VerificationResult.database_check r && VerificationResult.ipfs_check r &&
       VerificationResult.data_integrity r &&
       VerificationResult.blockchain_check r)%bool /\
    (VerificationResult.overall_valid r = true <->
     content_ok env self cid = true /\
     integrity_ok env self cid stored = true /\
     ledger_ok env self cid = true) /\
    (forall f,
        eval (verify_dpp_integrity (with_ledger_hash env f) self dpp_id) w =
        (true, Some r, None)).
Proof.
  intros Hfind cid stored.
  destruct (verify_dpp_integrity_result env self dpp_id w dpp Hfind) as [Hr _].
  eexists. split; [exact Hr|]. fold cid. fold stored.
  cbn [VerificationResult.dpp_id VerificationResult.database_check
       VerificationResult.ipfs_check VerificationResult.data_integrity
       VerificationResult.blockchain_check VerificationResult.overall_valid].
  do 5 (split; [reflexivity|]).
  split; [|split].
  - cbn [andb]. now rewrite <- andb_assoc.
  - rewrite !andb_true_iff. tauto.
  - intros f.
    destruct (verify_dpp_integrity_result (with_ledger_hash env f) self dpp_id
                w dpp Hfind) as [Hr' _].
    rewrite Hr'. fold cid. fold stored.
    destruct (verify_dpp_integrity_ledger_hash env self f cid stored)
      as [-> [-> ->]].
    reflexivity.
Qed.

Lemma overall_valid_iff_three_flags_witness :
  exists r,
    eval (verify_dpp_integrity Scenario.env_ok Scenario.service
            (uuid4 Scenario.env_ok)) Scenario.world1 = (true, Some r, None) /\
    VerificationResult.overall_valid r = true /\
    eval (verify_dpp_integrity
            (with_ledger_hash Scenario.env_ok
               (fun _ => generate_data_hash Scenario.stored_doc))
            Scenario.service (uuid4 Scenario.env_ok)) Scenario.world1 =
      (true, Some r, None).
Proof.
  assert (find (fun d => DigitalProductPassport.id d =? uuid4 Scenario.env_ok)
               (passports Scenario.world1) =
          Some (new_passport Scenario.env_ok Scenario.P1 "P1" None
                  Scenario.stored_doc "QmScenarioCid1"
                  ("0x" ++ generate_data_hash Scenario.stored_doc))) as Hfind
    by (vm_compute; reflexivity).
  destruct (overall_valid_iff_three_flags Scenario.env_ok Scenario.service
              (uuid4 Scenario.env_ok) Scenario.world1 _ Hfind)
    as [r [Hr [_ [_ [_ [_ [_ [_ [Hvalid Hhash]]]]]]]]].
  exists r. split; [exact Hr|]. split; [|apply Hhash].
  apply Hvalid. vm_compute. repeat split; reflexivity.
Defined.

(* ===================================================================== *)
(** * Creation *)
(* ===================================================================== *)

Arguments generate_data_hash : simpl never.
Arguments generate_json_ld_metadata : simpl never.
Arguments assembled_document : simpl never.
Arguments stamped : simpl never.

Lemma upload_dpp_metadata_cases (env : Env) (self : IPFSService.t) (k : nat)
    (dpp_data : pydict) (w : World) :
  upload_dpp_metadata env self k dpp_data w =
  if IPFSService.client self
  then (log w (IpfsAddJson (stamped (utcnow env k) dpp_data)),
        match add_json env (stamped (utcnow env k) dpp_data) with
        | Returned cid => (true, Some cid, None)
        | Raised e => (false, None, Some ("Error uploading to IPFS: " ++ e))
        end)
  else (w, (false, None, Some "IPFS client not initialized")).
Proof.
  unfold upload_dpp_metadata. destruct (IPFSService.client self); simpl.
  - unfold bind, emit, ret. now destruct (add_json env _).
  - reflexivity.
Qed.

Lemma register_dpp_on_blockchain_cases (env : Env) (self : BlockchainService.t)
    (cid h pid sup : string) (w : World) :
  register_dpp_on_blockchain env self cid h pid sup w =
  if (BlockchainService.contract self && BlockchainService.account self)%bool
  then if w3_is_connected env
       then (log w (LedgerRegisterDPP cid h pid sup),
             match registerDPP env cid h pid sup with
             | Returned receipt => (true, Some (transaction_info_of receipt), None)
             | Raised e =>
                 (false, None, Some ("Error registering DPP on blockchain: " ++ e))
             end)
       else (w, (false, None, Some "Not connected to blockchain"))
  else (w, (false, None, Some "Contract or account not initialized")).
Proof.
  unfold register_dpp_on_blockchain.
  destruct (BlockchainService.contract self);
    destruct (BlockchainService.account self); simpl; try reflexivity.
  destruct (w3_is_connected env); simpl; [|reflexivity].
  unfold bind, emit, ret. now destruct (registerDPP env cid h pid sup).
Qed.

Lemma pin_content_cases (env : Env) (self : IPFSService.t) (cid : string)
    (w : World) :
  exec (pin_content env self cid) w =
  if IPFSService.client self then log w (IpfsPinAdd cid) else w.
Proof.
  unfold pin_content, exec. destruct (IPFSService.client self); simpl.
  - unfold bind, emit, ret. now destruct (pin_add env cid).
  - reflexivity.
Qed.

Lemma add_epcis_events_generated (env : Env) (self : DPPService.t)
    (product : Product.t) (epcis_events : option (list json)) :
  add_epcis_events epcis_events
    (generate_json_ld_metadata env self product (uuid4 env)) =
  Returned (assembled_document env self product epcis_events).
Proof.
  unfold assembled_document. destruct epcis_events as [[|e es]|]; reflexivity.
Qed.

(** The paths of [create_complete_dpp] that stop before anything is
    uploaded or stored. *)
Lemma create_complete_dpp_rejected (env : Env) (self : DPPService.t)
    (product_id : string) (epcis_events : option (list json)) (w : World) :
  (find (fun p => Product.id p =? product_id) (products w) = None ->
   create_complete_dpp env self product_id epcis_events w =
   (w, (false, None, Some "Product not found"))) /\
  (forall product d,
      find (fun p => Product.id p =? product_id) (products w) = Some product ->
      find (fun d => DigitalProductPassport.product_id d =? product_id)
           (passports w) = Some d ->
      create_complete_dpp env self product_id epcis_events w =
      (w, (false, None, Some "DPP already exists for this product"))).
Proof.
  split.
  - intros H. unfold create_complete_dpp, bind, get_world. now rewrite H.
  - intros product d Hp Hd. unfold create_complete_dpp, bind, get_world.
    now rewrite Hp, Hd.
Qed.

(** The path on which the upload fails. *)
Lemma create_complete_dpp_upload_failed (env : Env) (self : DPPService.t)
    (product_id : string) (epcis_events : option (list json)) (w : World)
    (product : Product.t) :
  find (fun p => Product.id p =? product_id) (products w) = Some product ->
  find (fun d => DigitalProductPassport.product_id d =? product_id)
       (passports w) = None ->
  let doc := assembled_document env self product epcis_events in
  let uploaded := stamped (utcnow env 1) doc in
  (IPFSService.client (DPPService.ipfs_service self) = false ->
   create_complete_dpp env self product_id epcis_events w =
   (w, (false, None, Some "IPFS upload failed: IPFS client not initialized"))) /\
  (forall e,
      IPFSService.client (DPPService.ipfs_service self) = true ->
      add_json env uploaded = Raised e ->
      create_complete_dpp env self product_id epcis_events w =
      (log w (IpfsAddJson uploaded),
       (false, None,
        Some ("IPFS upload failed: " ++ ("Error uploading to IPFS: " ++ e))))).
Proof.
  intros Hp Hd doc uploaded. split.
  - intros Hc. unfold create_complete_dpp, bind, get_world.
    rewrite Hp, Hd, add_epcis_events_generated, upload_dpp_metadata_cases, Hc.
    reflexivity.
  - intros e Hc He. unfold create_complete_dpp, bind, get_world.
    rewrite Hp, Hd, add_epcis_events_generated, upload_dpp_metadata_cases, Hc.
    fold doc. fold uploaded. rewrite He. reflexivity.
Qed.

(** The path past a successful upload: the ledger leg never stops the flow,
    and the row is stored unless the table refuses it. *)
Lemma create_complete_dpp_uploaded (env : Env) (self : DPPService.t)
    (product_id : string) (epcis_events : option (list json)) (w : World)
    (product : Product.t) (cid : string) :
  find (fun p => Product.id p =? product_id) (products w) = Some product ->
  find (fun d => DigitalProductPassport.product_id d =? product_id)
       (passports w) = None ->
  let doc := assembled_document env self product epcis_events in
  IPFSService.client (DPPService.ipfs_service self) = true ->
  add_json env (stamped (utcnow env 1) doc) = Returned cid ->
  let c := create_complete_dpp env self product_id epcis_events in
  let leg := ledger_leg env self product product_id doc cid in
  let row :=
    new_passport env product product_id epcis_events doc cid (fst (fst leg)) in
  products (exec c w) = products w /\
  match db_insert row (passports w) with
  | Returned rows =>
      eval c w =
        (true,
         Some {| CreateResult.dpp_id := uuid4 env;
                 CreateResult.ipfs_cid := cid;
                 CreateResult.blockchain_hash := fst (fst leg);
                 CreateResult.dpp_url := "https://econetra.com/verify/" ++ uuid4 env;
                 CreateResult.gs1_digital_link := gs1_link product;
                 CreateResult.json_ld_data := doc;
                 CreateResult.blockchain_success := snd leg;
                 CreateResult.transaction_info := snd (fst leg) |},
         None) /\
      passports (exec c w) = rows /\
      trace (exec c w) =
        (trace w ++ creation_events env self product product_id doc cid
                 ++ [IpfsPinAdd cid])%list
  | Raised e =>
      eval c w = (false, None, Some ("Error creating DPP: " ++ e)) /\
      passports (exec c w) = passports w /\
      trace (exec c w) =
        (trace w ++ creation_events env self product product_id doc cid)%list
  end.
Proof.
  intros Hp Hd doc Hc Hadd c leg row.
  subst c leg row. unfold ledger_leg, creation_events.
  unfold create_complete_dpp, eval, exec, bind, get_world.
  rewrite Hp, Hd, add_epcis_events_generated, upload_dpp_metadata_cases, Hc.
  fold doc. rewrite Hadd. cbv iota beta.
  rewrite register_dpp_on_blockchain_cases.
  destruct (BlockchainService.contract (DPPService.blockchain_service self));
    destruct (BlockchainService.account (DPPService.blockchain_service self));
    destruct (w3_is_connected env); simpl;
    try match goal with
        | |- context [registerDPP ?e ?a ?b ?c ?d] =>
            destruct (registerDPP e a b c d) as [receipt|e0]
        end;
    simpl; unfold commit_insert, bind, get_world; simpl;
    unfold new_passport;
    match goal with
    | |- context [db_insert ?r ?rows] => destruct (db_insert r rows) eqn:Hins
    end;
    simpl; rewrite ?pin_content_cases, ?Hc; simpl;
    unfold pin_content, bind, emit, ret; rewrite ?Hc; simpl;
    try destruct (pin_add env cid); simpl;
    rewrite ?Hins; rewrite <- ?app_assoc; simpl; repeat split; reflexivity.
Qed.


(** Every creation either reports a failure and leaves both tables as they
    were, or went through the upload and stored exactly the new row. *)
Lemma create_complete_dpp_outcome (env : Env) (self : DPPService.t)
    (product_id : string) (epcis_events : option (list json)) (w : World) :
  let c := create_complete_dpp env self product_id epcis_events in
  (fst (fst (eval c w)) = false /\
   passports (exec c w) = passports w /\ products (exec c w) = products w) \/
  (exists product cid,
      let doc := assembled_document env self product epcis_events in
      let leg := ledger_leg env self product product_id doc cid in
      let row :=
        new_passport env product product_id epcis_events doc cid (fst (fst leg)) in
      find (fun p => Product.id p =? product_id) (products w) = Some product /\
      find (fun d => DigitalProductPassport.product_id d =? product_id)
           (passports w) = None /\
      IPFSService.client (DPPService.ipfs_service self) = true /\
      add_json env (stamped (utcnow env 1) doc) = Returned cid /\
      db_insert row (passports w) = Returned (passports w ++ [row])%list /\
      eval c w =
        (true,
         Some {| CreateResult.dpp_id := uuid4 env;
                 CreateResult.ipfs_cid := cid;
                 CreateResult.blockchain_hash := fst (fst leg);
                 CreateResult.dpp_url := "https://econetra.com/verify/" ++ uuid4 env;
                 CreateResult.gs1_digital_link := gs1_link product;
                 CreateResult.json_ld_data := doc;
                 CreateResult.blockchain_success := snd leg;
                 CreateResult.transaction_info := snd (fst leg) |},
         None) /\
      passports (exec c w) = (passports w ++ [row])%list /\
      products (exec c w) = products w /\
      trace (exec c w) =
        (trace w ++ creation_events env self product product_id doc cid
                 ++ [IpfsPinAdd cid])%list).
Proof.
  intros c. subst c.
  destruct (find (fun p => Product.id p =? product_id) (products w))
    as [product|] eqn:Hp.
  2:{ left. unfold eval, exec.
      rewrite (proj1 (create_complete_dpp_rejected env self product_id
                        epcis_events w) Hp). now simpl. }
  destruct (find (fun d => DigitalProductPassport.product_id d =? product_id)
                 (passports w)) as [d|] eqn:Hd.
  { left. unfold eval, exec.
    rewrite (proj2 (create_complete_dpp_rejected env self product_id
                      epcis_events w) product d Hp Hd). now simpl. }
  destruct (create_complete_dpp_upload_failed env self product_id epcis_events
              w product Hp Hd) as [Hnoclient Hraised].
  destruct (IPFSService.client (DPPService.ipfs_service self)) eqn:Hc.
  2:{ left. unfold eval, exec. rewrite (Hnoclient eq_refl). now simpl. }
  destruct (add_json env (stamped (utcnow env 1)
                            (assembled_document env self product epcis_events)))
    as [cid|e] eqn:Hadd.
  2:{ left. unfold eval, exec. rewrite (Hraised e eq_refl eq_refl). now simpl. }
  pose proof (create_complete_dpp_uploaded env self product_id epcis_events w
                product cid Hp Hd Hc Hadd) as Hup.
  cbv zeta in Hup. destruct Hup as [Hprod Hup].
  destruct (db_insert _ (passports w)) as [rows|e] eqn:Hins.
  - right. exists product, cid. cbv zeta.
    assert (rows = (passports w ++
             [new_passport env product product_id epcis_events
                (assembled_document env self product epcis_events) cid
                (fst (fst (ledger_leg env self product product_id
                             (assembled_document env self product epcis_events)
                             cid)))])%list) as ->.
    { unfold db_insert in Hins.
      destruct (_ && _)%bool in Hins; [now inversion Hins | discriminate]. }
    destruct Hup as [H1 [H2 H3]]. rewrite Hins. now repeat split.
  - left. destruct Hup as [H1 [H2 H3]]. rewrite H1. now repeat split.
Qed.

(** ** Republication *)

Arguments merged_document : simpl never.

Lemma update_dpp_metadata_cases (env : Env) (self : DPPService.t)
    (dpp_id : string) (updated_data : pydict) (w : World) :
  let c := update_dpp_metadata env self dpp_id updated_data in
  products (exec c w) = products w /\
  match find (fun d => DigitalProductPassport.id d =? dpp_id) (passports w) with
  | None =>
      eval c w = (false, None, Some "DPP not found") /\
      passports (exec c w) = passports w /\ trace (exec c w) = trace w
  | Some dpp =>
      let merged := merged_document env dpp updated_data in
      let uploaded := stamped (utcnow env 1) merged in
      if IPFSService.client (DPPService.ipfs_service self)
      then match add_json env uploaded with
           | Raised e =>
               eval c w =
                 (false, None,
                  Some ("IPFS upload failed: " ++ ("Error uploading to IPFS: " ++ e))) /\
               passports (exec c w) = passports w /\
               trace (exec c w) = (trace w ++ [IpfsAddJson uploaded])%list
           | Returned cid =>
               match db_update (republished env dpp merged cid) (passports w) with
               | Returned rows =>
                   eval c w =
                     (true,
                      Some {| UpdateResult.dpp_id := dpp_id;
                              UpdateResult.new_ipfs_cid := cid;
                              UpdateResult.new_data_hash := generate_data_hash merged;
                              UpdateResult.updated_at := utcnow env 2 |},
                      None) /\
                   passports (exec c w) = rows /\
                   trace (exec c w) =
                     (trace w ++ [IpfsAddJson uploaded; IpfsPinAdd cid])%list
               | Raised e =>
                   eval c w =
                     (false, None, Some ("Error updating DPP metadata: " ++ e)) /\
                   passports (exec c w) = passports w /\
                   trace (exec c w) = (trace w ++ [IpfsAddJson uploaded])%list
               end
           end
      else eval c w =
             (false, None, Some "IPFS upload failed: IPFS client not initialized") /\
           passports (exec c w) = passports w /\ trace (exec c w) = trace w
  end.
Proof.
  intros c. subst c.
  unfold update_dpp_metadata, eval, exec, bind, get_world.
  destruct (find (fun d => DigitalProductPassport.id d =? dpp_id) (passports w))
    as [dpp|] eqn:Hfind; [|now repeat split].
  fold (merged_document env dpp updated_data).
  rewrite upload_dpp_metadata_cases.
  destruct (IPFSService.client (DPPService.ipfs_service self)) eqn:Hc;
    [|now repeat split].
  destruct (add_json env _) as [cid|e]; [|now repeat split].
  cbv iota beta zeta. unfold commit_update, bind, get_world.
  fold (republished env dpp (merged_document env dpp updated_data) cid).
  simpl.
  destruct (db_update _ (passports w)) as [rows|e]; simpl.
  - unfold pin_content, bind, emit, ret. rewrite Hc. simpl.
    destruct (pin_add env cid); simpl; rewrite <- app_assoc; now repeat split.
  - now repeat split.
Qed.

(* ===================================================================== *)
(** * Creation: the claims *)
(* ===================================================================== *)

(** C6.  When the upload of the assembled document fails, because there is
    no content-store client or because the store raises,
    [create_complete_dpp] returns an error and stores nothing: both tables
    are as before, and the trace of external calls is the one before,
    followed at most by the failed upload itself, so no ledger registration
    was attempted and nothing was pinned. *)
Theorem create_aborts_when_upload_fails (env : Env) (self : DPPService.t)
    (product_id : string) (epcis_events : option (list json)) (w : World)
    (product : Product.t) :
  find (fun p => Product.id p =? product_id) (products w) = Some product ->
  find (fun d => DigitalProductPassport.product_id d =? product_id)
       (passports w) = None ->
  let uploaded :=
    stamped (utcnow env 1) (assembled_document env self product epcis_events) in
  (IPFSService.client (DPPService.ipfs_service self) = false \/
   exists e, add_json env uploaded = Raised e) ->
  let c := create_complete_dpp env self product_id epcis_events in
  (exists msg, eval c w = (false, None, Some ("IPFS upload failed: " ++ msg))) /\
  passports (exec c w) = passports w /\
  products (exec c w) = products w /\
  (trace (exec c w) = trace w \/
   trace (exec c w) = (trace w ++ [IpfsAddJson uploaded])%list) /\
  filter is_register_event (trace (exec c w)) =
    filter is_register_event (trace w).
Proof.
  intros Hp Hd uploaded Hfail c.
  destruct (create_complete_dpp_upload_failed env self product_id epcis_events
              w product Hp Hd) as [Hnoclient Hraised].
  assert (exists msg,
             create_complete_dpp env self product_id epcis_events w =
               (w, (false, None, Some ("IPFS upload failed: " ++ msg))) \/
             create_complete_dpp env self product_id epcis_events w =
               (log w (IpfsAddJson uploaded),
                (false, None, Some ("IPFS upload failed: " ++ msg)))) as [msg Hc].
  { destruct (IPFSService.client (DPPService.ipfs_service self)) eqn:Hclient.
    - destruct Hfail as [Hfalse|[e He]]; [discriminate|].
      eexists. right. exact (Hraised e eq_refl He).
    - eexists. left. exact (Hnoclient eq_refl). }
  subst c. unfold eval, exec.
  split; [|split; [|split; [|split]]].
  - exists msg. now destruct Hc as [Hc|Hc]; rewrite Hc.
  - now destruct Hc as [Hc|Hc]; rewrite Hc.
  - now destruct Hc as [Hc|Hc]; rewrite Hc.
  - destruct Hc as [Hc|Hc]; rewrite Hc; [now left | now right].
  - destruct Hc as [Hc|Hc]; rewrite Hc; simpl; [reflexivity|].
    rewrite filter_app. simpl. apply app_nil_r.
Qed.

Lemma create_aborts_when_upload_fails_witness :
  eval (create_complete_dpp Scenario.env_store_down Scenario.service "P1" None)
       Scenario.world0 =
    (false, None,
     Some "IPFS upload failed: Error uploading to IPFS: connection refused") /\
  passports (exec (create_complete_dpp Scenario.env_store_down Scenario.service
                     "P1" None) Scenario.world0) = [].
Proof.
  destruct (create_aborts_when_upload_fails Scenario.env_store_down
              Scenario.service "P1" None Scenario.world0 Scenario.P1
              eq_refl eq_refl
              (or_intror (ex_intro _ "connection refused" eq_refl)))
    as [_ [Hrows _]].
  split; [vm_compute; reflexivity | exact Hrows].
Defined.




(** ** The uniqueness invariant *)

Lemma find_product_id_none (product_id : string) (rows : list DPP) :
  find (fun d => DigitalProductPassport.product_id d =? product_id) rows = None <->
  ~ In product_id (map DigitalProductPassport.product_id rows).
Proof.
  induction rows as [|o rows IH]; simpl; [tauto|].
  destruct (String.eqb_spec (DigitalProductPassport.product_id o) product_id)
    as [E|E].
  - split; [discriminate | intros H; exfalso; apply H; now left].
  - rewrite IH. tauto.
Qed.

Lemma primary_key_free_notin (r : DPP) (rows : list DPP) :
  primary_key_free r rows = true ->
  ~ In (DigitalProductPassport.id r) (map DigitalProductPassport.id rows).
Proof.
  unfold primary_key_free. rewrite forallb_forall. intros H Hin.
  apply in_map_iff in Hin. destruct Hin as [o [E Ho]].
  specialize (H o Ho). rewrite E, String.eqb_refl in H. discriminate.
Qed.

Lemma NoDup_snoc {A : Type} (l : list A) (a : A) :
  NoDup l -> ~ In a l -> NoDup (l ++ [a]).
Proof.
  intros Hl Ha. apply NoDup_rev in Hl.
  rewrite <- (rev_involutive (l ++ [a])). apply NoDup_rev.
  rewrite rev_app_distr. simpl. constructor; [|assumption].
  now rewrite <- in_rev.
Qed.

Lemma NoDup_map_eq {A B : Type} (f : A -> B) (l : list A) (a b : A) :
  NoDup (map f l) -> In a l -> In b l -> f a = f b -> a = b.
Proof.
  induction l as [|x l IH]; simpl; [contradiction|].
  intros Hnd Ha Hb E. inversion Hnd as [|? ? Hx Hl]; subst.
  destruct Ha as [->|Ha]; destruct Hb as [->|Hb].
  - reflexivity.
  - exfalso. apply Hx. rewrite E. now apply in_map.
  - exfalso. apply Hx. rewrite <- E. now apply in_map.
  - now apply IH.
Qed.

Lemma find_id_some (dpp_id : string) (rows : list DPP) (dpp : DPP) :
  find (fun d => DigitalProductPassport.id d =? dpp_id) rows = Some dpp ->
  In dpp rows /\ DigitalProductPassport.id dpp = dpp_id.
Proof.
  intros H. apply find_some in H. destruct H as [Hin E].
  now apply String.eqb_eq in E.
Qed.

(** A committed update changes neither the keys nor the products of the
    rows, when the replacing row keeps the product of the row it replaces. *)
Lemma db_update_columns (r dpp : DPP) (rows rows' : list DPP) :
  NoDup (map DigitalProductPassport.id rows) ->
  In dpp rows ->
  DigitalProductPassport.id r = DigitalProductPassport.id dpp ->
  DigitalProductPassport.product_id r = DigitalProductPassport.product_id dpp ->
  db_update r rows = Returned rows' ->
  rows' = map (fun o => if DigitalProductPassport.id o =? DigitalProductPassport.id r
                        then r else o) rows /\
  map DigitalProductPassport.id rows' = map DigitalProductPassport.id rows /\
  map DigitalProductPassport.product_id rows' =
  map DigitalProductPassport.product_id rows.
Proof.
  intros Hnd Hin Hid Hpid Hupd. unfold db_update in Hupd.
  destruct (unique_columns_free r _); [|discriminate].
  injection Hupd as <-. split; [reflexivity|].
  rewrite !map_map. split; apply map_ext_in; intros o Ho.
  - destruct (String.eqb_spec (DigitalProductPassport.id o)
                (DigitalProductPassport.id r)); congruence.
  - destruct (String.eqb_spec (DigitalProductPassport.id o)
                (DigitalProductPassport.id r)) as [E|E]; [|reflexivity].
    rewrite Hpid. f_equal.
    apply (NoDup_map_eq DigitalProductPassport.id rows); try assumption.
    congruence.
Qed.

Lemma verify_dpp_integrity_tables (env : Env) (self : DPPService.t)
    (dpp_id : string) (w : World) :
  passports (exec (verify_dpp_integrity env self dpp_id) w) = passports w /\
  products (exec (verify_dpp_integrity env self dpp_id) w) = products w.
Proof.
  destruct (find (fun d => DigitalProductPassport.id d =? dpp_id) (passports w))
    as [dpp|] eqn:Hfind.
  - now destruct (verify_dpp_integrity_result env self dpp_id w dpp Hfind)
      as [_ [H1 H2]].
  - unfold verify_dpp_integrity, exec, bind, get_world. rewrite Hfind. now simpl.
Qed.

Lemma get_dpp_public_data_tables (env : Env) (self : DPPService.t)
    (dpp_id : string) (w : World) :
  passports (exec (get_dpp_public_data env self dpp_id) w) = passports w /\
  products (exec (get_dpp_public_data env self dpp_id) w) = products w.
Proof.
  unfold get_dpp_public_data, exec, bind, get_world.
  destruct (find (fun d => DigitalProductPassport.id d =? dpp_id) (passports w))
    as [dpp|] eqn:Hfind; [|now simpl].
  pose proof (verify_dpp_integrity_tables env self dpp_id w) as H.
  unfold exec in H.
  destruct (verify_dpp_integrity env self dpp_id w) as [w' [[s r] e]].
  exact H.
Qed.

(** Every operation of the coordinator keeps the primary key and the
    product of the passport rows pairwise distinct. *)
Lemma run_keeps_table_keys (env : Env) (self : DPPService.t) (op : operation)
    (w : World) :
  NoDup (map DigitalProductPassport.id (passports w)) ->
  at_most_one_per_product (passports w) ->
  NoDup (map DigitalProductPassport.id (passports (run env self op w))) /\
  at_most_one_per_product (passports (run env self op w)).
Proof.
  unfold at_most_one_per_product. intros Hid Hprod.
  destruct op as [pid ev | dpp_id | dpp_id | dpp_id patch]; simpl.
  - destruct (create_complete_dpp_outcome env self pid ev w)
      as [[_ [Hrows _]] | [product [cid H]]].
    + now rewrite Hrows.
    + cbv zeta in H. destruct H as [_ [Hnone [_ [_ [Hins [_ [Hrows _]]]]]]].
      rewrite Hrows, !map_app. simpl. split; apply NoDup_snoc; try assumption.
      * unfold db_insert in Hins.
        destruct (primary_key_free _ _) eqn:Hpk; [|discriminate].
        now apply primary_key_free_notin in Hpk.
      * now apply find_product_id_none.
  - now rewrite (proj1 (verify_dpp_integrity_tables env self dpp_id w)).
  - now rewrite (proj1 (get_dpp_public_data_tables env self dpp_id w)).
  - pose proof (update_dpp_metadata_cases env self dpp_id patch w) as H.
    cbv zeta in H. destruct H as [_ H].
    destruct (find (fun d => DigitalProductPassport.id d =? dpp_id) (passports w))
      as [dpp|] eqn:Hfind.
    2:{ destruct H as [_ [Hrows _]]. now rewrite Hrows. }
    destruct (IPFSService.client (DPPService.ipfs_service self)).
    2:{ destruct H as [_ [Hrows _]]. now rewrite Hrows. }
    destruct (add_json env _) as [cid|e].
    2:{ destruct H as [_ [Hrows _]]. now rewrite Hrows. }
    destruct (db_update _ (passports w)) as [rows|e] eqn:Hupd.
    2:{ destruct H as [_ [Hrows _]]. now rewrite Hrows. }
    destruct H as [_ [Hrows _]]. rewrite Hrows.
    apply find_id_some in Hfind. destruct Hfind as [Hin _].
    destruct (db_update_columns
                (republished env dpp (merged_document env dpp patch) cid)
                dpp _ _ Hid Hin eq_refl eq_refl Hupd)
      as [_ [E1 E2]].
    now rewrite E1, E2.
Qed.

(** C7.  In a passport table whose rows have pairwise distinct primary keys
    and pairwise distinct products: [create_complete_dpp] fails with
    ["Product not found"] when the product does not exist, and fails, with
    ["DPP already exists for this product"] when the product exists, as soon
    as a row for the product is present, leaving the world as it was; so a
    creation that succeeds found no row for the product and leaves exactly
    one.  Every operation of the coordinator (create, verify, public data,
    update) preserves both properties of the table. *)
Theorem one_passport_per_product (env : Env) (self : DPPService.t) (w : World) :
  NoDup (map DigitalProductPassport.id (passports w)) ->
  at_most_one_per_product (passports w) ->
  (forall product_id epcis_events,
      let c := create_complete_dpp env self product_id epcis_events in
      (find (fun p => Product.id p =? product_id) (products w) = None ->
       c w = (w, (false, None, Some "Product not found"))) /\
      (forall d, In d (passports w) ->
                 DigitalProductPassport.product_id d = product_id ->
                 fst (fst (eval c w)) = false /\ exec c w = w /\
                 (forall product,
                     find (fun p => Product.id p =? product_id) (products w) =
                       Some product ->
                     eval c w =
                       (false, None, Some "DPP already exists for this product"))) /\
      (fst (fst (eval c w)) = true ->
       (forall d, In d (passports w) ->
                  DigitalProductPassport.product_id d <> product_id) /\
       exists row,
         DigitalProductPassport.product_id row = product_id /\
         passports (exec c w) = (passports w ++ [row])%list)) /\
  (forall op,
      NoDup (map DigitalProductPassport.id (passports (run env self op w))) /\
      at_most_one_per_product (passports (run env self op w))).
Proof.
  intros Hid Hprod. split; [|intros op; now apply run_keeps_table_keys].
  intros product_id epcis_events c. subst c.
  destruct (create_complete_dpp_rejected env self product_id epcis_events w)
    as [Hnotfound Hexists].
  split; [exact Hnotfound|]. split.
  - intros d Hin Hpid.
    destruct (find (fun d => DigitalProductPassport.product_id d =? product_id)
                   (passports w)) as [d'|] eqn:Hd.
    2:{ exfalso. apply find_product_id_none in Hd. apply Hd.
        rewrite <- Hpid. now apply in_map. }
    destruct (find (fun p => Product.id p =? product_id) (products w))
      as [product|] eqn:Hp.
    + unfold eval, exec. rewrite (Hexists product d' eq_refl eq_refl).
      split; [reflexivity|]. split; [reflexivity|]. now intros product' _.
    + unfold eval, exec. rewrite (Hnotfound eq_refl).
      split; [reflexivity|]. split; [reflexivity|].
      intros product' Hcontra. discriminate.
  - intros Hok.
    destruct (create_complete_dpp_outcome env self product_id epcis_events w)
      as [[Hfail _] | [product [cid H]]]; [congruence|].
    cbv zeta in H. destruct H as [_ [Hnone [_ [_ [_ [_ [Hrows _]]]]]]]. split.
    + intros d Hin Hpid. apply find_product_id_none in Hnone. apply Hnone.
      rewrite <- Hpid. now apply in_map.
    + eexists. split; [|exact Hrows]. reflexivity.
Qed.

Lemma one_passport_per_product_witness :
  eval (create_complete_dpp Scenario.env_ok Scenario.service "P1" None)
       Scenario.world1 =
    (false, None, Some "DPP already exists for this product") /\
  at_most_one_per_product
    (passports (run Scenario.env_ok Scenario.service (OpCreate "P1" None)
                  Scenario.world1)).
Proof.
  assert (NoDup (map DigitalProductPassport.id (passports Scenario.world1))) as Hid.
  { vm_compute. repeat constructor. intros H. exact H. }
  assert (at_most_one_per_product (passports Scenario.world1)) as Hprod.
  { unfold at_most_one_per_product. vm_compute. repeat constructor.
    intros H. exact H. }
  destruct (one_passport_per_product Scenario.env_ok Scenario.service
              Scenario.world1 Hid Hprod) as [Hcreate Hrun].
  split.
  - destruct (Hcreate "P1" None) as [_ [Hpresent _]].
    assert (In (new_passport Scenario.env_ok Scenario.P1 "P1" None
                  Scenario.stored_doc "QmScenarioCid1"
                  ("0x" ++ generate_data_hash Scenario.stored_doc))
               (passports Scenario.world1)) as Hin
      by (vm_compute; left; reflexivity).
    destruct (Hpresent _ Hin eq_refl) as [_ [_ Hmsg]].
    exact (Hmsg Scenario.P1 eq_refl).
  - exact (proj2 (Hrun (OpCreate "P1" None))).
Defined.




(* ===================================================================== *)
(** * Republication: the claims *)
(* ===================================================================== *)

Lemma dict_get_rev {V : Type} (k : string) (d : list (string * V)) :
  NoDup (map fst d) -> dict_get k (rev d) = dict_get k d.
Proof.
  intros Hnd.
  assert (NoDup (map fst (rev d))) as Hnd' by (rewrite map_rev; now apply NoDup_rev).
  destruct (dict_get k d) as [v|] eqn:E.
  - apply In_dict_get; [assumption|]. rewrite <- in_rev. now apply dict_get_In.
  - apply dict_get_None. apply dict_get_None in E.
    now rewrite map_rev, <- in_rev.
Qed.

(** C8, as stated, fails: after a republication of the passport created
    with the ledger down, the row holds the new content identifier and the
    new document, but its ledger reference is the one it had, which is no
    longer the hash of the stored document; nothing was registered. *)
Lemma republish_keeps_ledger_reference :
  let c := update_dpp_metadata Scenario.env_republish Scenario.service
             (uuid4 Scenario.env_republish) Scenario.patch in
  exists r row0 row1,
    eval c Scenario.world1 = (true, Some r, None) /\
    passports Scenario.world1 = [row0] /\
    passports (exec c Scenario.world1) = [row1] /\
    DigitalProductPassport.ipfs_cid row0 = "QmScenarioCid1" /\
    DigitalProductPassport.ipfs_cid row1 = "QmScenarioCid2" /\
    DigitalProductPassport.blockchain_hash row0 =
      "0x" ++ generate_data_hash (DigitalProductPassport.json_ld_data row0) /\
    DigitalProductPassport.blockchain_hash row1 =
      DigitalProductPassport.blockchain_hash row0 /\
    UpdateResult.new_data_hash r =
      generate_data_hash (DigitalProductPassport.json_ld_data row1) /\
    DigitalProductPassport.blockchain_hash row1 <>
      "0x" ++ UpdateResult.new_data_hash r /\
    trace (exec c Scenario.world1) =
      (trace Scenario.world1 ++
       [IpfsAddJson (stamped (Scenario.clock 1)
                       (DigitalProductPassport.json_ld_data row1));
        IpfsPinAdd "QmScenarioCid2"])%list.
Proof.
  cbv zeta. do 3 eexists.
  split; [vm_compute; reflexivity|].
  split; [vm_compute; reflexivity|].
  split; [vm_compute; reflexivity|].
  split; [reflexivity|]. split; [reflexivity|].
  split; [vm_compute; reflexivity|].
  split; [reflexivity|].
  split; [vm_compute; reflexivity|].
  split; [intro H; vm_compute in H; discriminate H|].
  vm_compute. reflexivity.
Qed.

(** C8, amended.  A republication that succeeds merges the patch shallowly
    into the stored document (a key of the patch overrides the stored one),
    sets ["dpp:updatedAt"], uploads the result and gets a new content
    identifier; on the existing row it replaces the content identifier, the
    stored document and the update time, and leaves every other column, the
    ledger reference among them, as it was.  The new data hash is computed
    and returned, not stored, and nothing is registered on the ledger.  No
    row is added, and the only calls that leave the process are the upload
    and the pinning of the new content: the prior content is not unpinned. *)
Theorem republish_replaces_content_only (env : Env) (self : DPPService.t)
    (dpp_id : string) (updated_data : pydict) (w : World) (dpp : DPP)
    (cid : string) (rows : list DPP) :
  find (fun d => DigitalProductPassport.id d =? dpp_id) (passports w) = Some dpp ->
  NoDup (map fst updated_data) ->
  let merged := merged_document env dpp updated_data in
  let row := republished env dpp merged cid in
  IPFSService.client (DPPService.ipfs_service self) = true ->
  add_json env (stamped (utcnow env 1) merged) = Returned cid ->
  db_update row (passports w) = Returned rows ->
  let c := update_dpp_metadata env self dpp_id updated_data in
  eval c w =
    (true,
     Some {| UpdateResult.dpp_id := dpp_id;
             UpdateResult.new_ipfs_cid := cid;
             UpdateResult.new_data_hash := generate_data_hash merged;
             UpdateResult.updated_at := utcnow env 2 |},
     None) /\
  (forall key,
      dict_get key merged =
      if key =? "dpp:updatedAt" then Some (JStr (utcnow env 0))
      else match dict_get key updated_data with
           | Some v => Some v
           | None => dict_get key (DigitalProductPassport.json_ld_data dpp)
           end) /\
  passports (exec c w) =
    map (fun o => if DigitalProductPassport.id o =? DigitalProductPassport.id dpp
                  then row else o) (passports w) /\
  List.length (passports (exec c w)) = List.length (passports w) /\
  DigitalProductPassport.ipfs_cid row = cid /\
  DigitalProductPassport.json_ld_data row = merged /\
  DigitalProductPassport.updated_at row = utcnow env 2 /\
  DigitalProductPassport.blockchain_hash row =
    DigitalProductPassport.blockchain_hash dpp /\
  DigitalProductPassport.id row = DigitalProductPassport.id dpp /\
  DigitalProductPassport.product_id row = DigitalProductPassport.product_id dpp /\
  DigitalProductPassport.dpp_url row = DigitalProductPassport.dpp_url dpp /\
  DigitalProductPassport.issued_at row = DigitalProductPassport.issued_at dpp /\
  products (exec c w) = products w /\
  trace (exec c w) =
    (trace w ++ [IpfsAddJson (stamped (utcnow env 1) merged); IpfsPinAdd cid])%list.
Proof.
  intros Hfind Hnd merged row Hc Hadd Hupd c.
  pose proof (update_dpp_metadata_cases env self dpp_id updated_data w) as H.
  cbv zeta in H. rewrite Hfind, Hc in H. fold merged in H. rewrite Hadd in H.
  fold row in H. rewrite Hupd in H. destruct H as [Hprod [Hr [Hrows Htrace]]].
  split; [exact Hr|]. split.
  - intros key. unfold merged, merged_document.
    rewrite dict_get_set, dict_get_merge, dict_get_rev by assumption.
    reflexivity.
  - assert (rows = map (fun o => if DigitalProductPassport.id o =?
                                    DigitalProductPassport.id dpp
                                 then row else o) (passports w)) as Erows.
    { unfold db_update in Hupd.
      destruct (unique_columns_free row _); [|discriminate].
      now injection Hupd as <-. }
    subst c. rewrite Hrows, Erows, length_map. now repeat split.
Qed.

Lemma republish_replaces_content_only_witness :
  exists row,
    passports (exec (update_dpp_metadata Scenario.env_republish Scenario.service
                       (uuid4 Scenario.env_republish) Scenario.patch)
                    Scenario.world1) = [row] /\
    DigitalProductPassport.ipfs_cid row = "QmScenarioCid2" /\
    dict_get "dpp:productName" (DigitalProductPassport.json_ld_data row) =
      Some (JStr "Shirt v2").
Proof.
  pose (dpp := new_passport Scenario.env_ok Scenario.P1 "P1" None
                 Scenario.stored_doc "QmScenarioCid1"
                 ("0x" ++ generate_data_hash Scenario.stored_doc)).
  assert (find (fun d => DigitalProductPassport.id d =? uuid4 Scenario.env_republish)
               (passports Scenario.world1) = Some dpp) as Hfind
    by (vm_compute; reflexivity).
  assert (NoDup (map fst Scenario.patch)) as Hnd
    by (repeat constructor; intros H; exact H).
  pose (row := republished Scenario.env_republish dpp
                 (merged_document Scenario.env_republish dpp Scenario.patch)
                 "QmScenarioCid2").
  assert (db_update row (passports Scenario.world1) = Returned [row]) as Hupd
    by (vm_compute; reflexivity).
  destruct (republish_replaces_content_only Scenario.env_republish
              Scenario.service (uuid4 Scenario.env_republish) Scenario.patch
              Scenario.world1 dpp "QmScenarioCid2" [row] Hfind Hnd eq_refl
              eq_refl Hupd) as [_ [Hmerge [Hrows _]]].
  exists row. split; [|split].
  - rewrite Hrows. vm_compute. reflexivity.
  - reflexivity.
  - exact (Hmerge "dpp:productName").
Defined.

(* ===================================================================== *)
(** * Known answers *)
(* ===================================================================== *)

Example keccak256_of_empty_text :
  bytes_hex (Keccak.keccak256 (bytes_of_text "")) =
  "c5d2460186f7233c927e7db2dcc703c0e500b653ca82273b7bfad8045d85a470".
Proof. vm_compute. reflexivity. Qed.

Example keccak256_of_abc :
  bytes_hex (Keccak.keccak256 (bytes_of_text "abc")) =
  "4e03657aea45a94fc7d47ba826c8d667c0d1e6e33a64a036ec44f58fa12d6c45".
Proof. vm_compute. reflexivity. Qed.

Example keccak256_of_transfer_signature :
  bytes_hex (Keccak.keccak256 (bytes_of_text "Transfer(address,address,uint256)")) =
  "ddf252ad1be2c89b69c2b068fc378daa952ba7f163c4a11628f55a4df523b3ef".
Proof. vm_compute. reflexivity. Qed.

Example json_dumps_of_scenario_document :
  let q := fun s => String dquote (s ++ String dquote "") in
  json_dumps (JDict Scenario.doc) =
  "{" ++ q "material" ++ ":{" ++ q "cotton" ++ ":80," ++ q "polyester" ++ ":20},"
      ++ q "name" ++ ":" ++ q "Shirt" ++ "}".
Proof. vm_compute. reflexivity. Qed.

Example python_equates_true_and_one :
  py_eq (JDict [("organic", JBool true)]) (JDict [("organic", JInt 1)]) = true /\
  json_dumps (JDict [("organic", JBool true)]) <>
  json_dumps (JDict [("organic", JInt 1)]).
Proof. split; [reflexivity | intro H; vm_compute in H; discriminate H]. Qed.

(* ===================================================================== *)
(** * Further properties of the comparison and of the hashers *)
(* ===================================================================== *)

Lemma py_eq_refl (a : json) : wf_json a = true -> py_eq a a = true.
Proof.
  induction a as [| b | z | s | xs IH | xs IH] using json_ind; intros Hwf.
  - reflexivity.
  - apply Bool.eqb_reflx.
  - apply Z.eqb_refl.
  - apply String.eqb_refl.
  - apply wf_json_list in Hwf. simpl.
    induction xs as [|x xs IHxs]; [reflexivity|].
    inversion IH; subst. inversion Hwf; subst.
    apply andb_true_iff. split; [now auto | now apply IHxs].
  - apply wf_json_dict in Hwf. destruct Hwf as [Hnd Hwf].
    simpl. rewrite Nat.eqb_refl. simpl.
    apply forallb_forall. intros [k v] Hin. simpl.
    rewrite (In_dict_get k v xs Hnd Hin).
    rewrite Forall_forall in IH, Hwf.
    exact (IH _ Hin (Hwf _ Hin)).
Qed.

Lemma dict_pop_set_same {V : Type} (key : string) (v : V)
    (d : list (string * V)) :
  dict_pop key (dict_set key v d) = dict_pop key d.
Proof.
  induction d as [|[k0 v0] d IH]; simpl.
  - now rewrite String.eqb_refl.
  - destruct (String.eqb key k0) eqn:E; simpl; rewrite E; [reflexivity|].
    now rewrite IH.
Qed.

Lemma strip_volatile_of_stamped (now : string) (d : pydict) :
  strip_volatile (stamped now d) = strip_volatile d.
Proof.
  unfold strip_volatile, stamped.
  rewrite (dict_pop_set_ne ipfs_upload_timestamp ipfs_version) by discriminate.
  now rewrite !dict_pop_set_same.
Qed.

Lemma dict_get_strip_volatile (key : string) (d : pydict) :
  key <> ipfs_upload_timestamp -> key <> ipfs_version ->
  dict_get key (strip_volatile d) = dict_get key d.
Proof.
  intros Ht Hv. unfold strip_volatile.
  now rewrite !dict_get_pop_ne by assumption.
Qed.

(** Two mappings with distinct keys that are equal for Python have the same
    keys and hold equal values under each. *)
Lemma py_eq_dict_agree (a b : pydict) :
  NoDup (map fst a) -> NoDup (map fst b) ->
  py_eq (JDict a) (JDict b) = true ->
  forall key, agree_on key a b.
Proof.
  intros Ha Hb H. simpl in H. apply andb_true_iff in H.
  destruct H as [Hlen Hall]. apply Nat.eqb_eq in Hlen.
  rewrite forallb_forall in Hall.
  assert (forall k v, dict_get k a = Some v ->
                      exists v', dict_get k b = Some v' /\ py_eq v v' = true)
    as Hfwd.
  { intros k v Hget. apply dict_get_In in Hget. specialize (Hall _ Hget).
    simpl in Hall. destruct (dict_get k b) as [v'|]; [|discriminate].
    now exists v'. }
  assert (incl (map fst a) (map fst b)) as Hincl.
  { intros k Hin. apply in_map_iff in Hin. destruct Hin as [[k' v] [E Hin]].
    simpl in E. subst k'.
    destruct (Hfwd k v (In_dict_get _ _ _ Ha Hin)) as [v' [Hget _]].
    apply dict_get_In in Hget. change k with (fst (k, v')). now apply in_map. }
  assert (incl (map fst b) (map fst a)) as Hback.
  { apply NoDup_length_incl; [assumption | rewrite !length_map; lia | assumption]. }
  intros key. unfold agree_on.
  destruct (dict_get key a) as [v|] eqn:Ea.
  - destruct (Hfwd key v Ea) as [v' [Eb Heq]]. now rewrite Eb.
  - destruct (dict_get key b) as [v'|] eqn:Eb; [|exact I].
    apply dict_get_None in Ea. apply Ea, Hback.
    apply dict_get_In in Eb. change key with (fst (key, v')). now apply in_map.
Qed.

(** X1.  Round trip through the content store: when the store returns, for
    a well-formed document, a stamped copy of it (whatever the timestamp),
    [verify_content_integrity] reports the content as valid. *)
Theorem stamped_copy_passes_integrity (env : Env) (self : IPFSService.t)
    (k : nat) (cid : string) (expected : pydict) (now : string) (w : World) :
  wf_dict expected = true ->
  IPFSService.client self = true ->
  get_json env k cid = Returned (JDict (stamped now expected)) ->
  eval (verify_content_integrity env self k cid expected) w = (true, true, None).
Proof.
  intros Hwf Hc Hget.
  unfold verify_content_integrity, eval, bind.
  rewrite retrieve_dpp_metadata_cases, Hc, Hget. cbn [snd fst copy_and_pop].
  rewrite strip_volatile_of_stamped.
  rewrite py_eq_refl; [reflexivity|].
  now apply wf_dict_strip.
Qed.

Lemma stamped_copy_passes_integrity_witness :
  eval (verify_content_integrity Scenario.env_ok
          (DPPService.ipfs_service Scenario.service) 1 "QmScenarioCid1"
          Scenario.stored_doc) Scenario.world1 = (true, true, None).
Proof.
  apply (stamped_copy_passes_integrity Scenario.env_ok
           (DPPService.ipfs_service Scenario.service) 1 "QmScenarioCid1"
           Scenario.stored_doc (Scenario.clock 1) Scenario.world1);
    vm_compute; reflexivity.
Defined.

(** X2.  Tamper detection: [verify_content_integrity] reports the content
    as valid only if the store returned a mapping that, when its keys are
    distinct, agrees with the expected document on every key other than the
    two volatile ones: the key is in both or in neither, and the two values
    are equal for Python. *)
Theorem integrity_requires_agreement (env : Env) (self : IPFSService.t)
    (k : nat) (cid : string) (expected : pydict) (w : World) :
  wf_dict expected = true ->
  eval (verify_content_integrity env self k cid expected) w = (true, true, None) ->
  exists d,
    get_json env k cid = Returned (JDict d) /\
    (NoDup (map fst d) ->
     forall key, key <> ipfs_upload_timestamp -> key <> ipfs_version ->
                 agree_on key d expected).
Proof.
  intros Hwf H.
  unfold verify_content_integrity, eval, bind in H.
  rewrite retrieve_dpp_metadata_cases in H.
  destruct (IPFSService.client self); [|discriminate].
  destruct (get_json env k cid) as [[| | | | |d]|e]; try discriminate.
  exists d. split; [reflexivity|].
  cbn [snd fst copy_and_pop] in H. injection H as H.
  intros Hnd key Ht Hv.
  apply wf_json_dict in Hwf. destruct Hwf as [Hnd' _].
  assert (agree_on key (strip_volatile d) (strip_volatile expected)) as Hagree.
  { apply py_eq_dict_agree; try assumption;
      unfold strip_volatile; now do 2 apply dict_pop_NoDup. }
  unfold agree_on in *. now rewrite !dict_get_strip_volatile in Hagree.
Qed.

Lemma integrity_requires_agreement_witness :
  agree_on "dpp:productName" (stamped (Scenario.clock 1) Scenario.stored_doc)
    Scenario.stored_doc.
Proof.
  destruct (integrity_requires_agreement Scenario.env_ok
              (DPPService.ipfs_service Scenario.service) 1 "QmScenarioCid1"
              Scenario.stored_doc Scenario.world1)
    as [d [Hget Hagree]].
  - vm_compute. reflexivity.
  - vm_compute. reflexivity.
  - injection Hget as <-. apply Hagree.
    + apply nodupb_NoDup. vm_compute. reflexivity.
    + discriminate.
    + discriminate.
Defined.

(** X3.  A changed value is caught: when the store returns a mapping whose
    value under some key other than the two volatile ones is not equal, for
    Python, to the stored value under that key, or which lacks a key the
    stored document has, the integrity flag of [verify_dpp_integrity] is not
    set, although the content check is. *)
Theorem tampered_content_is_flagged (env : Env) (self : DPPService.t)
    (dpp_id : string) (w : World) (dpp : DPP) (d : pydict) (key : string) :
  find (fun d => DigitalProductPassport.id d =? dpp_id) (passports w) = Some dpp ->
  let cid := DigitalProductPassport.ipfs_cid dpp in
  let stored := DigitalProductPassport.json_ld_data dpp in
  wf_dict stored = true -> NoDup (map fst d) ->
  content_ok env self cid = true ->
  get_json env 1 cid = Returned (JDict d) ->
  key <> ipfs_upload_timestamp -> key <> ipfs_version ->
  ~ agree_on key d stored ->
  exists r,
    eval (verify_dpp_integrity env self dpp_id) w = (true, Some r, None) /\
    VerificationResult.ipfs_check r = true /\
    VerificationResult.data_integrity r = false /\
    VerificationResult.overall_valid r = false /\
    verdict_of r = Invalid.
Proof.
  intros Hfind cid stored Hwf Hnd Hc Hget Ht Hv Hdis.
  destruct (verify_dpp_integrity_result env self dpp_id w dpp Hfind) as [Hr _].
  eexists. split; [exact Hr|]. fold cid. fold stored.
  assert (integrity_ok env self cid stored = false) as Hint.
  { unfold integrity_ok. rewrite Hc, Hget. cbn [andb].
    destruct (py_eq _ _) eqn:E; [|reflexivity].
    exfalso. apply Hdis.
    apply wf_json_dict in Hwf. destruct Hwf as [Hnd' _].
    assert (agree_on key (strip_volatile d) (strip_volatile stored)) as Hagree.
    { apply py_eq_dict_agree; try assumption;
        unfold strip_volatile; now do 2 apply dict_pop_NoDup. }
    unfold agree_on in *. now rewrite !dict_get_strip_volatile in Hagree. }
  unfold verdict_of. cbn [VerificationResult.ipfs_check
    VerificationResult.data_integrity VerificationResult.overall_valid
    VerificationResult.blockchain_check].
  rewrite Hc, Hint. now repeat split.
Qed.

Lemma tampered_content_is_flagged_witness :
  exists r,
    eval (verify_dpp_integrity Scenario2.env_tampered Scenario.service
            (uuid4 Scenario.env_ok)) Scenario.world1 = (true, Some r, None) /\
    verdict_of r = Invalid.
Proof.
  assert (find (fun d => DigitalProductPassport.id d =? uuid4 Scenario.env_ok)
               (passports Scenario.world1) =
          Some (new_passport Scenario.env_ok Scenario.P1 "P1" None
                  Scenario.stored_doc "QmScenarioCid1"
                  ("0x" ++ generate_data_hash Scenario.stored_doc))) as Hfind
    by (vm_compute; reflexivity).
  destruct (tampered_content_is_flagged Scenario2.env_tampered Scenario.service
              (uuid4 Scenario.env_ok) Scenario.world1 _
              (dict_set "dpp:productName" (JStr "Silk shirt")
                 (stamped (Scenario.clock 1) Scenario.stored_doc))
              "dpp:productName" Hfind)
    as [r [Hr [_ [_ [_ Hverdict]]]]].
  - vm_compute. reflexivity.
  - apply nodupb_NoDup. vm_compute. reflexivity.
  - vm_compute. reflexivity.
  - reflexivity.
  - discriminate.
  - discriminate.
  - unfold agree_on. vm_compute. discriminate.
  - exists r. split; [exact Hr | exact Hverdict].
Defined.

(** X4.  The comparison does not see the two volatile fields: stamping the
    retrieved document or the expected document anew, with any timestamp,
    does not change what [verify_content_integrity] answers. *)
Theorem integrity_ignores_volatile_fields (env env' : Env)
    (self : IPFSService.t) (k : nat) (cid : string) (d expected : pydict)
    (t t' : string) (w : World) :
  get_json env k cid = Returned (JDict d) ->
  get_json env' k cid = Returned (JDict (stamped t d)) ->
  eval (verify_content_integrity env' self k cid (stamped t' expected)) w =
  eval (verify_content_integrity env self k cid expected) w.
Proof.
  intros Hget Hget'.
  unfold verify_content_integrity, eval, bind.
  rewrite !retrieve_dpp_metadata_cases, Hget, Hget'.
  destruct (IPFSService.client self); [|reflexivity].
  cbn [snd fst copy_and_pop]. now rewrite !strip_volatile_of_stamped.
Qed.

Lemma integrity_ignores_volatile_fields_witness :
  eval (verify_content_integrity Scenario.env_ok
          (DPPService.ipfs_service Scenario.service) 1 "QmScenarioCid1"
          (stamped "2030-01-01T00:00:00" Scenario.stored_doc)) Scenario.world1 =
  eval (verify_content_integrity Scenario2.env_plain
          (DPPService.ipfs_service Scenario.service) 1 "QmScenarioCid1"
          Scenario.stored_doc) Scenario.world1.
Proof.
  apply (integrity_ignores_volatile_fields Scenario2.env_plain Scenario.env_ok
           (DPPService.ipfs_service Scenario.service) 1 "QmScenarioCid1"
           Scenario.stored_doc Scenario.stored_doc (Scenario.clock 1)
           "2030-01-01T00:00:00" Scenario.world1); reflexivity.
Defined.

(* ===================================================================== *)
(** * Further properties of creation *)
(* ===================================================================== *)

Lemma find_snoc {A : Type} (f : A -> bool) (l : list A) (a : A) :
  find f l = None -> find f (l ++ [a])%list = if f a then Some a else None.
Proof.
  induction l as [|x l IH]; simpl; [reflexivity|].
  destruct (f x); [discriminate | exact IH].
Qed.

Lemma primary_key_free_find (r : DPP) (rows : list DPP) :
  primary_key_free r rows = true ->
  find (fun d => DigitalProductPassport.id d =? DigitalProductPassport.id r) rows
  = None.
Proof.
  unfold primary_key_free. induction rows as [|o rows IH]; simpl; [reflexivity|].
  intros H. apply andb_true_iff in H. destruct H as [Ho Hrest].
  apply negb_true_iff in Ho. rewrite Ho. now apply IH.
Qed.

Lemma assembled_document_wf (env : Env) (self : DPPService.t)
    (product : Product.t) (epcis_events : option (list json)) :
  wf_json (Product.material_composition product) = true ->
  forallb wf_json (match epcis_events with Some evs => evs | None => [] end)
    = true ->
  wf_dict (assembled_document env self product epcis_events) = true /\
  dict_get ipfs_upload_timestamp
    (assembled_document env self product epcis_events) = None /\
  dict_get ipfs_version (assembled_document env self product epcis_events) = None.
Proof.
  intros Hmc Hev.
  assert (wf_json (if py_truthy (Product.material_composition product)
                   then Product.material_composition product else JDict [])
          = true) as Hmc'
    by (destruct (py_truthy _); [exact Hmc | reflexivity]).
  unfold assembled_document, generate_json_ld_metadata.
  destruct epcis_events as [[|e es]|];
    cbn -[wf_json py_truthy]; unfold wf_dict; cbn -[py_truthy];
    rewrite Hmc'; cbn in Hev; rewrite ?Hev;
    destruct (Product.description product);
    destruct (Product.production_date product);
    destruct (BlockchainService.contract_address
                (DPPService.blockchain_service self));
    repeat split; reflexivity.
Qed.

(** X5.  The document [create_complete_dpp] assembles has pairwise distinct
    keys at every level whenever the product's material composition and the
    EPCIS events have, and it carries neither of the two volatile fields, so
    that removing them leaves it as it is. *)
Theorem assembled_document_well_formed (env : Env) (self : DPPService.t)
    (product : Product.t) (epcis_events : option (list json)) :
  wf_json (Product.material_composition product) = true ->
  forallb wf_json (match epcis_events with Some evs => evs | None => [] end)
    = true ->
  let doc := assembled_document env self product epcis_events in
  wf_dict doc = true /\
  dict_mem ipfs_upload_timestamp doc = false /\
  dict_mem ipfs_version doc = false /\
  strip_volatile doc = doc.
Proof.
  intros Hmc Hev doc.
  destruct (assembled_document_wf env self product epcis_events
              Hmc Hev) as [Hwf [Ht Hv]].
  fold doc in Hwf, Ht, Hv.
  split; [exact Hwf|]. unfold dict_mem. rewrite Ht, Hv.
  repeat split. now apply strip_volatile_absent.
Qed.

Lemma assembled_document_well_formed_witness :
  wf_dict (assembled_document Scenario.env_ok Scenario.service Scenario.P1
             (Some [JDict [("type", JStr "ObjectEvent")]])) = true.
Proof.
  apply (assembled_document_well_formed Scenario.env_ok Scenario.service
           Scenario.P1 (Some [JDict [("type", JStr "ObjectEvent")]]));
    reflexivity.
Defined.

(** X6.  The EPCIS events stored in the row's column are the ones written
    into the document under [dpp:traceability] / [epcis:events] (the empty
    list when none, or an empty list, was given); the sibling
    [dpp:supplyChainEvents] stays empty and every other top-level field is
    the generated one. *)
Theorem epcis_events_recorded_in_document (env : Env) (self : DPPService.t)
    (product : Product.t) (epcis_events : option (list json)) :
  let doc := assembled_document env self product epcis_events in
  let column := match epcis_events with Some evs => evs | None => [] end in
  (exists t,
      dict_get "dpp:traceability" doc = Some (JDict t) /\
      dict_get "epcis:events" t = Some (JList column) /\
      dict_get "dpp:supplyChainEvents" t = Some (JList [])) /\
  (forall key, key <> "dpp:traceability" ->
               dict_get key doc =
               dict_get key (generate_json_ld_metadata env self product
                               (uuid4 env))) /\
  map fst doc = map fst (generate_json_ld_metadata env self product (uuid4 env)).
Proof.
  intros doc column. subst doc column.
  unfold assembled_document, generate_json_ld_metadata.
  destruct epcis_events as [[|e es]|]; cbn -[py_truthy].
  - split; [eexists; repeat split; reflexivity|]. now split.
  - split; [eexists; repeat split; reflexivity|]. split; [|reflexivity].
    intros key Hkey.
    repeat match goal with
           | |- context [String.eqb key ?s] =>
               destruct (String.eqb_spec key s); [reflexivity || congruence|]
           end;
      reflexivity.
  - split; [eexists; repeat split; reflexivity|]. now split.
Qed.

Lemma epcis_events_recorded_in_document_witness :
  dict_get "dpp:productName"
    (assembled_document Scenario.env_ok Scenario.service Scenario.P1
       (Some [JDict [("type", JStr "ObjectEvent")]])) =
  Some (JStr "Shirt").
Proof.
  destruct (epcis_events_recorded_in_document Scenario.env_ok Scenario.service
              Scenario.P1 (Some [JDict [("type", JStr "ObjectEvent")]]))
    as [_ [Hkeys _]].
  rewrite (Hkeys "dpp:productName"); [reflexivity | discriminate].
Defined.

(** X7.  Create then verify: after a creation that succeeded, for a product
    with a well-formed material composition and well-formed events,
    verifying the returned passport finds the record; if the store then
    returns, at both retrievals, a stamped copy of the stored document, the
    content check and the integrity check succeed, and the passport is
    valid exactly when the ledger check succeeds. *)
Theorem create_then_verify (env env' : Env) (self : DPPService.t)
    (product_id : string) (epcis_events : option (list json)) (w : World)
    (r : CreateResult.t) (t0 t1 : string) :
  let c := create_complete_dpp env self product_id epcis_events in
  eval c w = (true, Some r, None) ->
  (forall p, find (fun p => Product.id p =? product_id) (products w) = Some p ->
             wf_json (Product.material_composition p) = true) ->
  forallb wf_json (match epcis_events with Some evs => evs | None => [] end)
    = true ->
  let cid := CreateResult.ipfs_cid r in
  let doc := CreateResult.json_ld_data r in
  get_json env' 0 cid = Returned (JDict (stamped t0 doc)) ->
  get_json env' 1 cid = Returned (JDict (stamped t1 doc)) ->
  exists v,
    eval (verify_dpp_integrity env' self (CreateResult.dpp_id r)) (exec c w) =
      (true, Some v, None) /\
    VerificationResult.ipfs_check v = true /\
    VerificationResult.data_integrity v = true /\
    VerificationResult.blockchain_check v = ledger_ok env' self cid /\
    VerificationResult.overall_valid v = ledger_ok env' self cid.
Proof.
  intros c Hr Hmc Hev cid doc Hget0 Hget1. subst c.
  destruct (create_complete_dpp_outcome env self product_id epcis_events w)
    as [[Hfail _] | [product [cid' H]]].
  { rewrite Hr in Hfail. discriminate. }
  cbv zeta in H. destruct H as [Hp [_ [Hc [_ [Hins [Hres [Hrows _]]]]]]].
  rewrite Hr in Hres. injection Hres as ->.
  cbn [CreateResult.ipfs_cid CreateResult.json_ld_data CreateResult.dpp_id] in *.
  subst cid doc.
  set (doc := assembled_document env self product epcis_events) in *.
  set (row := new_passport env product product_id epcis_events doc cid' _) in *.
  assert (find (fun d => DigitalProductPassport.id d =? uuid4 env)
               (passports (exec (create_complete_dpp env self product_id
                                   epcis_events) w)) = Some row) as Hfind.
  { rewrite Hrows. unfold db_insert in Hins.
    destruct (primary_key_free row (passports w)) eqn:Hpk; [|discriminate].
    rewrite (find_snoc _ _ _ (primary_key_free_find row _ Hpk)).
    cbn [row new_passport DigitalProductPassport.id].
    now rewrite String.eqb_refl. }
  destruct (verify_dpp_integrity_result env' self (uuid4 env) _ row Hfind)
    as [Hv _].
  eexists. split; [exact Hv|].
  cbn [VerificationResult.ipfs_check VerificationResult.data_integrity
       VerificationResult.blockchain_check VerificationResult.overall_valid
       row new_passport DigitalProductPassport.ipfs_cid
       DigitalProductPassport.json_ld_data].
  assert (content_ok env' self cid' = true) as Hcontent
    by (unfold content_ok; now rewrite Hc, Hget0).
  assert (integrity_ok env' self cid' doc = true) as Hint.
  { unfold integrity_ok. rewrite Hcontent, Hget1. cbn [andb].
    rewrite strip_volatile_of_stamped. apply py_eq_refl.
    apply wf_dict_strip.
    exact (proj1 (assembled_document_wf env self product
                    epcis_events (Hmc product Hp) Hev)). }
  rewrite Hcontent, Hint. now repeat split.
Qed.

Lemma create_then_verify_witness :
  exists v,
    eval (verify_dpp_integrity Scenario.env_ok Scenario.service
            (uuid4 Scenario.env_ok))
         (exec (create_complete_dpp Scenario.env_ok Scenario.service "P1" None)
               Scenario.world0) = (true, Some v, None) /\
    VerificationResult.overall_valid v = true.
Proof.
  eassert (eval (create_complete_dpp Scenario.env_ok Scenario.service "P1" None)
                Scenario.world0 = (true, Some _, None)) as Hr
    by (vm_compute; reflexivity).
  destruct (create_then_verify Scenario.env_ok Scenario.env_ok Scenario.service
              "P1" None Scenario.world0 _ (Scenario.clock 1) (Scenario.clock 1)
              Hr) as [v [Hv [_ [_ [_ Hvalid]]]]].
  - intros p Hp. vm_compute in Hp. injection Hp as <-. reflexivity.
  - reflexivity.
  - vm_compute. reflexivity.
  - vm_compute. reflexivity.
  - exists v. split; [exact Hv|]. rewrite Hvalid. vm_compute. reflexivity.
Defined.

(** X8.  [create_complete_dpp] answers in one of five ways: success, or one
    of the messages ["Product not found"],
    ["DPP already exists for this product"], ["IPFS upload failed: ..."],
    or ["Error creating DPP: IntegrityError"] when the table refuses the
    row.  Its handler of other exceptions is never reached: the transaction
    information always holds a transaction hash, and the assembled document
    always has its traceability section. *)
Theorem create_result_forms (env : Env) (self : DPPService.t)
    (product_id : string) (epcis_events : option (list json)) (w : World) :
  let res := eval (create_complete_dpp env self product_id epcis_events) w in
  (exists r, res = (true, Some r, None)) \/
  res = (false, None, Some "Product not found") \/
  res = (false, None, Some "DPP already exists for this product") \/
  (exists m, res = (false, None, Some ("IPFS upload failed: " ++ m))) \/
  res = (false, None, Some ("Error creating DPP: " ++ integrity_error)).
Proof.
  intros res. subst res.
  destruct (find (fun p => Product.id p =? product_id) (products w))
    as [product|] eqn:Hp.
  2:{ right. left. unfold eval.
      now rewrite (proj1 (create_complete_dpp_rejected env self product_id
                            epcis_events w) Hp). }
  destruct (find (fun d => DigitalProductPassport.product_id d =? product_id)
                 (passports w)) as [d|] eqn:Hd.
  { right. right. left. unfold eval.
    now rewrite (proj2 (create_complete_dpp_rejected env self product_id
                          epcis_events w) product d Hp Hd). }
  destruct (create_complete_dpp_upload_failed env self product_id epcis_events
              w product Hp Hd) as [Hnoclient Hraised].
  destruct (IPFSService.client (DPPService.ipfs_service self)) eqn:Hc.
  2:{ right. right. right. left. eexists. unfold eval.
      now rewrite (Hnoclient eq_refl). }
  destruct (add_json env (stamped (utcnow env 1)
                            (assembled_document env self product epcis_events)))
    as [cid|e] eqn:Hadd.
  2:{ right. right. right. left. eexists. unfold eval.
      now rewrite (Hraised e eq_refl eq_refl). }
  pose proof (create_complete_dpp_uploaded env self product_id epcis_events w
                product cid Hp Hd Hc Hadd) as Hup.
  cbv zeta in Hup. destruct Hup as [_ Hup].
  destruct (db_insert _ (passports w)) as [rows|e] eqn:Hins.
  - left. eexists. exact (proj1 Hup).
  - right. right. right. right. destruct Hup as [Hres _]. rewrite Hres.
    unfold db_insert in Hins.
    destruct (_ && _)%bool in Hins; [discriminate|]. now injection Hins as <-.
Qed.

(** X9.  Order of the external calls of a creation: nothing is called
    before the product and the absence of a passport are checked; then the
    upload comes first, the ledger registration, if it is sent at all, comes
    after a successful upload and carries the content identifier the store
    returned, and the content is pinned last, exactly when the creation
    succeeded, that is, after the row was committed. *)
Theorem create_event_order (env : Env) (self : DPPService.t)
    (product_id : string) (epcis_events : option (list json)) (w : World) :
  let c := create_complete_dpp env self product_id epcis_events in
  let success := fst (fst (eval c w)) in
  (trace (exec c w) = trace w /\ success = false) \/
  (exists uploaded,
      trace (exec c w) = (trace w ++ [IpfsAddJson uploaded])%list /\
      success = false /\
      (IPFSService.client (DPPService.ipfs_service self) = true /\
       exists e, add_json env uploaded = Raised e)) \/
  (exists uploaded cid registration,
      add_json env uploaded = Returned cid /\
      (registration = [] \/
       exists h p s, registration = [LedgerRegisterDPP cid h p s]) /\
      trace (exec c w) =
        (trace w ++ IpfsAddJson uploaded :: registration ++
           (if success then [IpfsPinAdd cid] else []))%list).
Proof.
  intros c success. subst c success.
  destruct (find (fun p => Product.id p =? product_id) (products w))
    as [product|] eqn:Hp.
  2:{ left. unfold eval, exec.
      now rewrite (proj1 (create_complete_dpp_rejected env self product_id
                            epcis_events w) Hp). }
  destruct (find (fun d => DigitalProductPassport.product_id d =? product_id)
                 (passports w)) as [d|] eqn:Hd.
  { left. unfold eval, exec.
    now rewrite (proj2 (create_complete_dpp_rejected env self product_id
                          epcis_events w) product d Hp Hd). }
  destruct (create_complete_dpp_upload_failed env self product_id epcis_events
              w product Hp Hd) as [Hnoclient Hraised].
  destruct (IPFSService.client (DPPService.ipfs_service self)) eqn:Hc.
  2:{ left. unfold eval, exec. now rewrite (Hnoclient eq_refl). }
  destruct (add_json env (stamped (utcnow env 1)
                            (assembled_document env self product epcis_events)))
    as [cid|e] eqn:Hadd.
  { right. right.
    pose proof (create_complete_dpp_uploaded env self product_id epcis_events w
                  product cid Hp Hd Hc Hadd) as Hup.
    cbv zeta in Hup. destruct Hup as [_ Hup].
    exists (stamped (utcnow env 1)
              (assembled_document env self product epcis_events)), cid.
    exists (tl (creation_events env self product product_id
                  (assembled_document env self product epcis_events) cid)).
    split; [exact Hadd|]. split.
    - unfold creation_events. cbn [tl].
      destruct (_ && _ && _)%bool; [right; now do 3 eexists | now left].
    - destruct (db_insert _ (passports w)) as [rows|e];
        destruct Hup as [Hres [_ Htrace]]; rewrite Hres, Htrace;
        cbn [fst]; unfold creation_events; cbn [tl app];
        rewrite ?app_nil_r; reflexivity. }
  right. left. eexists. unfold eval, exec.
  rewrite (Hraised e eq_refl eq_refl). cbn [fst snd log trace].
  split; [reflexivity|]. split; [reflexivity|]. split; [reflexivity|].
  now exists e.
Qed.

(** X10.  Creating twice: once a creation for a product has succeeded, every
    later creation for the same product, whatever the external systems
    answer, is refused with ["DPP already exists for this product"] and
    changes nothing, not even the trace. *)
Theorem second_create_is_refused (env env' : Env) (self self' : DPPService.t)
    (product_id : string) (epcis_events epcis_events' : option (list json))
    (w : World) :
  let c := create_complete_dpp env self product_id epcis_events in
  fst (fst (eval c w)) = true ->
  create_complete_dpp env' self' product_id epcis_events' (exec c w) =
  (exec c w, (false, None, Some "DPP already exists for this product")).
Proof.
  intros c Hok. subst c.
  destruct (create_complete_dpp_outcome env self product_id epcis_events w)
    as [[Hfail _] | [product [cid H]]]; [congruence|].
  cbv zeta in H. destruct H as [Hp [_ [_ [_ [_ [_ [Hrows [Hprod _]]]]]]]].
  set (w' := exec (create_complete_dpp env self product_id epcis_events) w) in *.
  destruct (find (fun d => DigitalProductPassport.product_id d =? product_id)
                 (passports w')) as [d|] eqn:Hd.
  - apply (proj2 (create_complete_dpp_rejected env' self' product_id
                    epcis_events' w') product d); [now rewrite Hprod | exact Hd].
  - exfalso. apply find_product_id_none in Hd. apply Hd.
    rewrite Hrows, map_app, in_app_iff. right. now left.
Qed.

Lemma second_create_is_refused_witness :
  eval (create_complete_dpp Scenario.env_ok Scenario.service "P1"
          (Some [JStr "event"]))
       (exec (create_complete_dpp Scenario.env_ledger_down Scenario.service
                "P1" None) Scenario.world0) =
  (false, None, Some "DPP already exists for this product").
Proof.
  unfold eval at 1.
  rewrite (second_create_is_refused Scenario.env_ledger_down Scenario.env_ok
             Scenario.service Scenario.service "P1" None
             (Some [JStr "event"]) Scenario.world0);
    [reflexivity | vm_compute; reflexivity].
Defined.

Lemma db_insert_taken_content_id (r : DPP) (rows : list DPP) (o : DPP) :
  In o rows ->
  DigitalProductPassport.ipfs_cid o = DigitalProductPassport.ipfs_cid r ->
  db_insert r rows = Raised integrity_error.
Proof.
  intros Hin Hcid. unfold db_insert.
  assert (unique_columns_free r rows = false) as ->.
  { destruct (unique_columns_free r rows) eqn:E; [|reflexivity].
    unfold unique_columns_free in E.
    rewrite forallb_forall in E. specialize (E o Hin).
    rewrite Hcid, String.eqb_refl in E.
    apply andb_true_iff in E. destruct E as [E _].
    apply andb_true_iff in E. destruct E as [_ E]. discriminate E. }
  now rewrite andb_false_r.
Qed.

(** X11.  A creation that fails at the commit leaves no row but does not
    undo what was sent out: when the store answers the upload with a content
    identifier that another passport already holds, [create_complete_dpp]
    returns ["Error creating DPP: IntegrityError"], both tables are as
    before, and the trace has gained the upload and, if the ledger was
    reachable, the registration of that content identifier; nothing is
    pinned. *)
Theorem create_commit_failure_keeps_external_effects (env : Env)
    (self : DPPService.t) (product_id : string)
    (epcis_events : option (list json)) (w : World) (product : Product.t)
    (cid : string) (o : DPP) :
  find (fun p => Product.id p =? product_id) (products w) = Some product ->
  find (fun d => DigitalProductPassport.product_id d =? product_id)
       (passports w) = None ->
  let doc := assembled_document env self product epcis_events in
  IPFSService.client (DPPService.ipfs_service self) = true ->
  add_json env (stamped (utcnow env 1) doc) = Returned cid ->
  In o (passports w) -> DigitalProductPassport.ipfs_cid o = cid ->
  let c := create_complete_dpp env self product_id epcis_events in
  eval c w = (false, None, Some ("Error creating DPP: " ++ integrity_error)) /\
  passports (exec c w) = passports w /\
  products (exec c w) = products w /\
  trace (exec c w) =
    (trace w ++ creation_events env self product product_id doc cid)%list /\
  (BlockchainService.contract (DPPService.blockchain_service self) = true ->
   BlockchainService.account (DPPService.blockchain_service self) = true ->
   w3_is_connected env = true ->
   In (LedgerRegisterDPP cid (generate_data_hash doc) product_id
         ("supplier:" ++ Product.supplier_id product))
      (trace (exec c w))).
Proof.
  intros Hp Hd doc Hc Hadd Hin Hcid c.
  pose proof (create_complete_dpp_uploaded env self product_id epcis_events w
                product cid Hp Hd Hc Hadd) as Hup.
  cbv zeta in Hup. fold doc in Hup. destruct Hup as [Hprod Hup].
  match type of Hup with
  | context [db_insert ?r ?rows] =>
      rewrite (db_insert_taken_content_id r rows o Hin Hcid) in Hup
  end.
  destruct Hup as [Hres [Hrows Htrace]].
  split; [exact Hres|]. split; [exact Hrows|]. split; [exact Hprod|].
  split; [exact Htrace|].
  intros H1 H2 H3. subst c. rewrite Htrace, in_app_iff. right.
  unfold creation_events. rewrite H1, H2, H3. right. now left.
Qed.

Lemma create_commit_failure_keeps_external_effects_witness :
  let c := create_complete_dpp Scenario2.env_same_cid Scenario.service "P2" None in
  eval c Scenario2.world2 =
    (false, None, Some "Error creating DPP: IntegrityError") /\
  passports (exec c Scenario2.world2) = passports Scenario2.world2.
Proof.
  cbv zeta.
  destruct (create_commit_failure_keeps_external_effects Scenario2.env_same_cid
              Scenario.service "P2" None Scenario2.world2 Scenario2.P2
              "QmScenarioCid1"
              (new_passport Scenario.env_ok Scenario.P1 "P1" None
                 Scenario.stored_doc "QmScenarioCid1"
                 ("0x" ++ generate_data_hash Scenario.stored_doc)))
    as [Hres [Hrows _]].
  - reflexivity.
  - reflexivity.
  - reflexivity.
  - reflexivity.
  - vm_compute. left. reflexivity.
  - reflexivity.
  - split; [exact Hres | exact Hrows].
Defined.

Lemma world_ext (w1 w2 : World) :
  products w1 = products w2 -> passports w1 = passports w2 ->
  trace w1 = trace w2 -> w1 = w2.
Proof. destruct w1, w2. simpl. now intros -> -> ->. Qed.

Lemma run_ext {A : Type} (c c' : M A) (w : World) :
  products (exec c w) = products (exec c' w) ->
  passports (exec c w) = passports (exec c' w) ->
  trace (exec c w) = trace (exec c' w) ->
  eval c w = eval c' w -> c w = c' w.
Proof.
  unfold exec, eval. destruct (c w) as [w1 r1], (c' w) as [w2 r2]. simpl.
  intros H1 H2 H3 ->. f_equal. now apply world_ext.
Qed.

(** X12.  Pinning is best effort: whatever [client.pin.add] answers, or
    raises, [create_complete_dpp] and [update_dpp_metadata] return the same
    result and leave the same world. *)
Theorem pin_outcome_is_ignored (env : Env) (f : string -> outcome unit)
    (self : DPPService.t) (w : World) :
  (forall product_id epcis_events,
      create_complete_dpp (with_pin_add env f) self product_id epcis_events w =
      create_complete_dpp env self product_id epcis_events w) /\
  (forall dpp_id updated_data,
      update_dpp_metadata (with_pin_add env f) self dpp_id updated_data w =
      update_dpp_metadata env self dpp_id updated_data w).
Proof.
  split.
  - intros product_id epcis_events.
    destruct (find (fun p => Product.id p =? product_id) (products w))
      as [product|] eqn:Hp.
    2:{ now rewrite !(proj1 (create_complete_dpp_rejected _ self product_id
                               epcis_events w) Hp). }
    destruct (find (fun d => DigitalProductPassport.product_id d =? product_id)
                   (passports w)) as [d|] eqn:Hd.
    { now rewrite !(proj2 (create_complete_dpp_rejected _ self product_id
                             epcis_events w) product d Hp Hd). }
    destruct (create_complete_dpp_upload_failed env self product_id
                epcis_events w product Hp Hd) as [Hno Hraised].
    destruct (create_complete_dpp_upload_failed (with_pin_add env f) self
                product_id epcis_events w product Hp Hd) as [Hno' Hraised'].
    destruct (IPFSService.client (DPPService.ipfs_service self)) eqn:Hc.
    2:{ now rewrite (Hno eq_refl), (Hno' eq_refl). }
    destruct (add_json env (stamped (utcnow env 1)
                (assembled_document env self product epcis_events)))
      as [cid|e] eqn:Hadd.
    2:{ rewrite (Hraised e eq_refl eq_refl).
        exact (Hraised' e eq_refl Hadd). }
    pose proof (create_complete_dpp_uploaded env self product_id epcis_events
                  w product cid Hp Hd Hc Hadd) as Hup.
    pose proof (create_complete_dpp_uploaded (with_pin_add env f) self
                  product_id epcis_events w product cid Hp Hd Hc Hadd) as Hup'.
    cbv zeta in Hup, Hup'. destruct Hup as [Hprod Hup], Hup' as [Hprod' Hup'].
    change (db_insert
              (new_passport env product product_id epcis_events
                 (assembled_document env self product epcis_events) cid
                 (fst (fst (ledger_leg env self product product_id
                              (assembled_document env self product epcis_events)
                              cid))))
              (passports w)) with
      (db_insert
         (new_passport (with_pin_add env f) product product_id epcis_events
            (assembled_document (with_pin_add env f) self product epcis_events)
            cid
            (fst (fst (ledger_leg (with_pin_add env f) self product product_id
                         (assembled_document (with_pin_add env f) self product
                            epcis_events) cid))))
         (passports w)) in Hup.
    destruct (db_insert _ (passports w)) as [rows|e];
      destruct Hup as [H1 [H2 H3]], Hup' as [H1' [H2' H3']];
      (apply run_ext;
       [rewrite Hprod, Hprod' | rewrite H2, H2' | rewrite H3, H3'
       | rewrite H1, H1']; reflexivity).
  - intros dpp_id updated_data.
    pose proof (update_dpp_metadata_cases env self dpp_id updated_data w) as H.
    pose proof (update_dpp_metadata_cases (with_pin_add env f) self dpp_id
                  updated_data w) as H'.
    cbv zeta in H, H'. destruct H as [Hprod H], H' as [Hprod' H'].
    change (merged_document (with_pin_add env f)) with (merged_document env) in H'.
    change (utcnow (with_pin_add env f)) with (utcnow env) in H'.
    change (add_json (with_pin_add env f)) with (add_json env) in H'.
    change (republished (with_pin_add env f)) with (republished env) in H'.
    destruct (find (fun d => DigitalProductPassport.id d =? dpp_id)
                   (passports w)) as [dpp|].
    2:{ destruct H as [H1 [H2 H3]], H' as [H1' [H2' H3']].
        apply run_ext; congruence. }
    destruct (IPFSService.client (DPPService.ipfs_service self)).
    2:{ destruct H as [H1 [H2 H3]], H' as [H1' [H2' H3']].
        apply run_ext; congruence. }
    destruct (add_json env _) as [cid|e].
    2:{ destruct H as [H1 [H2 H3]], H' as [H1' [H2' H3']].
        apply run_ext; congruence. }
    destruct (db_update _ (passports w)) as [rows|e];
      destruct H as [H1 [H2 H3]], H' as [H1' [H2' H3']];
      apply run_ext; congruence.
Qed.

(** X13.  A mined transaction counts as a registration whatever its
    receipt says: when the upload succeeds and the ledger node returns a
    receipt, [create_complete_dpp] reports [blockchain_success], and the
    ledger reference of the stored row is the transaction hash of that
    receipt; the [status] of the receipt is copied into the transaction
    information and not examined, and the [dpp_id] there is that of the
    first log that decodes, [null] when none does. *)
Theorem create_accepts_any_receipt (env : Env) (self : DPPService.t)
    (product_id : string) (epcis_events : option (list json)) (w : World)
    (product : Product.t) (cid : string) (receipt : Receipt) :
  find (fun p => Product.id p =? product_id) (products w) = Some product ->
  find (fun d => DigitalProductPassport.product_id d =? product_id)
       (passports w) = None ->
  let doc := assembled_document env self product epcis_events in
  IPFSService.client (DPPService.ipfs_service self) = true ->
  add_json env (stamped (utcnow env 1) doc) = Returned cid ->
  BlockchainService.contract (DPPService.blockchain_service self) = true ->
  BlockchainService.account (DPPService.blockchain_service self) = true ->
  w3_is_connected env = true ->
  registerDPP env cid (generate_data_hash doc) product_id
    ("supplier:" ++ Product.supplier_id product) = Returned receipt ->
  let row :=
    new_passport env product product_id epcis_events doc cid (tx_hash receipt) in
  primary_key_free row (passports w) = true ->
  unique_columns_free row (passports w) = true ->
  let c := create_complete_dpp env self product_id epcis_events in
  (exists r,
      eval c w = (true, Some r, None) /\
      CreateResult.blockchain_success r = true /\
      CreateResult.blockchain_hash r = tx_hash receipt /\
      dict_get "status" (CreateResult.transaction_info r) =
        Some (JInt (status receipt)) /\
      dict_get "dpp_id" (CreateResult.transaction_info r) =
        Some (match first_decoded (logs receipt) with
              | Some n => JInt n
              | None => JNull
              end)) /\
  passports (exec c w) = (passports w ++ [row])%list.
Proof.
  intros Hp Hd doc Hc Hadd Hcontract Haccount Hconn Hreg row Hpk Huniq c.
  pose proof (create_complete_dpp_uploaded env self product_id epcis_events w
                product cid Hp Hd Hc Hadd) as Hup.
  cbv zeta in Hup. fold doc in Hup.
  assert (ledger_leg env self product product_id doc cid =
          (tx_hash receipt, transaction_info_of receipt, true)) as Hleg.
  { unfold ledger_leg. cbv zeta. now rewrite Hcontract, Haccount, Hconn, Hreg. }
  rewrite Hleg in Hup. cbn [fst snd] in Hup. fold row in Hup.
  unfold db_insert in Hup. rewrite Hpk, Huniq in Hup. cbn [andb] in Hup.
  destruct Hup as [_ [Hr [Hrows _]]].
  split; [|exact Hrows].
  eexists. split; [exact Hr|]. now repeat split.
Qed.

Lemma create_accepts_any_receipt_witness :
  let c := create_complete_dpp Scenario2.env_reverted Scenario.service "P2" None in
  exists r,
    eval c Scenario2.world2 = (true, Some r, None) /\
    CreateResult.blockchain_success r = true /\
    dict_get "status" (CreateResult.transaction_info r) = Some (JInt 0).
Proof.
  cbv zeta.
  destruct (create_accepts_any_receipt Scenario2.env_reverted Scenario.service
              "P2" None Scenario2.world2 Scenario2.P2 "QmScenarioCid4"
              Scenario2.reverted)
    as [[r [Hr [Hok [_ [Hstatus _]]]]] _];
    try reflexivity; try (vm_compute; reflexivity).
  exists r. split; [exact Hr|]. split; [exact Hok | exact Hstatus].
Defined.

(* ===================================================================== *)
(** * Further properties of republication and of the read operations *)
(* ===================================================================== *)

(** X14.  A republication that fails changes no row: when
    [update_dpp_metadata] reports a failure, both tables are as before and
    nothing is pinned; the trace is unchanged or has gained the upload of
    the merged document, which is not undone when the commit is refused. *)
Theorem update_failure_changes_no_row (env : Env) (self : DPPService.t)
    (dpp_id : string) (updated_data : pydict) (w : World) :
  let c := update_dpp_metadata env self dpp_id updated_data in
  fst (fst (eval c w)) = false ->
  passports (exec c w) = passports w /\
  products (exec c w) = products w /\
  (trace (exec c w) = trace w \/
   exists uploaded, trace (exec c w) = (trace w ++ [IpfsAddJson uploaded])%list) /\
  exists msg, eval c w = (false, None, Some msg).
Proof.
  intros c Hfail. subst c.
  pose proof (update_dpp_metadata_cases env self dpp_id updated_data w) as H.
  cbv zeta in H. destruct H as [Hprod H].
  destruct (find (fun d => DigitalProductPassport.id d =? dpp_id) (passports w))
    as [dpp|].
  2:{ destruct H as [H1 [H2 H3]]. rewrite H1. eauto 10. }
  destruct (IPFSService.client (DPPService.ipfs_service self)).
  2:{ destruct H as [H1 [H2 H3]]. rewrite H1. eauto 10. }
  destruct (add_json env _) as [cid|e].
  2:{ destruct H as [H1 [H2 H3]]. rewrite H1. eauto 10. }
  destruct (db_update _ (passports w)) as [rows|e];
    destruct H as [H1 [H2 H3]].
  - rewrite H1 in Hfail. discriminate.
  - rewrite H1. eauto 10.
Qed.

Lemma update_failure_changes_no_row_witness :
  passports (exec (update_dpp_metadata Scenario.env_store_down Scenario.service
                     (uuid4 Scenario.env_ok) Scenario.patch) Scenario.world1) =
  passports Scenario.world1.
Proof.
  apply (update_failure_changes_no_row Scenario.env_store_down Scenario.service
           (uuid4 Scenario.env_ok) Scenario.patch Scenario.world1).
  vm_compute. reflexivity.
Defined.

Lemma not_found_paths (env : Env) (self : DPPService.t)
    (dpp_id : string) (w : World) :
  find (fun d => DigitalProductPassport.id d =? dpp_id) (passports w) = None ->
  verify_dpp_integrity env self dpp_id w =
    (w, (false, None, Some "DPP not found")) /\
  get_dpp_public_data env self dpp_id w =
    (w, (false, None, Some "DPP not found")).
Proof.
  intros Hfind. split;
    unfold verify_dpp_integrity, get_dpp_public_data, bind, get_world;
    now rewrite Hfind.
Qed.

(** X15.  An unknown passport identifier: [verify_dpp_integrity],
    [get_dpp_public_data] and [update_dpp_metadata] each answer
    ["DPP not found"] and leave the world as it is; no external system is
    called. *)
Theorem unknown_passport_is_not_found (env : Env) (self : DPPService.t)
    (dpp_id : string) (w : World) :
  find (fun d => DigitalProductPassport.id d =? dpp_id) (passports w) = None ->
  verify_dpp_integrity env self dpp_id w =
    (w, (false, None, Some "DPP not found")) /\
  get_dpp_public_data env self dpp_id w =
    (w, (false, None, Some "DPP not found")) /\
  (forall updated_data,
      update_dpp_metadata env self dpp_id updated_data w =
        (w, (false, None, Some "DPP not found"))).
Proof.
  intros Hfind. repeat split; intros;
    unfold verify_dpp_integrity, get_dpp_public_data, update_dpp_metadata,
      bind, get_world; now rewrite Hfind.
Qed.

Lemma unknown_passport_is_not_found_witness :
  verify_dpp_integrity Scenario.env_ok Scenario.service "no-such-id"
    Scenario.world1 = (Scenario.world1, (false, None, Some "DPP not found")).
Proof.
  apply (unknown_passport_is_not_found Scenario.env_ok Scenario.service
           "no-such-id" Scenario.world1).
  vm_compute. reflexivity.
Defined.

Lemma verify_dpp_integrity_trace (env : Env) (self : DPPService.t)
    (dpp_id : string) (w : World) (dpp : DPP) :
  find (fun d => DigitalProductPassport.id d =? dpp_id) (passports w) = Some dpp ->
  trace (exec (verify_dpp_integrity env self dpp_id) w) =
  (trace w ++ verification_events env self (DigitalProductPassport.ipfs_cid dpp))%list.
Proof.
  intros Hfind.
  unfold verify_dpp_integrity, exec, bind, get_world, verification_events.
  rewrite Hfind.
  rewrite retrieve_dpp_metadata_cases.
  unfold verify_content_integrity, bind.
  set (cid := DigitalProductPassport.ipfs_cid dpp).
  destruct (IPFSService.client (DPPService.ipfs_service self)) eqn:Hc; simpl.
  - destruct (get_json env 0 cid) as [m0|e0]; simpl.
    + rewrite retrieve_dpp_metadata_cases, Hc. simpl.
      destruct (get_json env 1 cid) as [[| | | | |d]|e1]; simpl;
        rewrite verify_dpp_by_cid_cases;
        destruct (BlockchainService.contract (DPPService.blockchain_service self));
        simpl; try (rewrite <- ?app_assoc; reflexivity);
        destruct (w3_is_connected env); simpl;
        try (rewrite <- ?app_assoc; reflexivity);
        destruct (verifyByCid env cid) as [[[v n] h]|e]; simpl;
        rewrite <- ?app_assoc; reflexivity.
    + rewrite verify_dpp_by_cid_cases;
        destruct (BlockchainService.contract (DPPService.blockchain_service self));
        simpl; try (rewrite <- ?app_assoc; reflexivity);
        destruct (w3_is_connected env); simpl;
        try (rewrite <- ?app_assoc; reflexivity);
        destruct (verifyByCid env cid) as [[[v n] h]|e]; simpl;
        rewrite <- ?app_assoc; reflexivity.
  - rewrite verify_dpp_by_cid_cases;
      destruct (BlockchainService.contract (DPPService.blockchain_service self));
      simpl; rewrite ?app_nil_r; try reflexivity;
      destruct (w3_is_connected env); simpl; rewrite ?app_nil_r;
      try reflexivity;
      destruct (verifyByCid env cid) as [[[v n] h]|e]; simpl; reflexivity.
Qed.

Lemma get_dpp_public_data_exec (env : Env) (self : DPPService.t)
    (dpp_id : string) (w : World) :
  exec (get_dpp_public_data env self dpp_id) w =
  exec (verify_dpp_integrity env self dpp_id) w.
Proof.
  destruct (find (fun d => DigitalProductPassport.id d =? dpp_id) (passports w))
    as [dpp|] eqn:Hfind.
  - unfold get_dpp_public_data, exec, bind, get_world. rewrite Hfind.
    now destruct (verify_dpp_integrity env self dpp_id w) as [w' [[s r] e]].
  - destruct (not_found_paths env self dpp_id w Hfind)
      as [H1 H2].
    unfold exec. now rewrite H1, H2.
Qed.


(** X17.  Public data is served for every stored passport, whatever the
    external systems answer: [get_dpp_public_data] succeeds, shows the
    identifier, the stored document, the GS1 link, the content identifier,
    the ledger reference and the issue date of the row, the gateway address
    of the content, and as verification status the result of
    [verify_dpp_integrity]; the five product fields (name, description,
    material composition, production location and production date) are
    those of the product row, or ['Unknown'], [None], an empty mapping,
    [None] and [None] when that row is missing. *)
Theorem public_data_of_stored_passport (env : Env) (self : DPPService.t)
    (dpp_id : string) (w : World) (dpp : DPP) :
  find (fun d => DigitalProductPassport.id d =? dpp_id) (passports w) = Some dpp ->
  exists data v,
    eval (get_dpp_public_data env self dpp_id) w = (true, Some data, None) /\
    eval (verify_dpp_integrity env self dpp_id) w = (true, Some v, None) /\
    PublicData.verification_status data = Some v /\
    PublicData.dpp_id data = DigitalProductPassport.id dpp /\
    PublicData.json_ld_data data = DigitalProductPassport.json_ld_data dpp /\
    PublicData.gs1_digital_link data =
      DigitalProductPassport.gs1_digital_link dpp /\
    PublicData.ipfs_cid data = DigitalProductPassport.ipfs_cid dpp /\
    PublicData.blockchain_hash data = DigitalProductPassport.blockchain_hash dpp /\
    PublicData.issued_at data = DigitalProductPassport.issued_at dpp /\
    PublicData.ipfs_gateway_url data =
      "https://ipfs.io/ipfs/" ++ DigitalProductPassport.ipfs_cid dpp /\
    match find (fun p => Product.id p =? DigitalProductPassport.product_id dpp)
               (products w) with
    | Some p =>
        PublicData.product_name data = Product.product_name p /\
        PublicData.product_description data = Product.description p /\
        PublicData.material_composition data = Product.material_composition p /\
        PublicData.production_location data = Product.production_location p /\
        PublicData.production_date data = Product.production_date p
    | None =>
        PublicData.product_name data = "Unknown" /\
        PublicData.product_description data = None /\
        PublicData.material_composition data = JDict [] /\
        PublicData.production_location data = None /\
        PublicData.production_date data = None
    end.
Proof.
  intros Hfind.
  destruct (verify_dpp_integrity_result env self dpp_id w dpp Hfind) as [Hv _].
  unfold get_dpp_public_data, eval, bind, get_world. rewrite Hfind.
  unfold eval in Hv.
  destruct (verify_dpp_integrity env self dpp_id w) as [w' [[s r] e]].
  cbn [snd] in Hv. injection Hv as -> -> ->.
  do 2 eexists. split; [reflexivity|]. split; [reflexivity|].
  cbn [snd PublicData.verification_status PublicData.json_ld_data
       PublicData.ipfs_cid PublicData.blockchain_hash
       PublicData.ipfs_gateway_url PublicData.product_name
       PublicData.material_composition PublicData.product_description
       PublicData.production_location PublicData.production_date
       PublicData.dpp_id PublicData.gs1_digital_link PublicData.issued_at].
  repeat (split; [reflexivity|]).
  destruct (find _ (products w)); now repeat split.
Qed.

Lemma public_data_of_stored_passport_witness :
  exists data v,
    eval (get_dpp_public_data Scenario.env_store_down Scenario2.service_offline
            (uuid4 Scenario.env_ok)) Scenario.world1 = (true, Some data, None) /\
    PublicData.verification_status data = Some v /\
    VerificationResult.overall_valid v = false.
Proof.
  assert (find (fun d => DigitalProductPassport.id d =? uuid4 Scenario.env_ok)
               (passports Scenario.world1) =
          Some (new_passport Scenario.env_ok Scenario.P1 "P1" None
                  Scenario.stored_doc "QmScenarioCid1"
                  ("0x" ++ generate_data_hash Scenario.stored_doc))) as Hfind
    by (vm_compute; reflexivity).
  destruct (public_data_of_stored_passport Scenario.env_store_down
              Scenario2.service_offline (uuid4 Scenario.env_ok) Scenario.world1
              _ Hfind) as [data [v [Hdata [Hv [Hstatus _]]]]].
  exists data, v. split; [exact Hdata|]. split; [exact Hstatus|].
  assert (eval (verify_dpp_integrity Scenario.env_store_down
                  Scenario2.service_offline (uuid4 Scenario.env_ok))
               Scenario.world1 =
          (true,
           Some {| VerificationResult.dpp_id := uuid4 Scenario.env_ok;
                   VerificationResult.database_check := true;
                   VerificationResult.ipfs_check := false;
                   VerificationResult.blockchain_check := false;
                   VerificationResult.data_integrity := false;
                   VerificationResult.overall_valid := false |},
           None)) as Hv' by (vm_compute; reflexivity).
  rewrite Hv in Hv'. now injection Hv' as ->.
Defined.

Lemma wf_dict_merge (a b : pydict) :
  wf_dict a = true -> wf_dict b = true -> wf_dict (dict_merge a b) = true.
Proof.
  unfold dict_merge. revert a.
  induction b as [|[k v] b IH]; intros a Ha Hb; simpl; [assumption|].
  unfold wf_dict in Hb. simpl in Hb.
  apply andb_prop in Hb. destruct Hb as [Hk Hv].
  apply andb_prop in Hk. destruct Hk as [_ Hk].
  apply andb_prop in Hv. destruct Hv as [Hv Hvs].
  apply IH.
  - now apply wf_dict_set.
  - unfold wf_dict. simpl. now rewrite Hk, Hvs.
Qed.

Lemma find_replaced (r : DPP) (rows : list DPP) (dpp : DPP) :
  find (fun d => DigitalProductPassport.id d =? DigitalProductPassport.id r) rows
    = Some dpp ->
  find (fun d => DigitalProductPassport.id d =? DigitalProductPassport.id r)
       (map (fun o => if DigitalProductPassport.id o =? DigitalProductPassport.id r
                      then r else o) rows) = Some r.
Proof.
  induction rows as [|x rows IH]; simpl; [discriminate|].
  destruct (DigitalProductPassport.id x =? DigitalProductPassport.id r) eqn:E.
  - intros _. now rewrite String.eqb_refl.
  - intros H. rewrite E. now apply IH.
Qed.

(** X18.  Update then verify: after an update that succeeded on a passport
    whose stored document and whose patch are well formed, verifying the same
    passport finds the replaced record; if the store then returns, at both
    retrievals, a stamped copy of the merged document under the new content
    identifier, the content check and the integrity check succeed, and the
    passport is valid exactly when the ledger knows the new content
    identifier.  The data hash the update returns is that of the merged
    document. *)
Theorem update_then_verify (env env' : Env) (self : DPPService.t)
    (dpp_id : string) (updated_data : pydict) (w : World) (dpp : DPP)
    (r : UpdateResult.t) (t0 t1 : string) :
  let c := update_dpp_metadata env self dpp_id updated_data in
  find (fun d => DigitalProductPassport.id d =? dpp_id) (passports w) = Some dpp ->
  eval c w = (true, Some r, None) ->
  wf_dict (DigitalProductPassport.json_ld_data dpp) = true ->
  wf_dict updated_data = true ->
  let cid := UpdateResult.new_ipfs_cid r in
  let doc := merged_document env dpp updated_data in
  get_json env' 0 cid = Returned (JDict (stamped t0 doc)) ->
  get_json env' 1 cid = Returned (JDict (stamped t1 doc)) ->
  UpdateResult.new_data_hash r = generate_data_hash doc /\
  exists v,
    eval (verify_dpp_integrity env' self dpp_id) (exec c w) =
      (true, Some v, None) /\
    VerificationResult.ipfs_check v = true /\
    VerificationResult.data_integrity v = true /\
    VerificationResult.blockchain_check v = ledger_ok env' self cid /\
    VerificationResult.overall_valid v = ledger_ok env' self cid.
Proof.
  intros c Hfind Hr Hstored Hpatch cid doc Hget0 Hget1. subst c.
  destruct (update_dpp_metadata_cases env self dpp_id updated_data w)
    as [_ H].
  rewrite Hfind in H. cbv zeta in H. fold doc in H.
  assert (DigitalProductPassport.id dpp = dpp_id) as Hid.
  { apply find_some in Hfind. now apply String.eqb_eq. }
  destruct (IPFSService.client (DPPService.ipfs_service self)) eqn:Hc.
  2:{ destruct H as [H _]. rewrite Hr in H. discriminate. }
  destruct (add_json env (stamped (utcnow env 1) doc)) as [cid'|e].
  2:{ destruct H as [H _]. rewrite Hr in H. discriminate. }
  destruct (db_update (republished env dpp doc cid') (passports w))
    as [rows|e] eqn:Hupd.
  2:{ destruct H as [H _]. rewrite Hr in H. discriminate. }
  destruct H as [Hres [Hrows _]].
  rewrite Hr in Hres. injection Hres as ->.
  cbn [UpdateResult.new_ipfs_cid UpdateResult.new_data_hash] in *. subst cid.
  split; [reflexivity|].
  set (row := republished env dpp doc cid') in *.
  assert (find (fun d => DigitalProductPassport.id d =? dpp_id)
               (passports (exec (update_dpp_metadata env self dpp_id
                                   updated_data) w)) = Some row) as Hfind'.
  { rewrite Hrows. unfold db_update in Hupd.
    destruct (unique_columns_free row _); [|discriminate].
    injection Hupd as <-.
    assert (DigitalProductPassport.id row = dpp_id) as Hrow by exact Hid.
    rewrite <- Hrow. apply (find_replaced row (passports w) dpp).
    now rewrite Hrow. }
  destruct (verify_dpp_integrity_result env' self dpp_id _ row Hfind')
    as [Hv _].
  eexists. split; [exact Hv|].
  cbn [VerificationResult.ipfs_check VerificationResult.data_integrity
       VerificationResult.blockchain_check VerificationResult.overall_valid
       row republished DigitalProductPassport.ipfs_cid
       DigitalProductPassport.json_ld_data].
  assert (content_ok env' self cid' = true) as Hcontent
    by (unfold content_ok; now rewrite Hc, Hget0).
  assert (integrity_ok env' self cid' doc = true) as Hint.
  { unfold integrity_ok. rewrite Hcontent, Hget1. cbn [andb].
    rewrite strip_volatile_of_stamped. apply py_eq_refl.
    apply wf_dict_strip. unfold doc, merged_document.
    apply wf_dict_set; [now apply wf_dict_merge | reflexivity]. }
  rewrite Hcontent, Hint. now repeat split.
Qed.

Lemma update_then_verify_witness :
  exists v,
    eval (verify_dpp_integrity Scenario2.env_republished Scenario.service
            (uuid4 Scenario.env_ok))
         (exec (update_dpp_metadata Scenario.env_republish Scenario.service
                  (uuid4 Scenario.env_ok) Scenario.patch) Scenario.world1)
      = (true, Some v, None) /\
    VerificationResult.data_integrity v = true /\
    VerificationResult.overall_valid v = false.
Proof.
  assert (find (fun d => DigitalProductPassport.id d =? uuid4 Scenario.env_ok)
               (passports Scenario.world1) = Some Scenario2.stored_row) as Hfind
    by (vm_compute; reflexivity).
  eassert (eval (update_dpp_metadata Scenario.env_republish Scenario.service
                   (uuid4 Scenario.env_ok) Scenario.patch) Scenario.world1 =
           (true, Some _, None)) as Hr by (vm_compute; reflexivity).
  destruct (update_then_verify Scenario.env_republish Scenario2.env_republished
              Scenario.service (uuid4 Scenario.env_ok) Scenario.patch
              Scenario.world1 Scenario2.stored_row _
              (Scenario.clock 1) (Scenario.clock 1) Hfind Hr)
    as [_ [v [Hv [_ [Hint [_ Hvalid]]]]]].
  - vm_compute. reflexivity.
  - reflexivity.
  - vm_compute. reflexivity.
  - vm_compute. reflexivity.
  - exists v. split; [exact Hv|]. split; [exact Hint|].
    rewrite Hvalid. vm_compute. reflexivity.
Defined.

(* ===================================================================== *)
(** * The content hash of the store client *)
(* ===================================================================== *)

Example sha256_constants :
  List.length Sha256.round_constants = 64%nat /\
  nth 0 Sha256.round_constants 0 = 0x428a2f98 /\
  nth 63 Sha256.round_constants 0 = 0xc67178f2 /\
  nth 0 Sha256.initial_hash 0 = 0x6a09e667 /\
  nth 7 Sha256.initial_hash 0 = 0x5be0cd19.
Proof. repeat split. Qed.

Example sha256_of_empty_text :
  bytes_hex (Sha256.sha256 (bytes_of_text "")) =
  "e3b0c44298fc1c149afbf4c8996fb92427ae41e4649b934ca495991b7852b855".
Proof. vm_compute. reflexivity. Qed.

Example sha256_of_abc :
  bytes_hex (Sha256.sha256 (bytes_of_text "abc")) =
  "ba7816bf8f01cfea414140de5dae2223b00361a396177a9cb410ff61f20015ad".
Proof. vm_compute. reflexivity. Qed.

Example sha256_of_two_blocks :
  bytes_hex (Sha256.sha256
               (bytes_of_text
                  "abcdbcdecdefdefgefghfghighijhijkijkljklmklmnlmnomnopnopq")) =
  "248d6a61d20638b8e5c026930c3e6039a33ce45964ff2167f6ecedd419db06c1".
Proof. vm_compute. reflexivity. Qed.

Lemma sha256_length (msg : list Z) : List.length (Sha256.sha256 msg) = 32%nat.
Proof. unfold Sha256.sha256. cbv zeta. now rewrite !length_app. Qed.

(** X19.  [generate_content_hash] returns 64 lowercase hexadecimal digits and
    does not depend on the order in which the keys of a mapping were
    inserted: two well-formed documents that are equal as mappings at every
    level have the same content hash. *)
Theorem content_hash_key_order (d1 d2 : pydict) :
  wf_dict d1 = true -> wf_dict d2 = true ->
  json_same (JDict d1) (JDict d2) = true ->
  generate_content_hash d1 = generate_content_hash d2 /\
  String.length (generate_content_hash d1) = 64%nat /\
  string_forallb is_hex_digit (generate_content_hash d1) = true.
Proof.
  intros H1 H2 Hsame. unfold generate_content_hash. cbv zeta.
  rewrite (json_dumps_same (JDict d1) (JDict d2) H1 H2 Hsame).
  split; [reflexivity|]. split.
  - now rewrite bytes_hex_length, sha256_length.
  - apply bytes_hex_is_hex.
Qed.

Lemma content_hash_key_order_witness :
  generate_content_hash Scenario.doc =
  generate_content_hash Scenario.doc_reordered.
Proof.
  apply (content_hash_key_order Scenario.doc Scenario.doc_reordered);
    vm_compute; reflexivity.
Defined.

Lemma bytes_of_text_ascii (s : string) :
  string_forallb is_ascii s = true ->
  Forall (fun b => 0 <= b < 128) (bytes_of_text s).
Proof.
  unfold bytes_of_text.
  induction s as [|c s IH]; simpl; intros H; [constructor|].
  apply andb_prop in H. destruct H as [Hc Hs].
  constructor; [|now apply IH].
  unfold is_ascii in Hc. apply Nat.ltb_lt in Hc.
  unfold nat_of_ascii in Hc. lia.
Qed.

(** X20.  The text either hash is taken of is plain ASCII, whatever the
    document holds: [json.dumps] escapes every character from U+0080 on, so
    the encoded message has one byte below 128 for each character of the
    serialization. *)
Theorem hashed_text_is_ascii (data : pydict) :
  let json_str := json_dumps (JDict data) in
  Forall (fun b => 0 <= b < 128) (bytes_of_text json_str) /\
  List.length (bytes_of_text json_str) = String.length json_str.
Proof.
  cbv zeta. split.
  - apply bytes_of_text_ascii, json_dumps_is_ascii.
  - unfold bytes_of_text. rewrite length_map.
    generalize (json_dumps (JDict data)).
    induction s as [|c s IH]; simpl; [reflexivity | now rewrite IH].
Qed.

(* ===================================================================== *)
(** * The read functions of the ledger client *)
(* ===================================================================== *)

(** X21.  The read functions of the ledger client, [verify_dpp_by_hash],
    [verify_dpp_by_cid], [get_dpp_from_blockchain] and [get_total_dpps],
    answer with a value and no message or with a message and no value; they
    succeed only with a contract and a connection; without a contract the
    message is ['Contract not initialized'] whether the node is connected or
    not, and [verify_dpp_by_cid] then calls nothing. *)
Theorem ledger_reads_need_contract_and_connection (env : Env) (renv : ReadEnv)
    (self : BlockchainService.t) (data_hash cid : string) (dpp_id : Z)
    (w : World) :
  let by_hash := verify_dpp_by_hash env renv self data_hash in
  let by_cid := eval (verify_dpp_by_cid env self cid) w in
  let by_id := get_dpp_from_blockchain env renv self dpp_id in
  let total := get_total_dpps env renv self in
  (well_shaped by_hash /\ well_shaped by_cid /\ well_shaped by_id /\
   well_shaped total) /\
  (fst (fst by_hash) = true \/ fst (fst by_cid) = true \/
   fst (fst by_id) = true \/ fst (fst total) = true ->
   BlockchainService.contract self = true /\ is_connected env = true) /\
  (BlockchainService.contract self = false ->
   snd by_hash = Some "Contract not initialized" /\
   snd by_cid = Some "Contract not initialized" /\
   snd by_id = Some "Contract not initialized" /\
   snd total = Some "Contract not initialized" /\
   exec (verify_dpp_by_cid env self cid) w = w).
Proof.
  cbv zeta. unfold eval, exec. rewrite verify_dpp_by_cid_cases.
  unfold verify_dpp_by_hash, get_dpp_from_blockchain, get_total_dpps,
    is_connected.
  destruct (BlockchainService.contract self);
    destruct (w3_is_connected env); cbn [negb fst snd];
    try (split; [now repeat split|];
         split; [intros [H | [H | [H | H]]]; discriminate H|];
         intros H; try discriminate H; now repeat split).
  split.
  - destruct (verifyByHash renv data_hash) as [[[v n] c]|e];
      destruct (verifyByCid env cid) as [[[v' n'] h]|e'];
      destruct (getDPP renv dpp_id); destruct (getTotalDPPs renv);
      now repeat split.
  - split; [now split|]. intros H. discriminate H.
Qed.

(* ===================================================================== *)
(** * The store client without a connection *)
(* ===================================================================== *)

(** X22.  Without a client, no function of the store client calls the
    store: each of [upload_dpp_metadata], [retrieve_dpp_metadata],
    [pin_content], [unpin_content], [verify_content_integrity] and
    [get_content_stats] fails with ['IPFS client not initialized'] and leaves
    the world, trace included, as it was; [is_client_available] answers
    [False]. *)
Theorem no_client_no_store_call (env : Env) (renv : ReadEnv)
    (self : IPFSService.t) (k : nat) (cid : string) (data : pydict)
    (w : World) :
  IPFSService.client self = false ->
  let msg := Some "IPFS client not initialized" in
  upload_dpp_metadata env self k data w = (w, (false, None, msg)) /\
  retrieve_dpp_metadata env self k cid w = (w, (false, None, msg)) /\
  pin_content env self cid w = (w, (false, msg)) /\
  unpin_content env self cid w = (w, (false, msg)) /\
  verify_content_integrity env self k cid data w = (w, (false, false, msg)) /\
  get_content_stats renv self cid = (false, None, msg) /\
  is_client_available renv self = false.
Proof.
  intros Hc. cbv zeta.
  unfold verify_content_integrity, bind.
  rewrite upload_dpp_metadata_cases, retrieve_dpp_metadata_cases.
  unfold pin_content, unpin_content, get_content_stats, is_client_available.
  rewrite Hc. now repeat split.
Qed.

Lemma no_client_no_store_call_witness :
  trace (exec (upload_dpp_metadata Scenario.env_ok
                 (DPPService.ipfs_service Scenario2.service_offline) 1
                 Scenario.doc) Scenario.world1) = trace Scenario.world1.
Proof.
  destruct (no_client_no_store_call Scenario.env_ok Scenario2.reads
              (DPPService.ipfs_service Scenario2.service_offline) 1
              "QmScenarioCid1" Scenario.doc Scenario.world1 eq_refl)
    as [H _].
  unfold exec. now rewrite H.
Defined.

(* ===================================================================== *)
(** * Content statistics *)
(* ===================================================================== *)

Lemma collect_stats_complete (fields : list (string * string)) (stats : pydict) :
  match collect_stats fields stats with
  | Returned d =>
      map fst d = map fst fields /\
      Forall2 (fun kv f => Some (snd kv) = dict_get (snd f) stats) d fields
  | Raised e =>
      exists pre key post,
        fields = (pre ++ key :: post)%list /\
        e = key_error (snd key) /\
        dict_get (snd key) stats = None /\
        Forall (fun f => dict_get (snd f) stats <> None) pre
  end.
Proof.
  induction fields as [|[out key] rest IH]; simpl.
  - split; [reflexivity | constructor].
  - destruct (dict_get key stats) as [v|] eqn:Hget.
    + destruct (collect_stats rest stats) as [d|e].
      * destruct IH as [Hkeys Hvals]. simpl. split; [now f_equal|].
        constructor; [simpl; now rewrite Hget | exact Hvals].
      * destruct IH as [pre [k [post [Hf [He [Hnone Hpre]]]]]].
        exists ((out, key) :: pre), k, post. rewrite Hf.
        repeat split; try assumption.
        constructor; [simpl; now rewrite Hget | exact Hpre].
    + exists [], (out, key), rest. now repeat split.
Qed.

(** X23.  [get_content_stats] with a client: when the store answers with
    statistics that hold all six fields, the result is a mapping of exactly
    the six keys [hash], [num_links], [block_size], [links_size],
    [data_size] and [cumulative_size], each with the value of its field;
    when a field is missing the call fails and the message names the first
    missing field in the order the function reads them. *)
Theorem content_stats_fields (renv : ReadEnv) (self : IPFSService.t)
    (cid : string) (stats : pydict) :
  IPFSService.client self = true ->
  object_stat renv cid = Returned stats ->
  (exists d,
      get_content_stats renv self cid = (true, Some d, None) /\
      dict_keys d = ["hash"; "num_links"; "block_size"; "links_size";
                     "data_size"; "cumulative_size"] /\
      Forall (fun f => dict_get (fst f) d = dict_get (snd f) stats /\
                       dict_get (snd f) stats <> None) stat_fields) \/
  (exists pre key post,
      stat_fields = (pre ++ key :: post)%list /\
      dict_get (snd key) stats = None /\
      Forall (fun f => dict_get (snd f) stats <> None) pre /\
      get_content_stats renv self cid =
        (false, None,
         Some ("Error getting content stats: " ++ key_error (snd key)))).
Proof.
  intros Hc Hstat. unfold get_content_stats. rewrite Hc, Hstat. cbn [negb].
  pose proof (collect_stats_complete stat_fields stats) as H.
  destruct (collect_stats stat_fields stats) as [d|e].
  - left. exists d. destruct H as [Hkeys Hvals]. split; [reflexivity|].
    split; [exact Hkeys|].
    unfold stat_fields in *.
    repeat match goal with
           | H : Forall2 _ _ (_ :: _) |- _ => inversion H; subst; clear H
           | H : Forall2 _ _ [] |- _ => inversion H; subst; clear H
           end.
    cbn [snd fst] in *.
    repeat constructor; cbn [fst snd];
      repeat match goal with
             | H : Some _ = dict_get _ stats |- _ => rewrite <- H; clear H
             end;
      try discriminate;
      destruct x as [k0 v0], x0 as [k1 v1], x1 as [k2 v2], x2 as [k3 v3],
               x3 as [k4 v4], x4 as [k5 v5];
      cbn in Hkeys; injection Hkeys as -> -> -> -> -> ->; reflexivity.
  - right. destruct H as [pre [key [post [Hf [-> [Hnone Hpre]]]]]].
    exists pre, key, post. now repeat split.
Qed.

Lemma content_stats_fields_witness :
  get_content_stats Scenario2.reads
    (DPPService.ipfs_service Scenario.service) "QmScenarioCid1" =
  (false, None, Some "Error getting content stats: 'CumulativeSize'").
Proof.
  destruct (content_stats_fields Scenario2.reads
              (DPPService.ipfs_service Scenario.service) "QmScenarioCid1"
              _ eq_refl eq_refl) as [[d [Hd _]] | [pre [key [post [_ [_ [_ H]]]]]]].
  - vm_compute in Hd. discriminate Hd.
  - vm_compute. reflexivity.
Defined.

(* ===================================================================== *)
(** * The transaction information of a registration *)
(* ===================================================================== *)

Lemma first_decoded_spec (ls : list (outcome Z)) :
  match first_decoded ls with
  | Some n =>
      exists pre post,
        ls = (pre ++ Returned n :: post)%list /\ Forall undecodable pre
  | None => Forall undecodable ls
  end.
Proof.
  induction ls as [|[n|e] ls IH]; simpl.
  - constructor.
  - exists [], ls. split; [reflexivity | constructor].
  - destruct (first_decoded ls) as [n|].
    + destruct IH as [pre [post [-> Hpre]]].
      exists (Raised e :: pre), post. split; [reflexivity|].
      constructor; [now exists e | exact Hpre].
    + constructor; [now exists e | exact IH].
Qed.

(** X24.  A registration that succeeds has a contract, an account and a
    connection, issued exactly one [registerDPP] call, and returns the five
    fields [transaction_hash], [block_number], [gas_used], [dpp_id] and
    [status] of the receipt; [dpp_id] is the identifier in the first log of
    the receipt that decodes as [DPPRegistered], whatever undecodable logs
    come before it, and [None] exactly when no log decodes. *)
Theorem registration_info (env : Env) (self : BlockchainService.t)
    (cid h pid sup : string) (w : World) (info : pydict) :
  let c := register_dpp_on_blockchain env self cid h pid sup in
  eval c w = (true, Some info, None) ->
  exists receipt,
    registerDPP env cid h pid sup = Returned receipt /\
    (BlockchainService.contract self = true /\
     BlockchainService.account self = true /\ w3_is_connected env = true) /\
    exec c w = log w (LedgerRegisterDPP cid h pid sup) /\
    dict_keys info =
      ["transaction_hash"; "block_number"; "gas_used"; "dpp_id"; "status"] /\
    dict_get "transaction_hash" info = Some (JStr (tx_hash receipt)) /\
    dict_get "status" info = Some (JInt (status receipt)) /\
    ((exists n pre post,
         dict_get "dpp_id" info = Some (JInt n) /\
         logs receipt = (pre ++ Returned n :: post)%list /\
         Forall undecodable pre) \/
     (dict_get "dpp_id" info = Some JNull /\
      Forall undecodable (logs receipt))).
Proof.
  cbv zeta. unfold eval, exec. rewrite register_dpp_on_blockchain_cases.
  destruct (BlockchainService.contract self);
    destruct (BlockchainService.account self); cbn [andb];
    try (intros H; discriminate H).
  destruct (w3_is_connected env); [|intros H; discriminate H].
  destruct (registerDPP env cid h pid sup) as [receipt|e];
    cbn [fst snd]; [|intros H; discriminate H].
  intros H. injection H as <-. exists receipt.
  split; [reflexivity|]. split; [now repeat split|]. split; [reflexivity|].
  split; [reflexivity|]. split; [reflexivity|]. split; [reflexivity|].
  pose proof (first_decoded_spec (logs receipt)) as Hlogs.
  unfold transaction_info_of.
  destruct (first_decoded (logs receipt)) as [n|].
  - left. destruct Hlogs as [pre [post [Hl Hpre]]].
    exists n, pre, post. now repeat split.
  - right. now split.
Qed.

Lemma registration_info_witness :
  exists info,
    eval (register_dpp_on_blockchain Scenario.env_ok
            (DPPService.blockchain_service Scenario.service)
            "QmScenarioCid1" (generate_data_hash Scenario.doc) "P1"
            "supplier:S1") Scenario.world0 = (true, Some info, None) /\
    dict_get "status" info = Some (JInt 1).
Proof.
  eassert (eval (register_dpp_on_blockchain Scenario.env_ok
                   (DPPService.blockchain_service Scenario.service)
                   "QmScenarioCid1" (generate_data_hash Scenario.doc) "P1"
                   "supplier:S1") Scenario.world0 = (true, Some _, None)) as Hr
    by reflexivity.
  destruct (registration_info _ _ _ _ _ _ _ _ Hr)
    as [receipt [Hreceipt [_ [_ [_ [_ [Hstatus _]]]]]]].
  eexists. split; [exact Hr|].
  rewrite Hstatus. cbn in Hreceipt. now injection Hreceipt as <-.
Defined.

(* ===================================================================== *)
(** * What no operation does *)
(* ===================================================================== *)

Lemma keeps_history_refl (w : World) : keeps_history w w.
Proof.
  repeat split; exists []; now rewrite app_nil_r.
Qed.

Lemma keeps_history_trans (a b c : World) :
  keeps_history a b -> keeps_history b c -> keeps_history a c.
Proof.
  intros [Hp [[n Hn] [e [He Hu]]]] [Hp' [[n' Hn'] [e' [He' Hu']]]].
  split; [congruence|]. split.
  - exists (n ++ n')%list. now rewrite Hn', Hn, app_assoc.
  - exists (e ++ e')%list. rewrite He', He, app_assoc. split; [reflexivity|].
    now rewrite forallb_app, Hu, Hu'.
Qed.

Lemma keeps_history_intro (w w' : World) (new : list DPP) (evs : list event) :
  products w' = products w ->
  passports w' = (passports w ++ new)%list ->
  trace w' = (trace w ++ evs)%list ->
  forallb (fun e => negb (is_unpin_event e)) evs = true ->
  keeps_history w w'.
Proof.
  intros Hp Hrows Htrace Hu. split; [exact Hp|]. split.
  - exists (map DigitalProductPassport.id new). now rewrite Hrows, map_app.
  - now exists evs.
Qed.

Lemma create_keeps_history (env : Env) (self : DPPService.t)
    (product_id : string) (epcis_events : option (list json)) (w : World) :
  keeps_history w (exec (create_complete_dpp env self product_id epcis_events) w).
Proof.
  destruct (find (fun p => Product.id p =? product_id) (products w))
    as [product|] eqn:Hp.
  2:{ unfold exec.
      rewrite (proj1 (create_complete_dpp_rejected env self product_id
                        epcis_events w) Hp). apply keeps_history_refl. }
  destruct (find (fun d => DigitalProductPassport.product_id d =? product_id)
                 (passports w)) as [d|] eqn:Hd.
  { unfold exec.
    rewrite (proj2 (create_complete_dpp_rejected env self product_id
                      epcis_events w) product d Hp Hd).
    apply keeps_history_refl. }
  destruct (create_complete_dpp_upload_failed env self product_id epcis_events
              w product Hp Hd) as [Hnoclient Hraised].
  destruct (IPFSService.client (DPPService.ipfs_service self)) eqn:Hc.
  2:{ unfold exec. rewrite (Hnoclient eq_refl). apply keeps_history_refl. }
  destruct (add_json env (stamped (utcnow env 1)
                            (assembled_document env self product epcis_events)))
    as [cid|e] eqn:Hadd.
  2:{ unfold exec. rewrite (Hraised e eq_refl eq_refl). cbn [fst].
      eapply (keeps_history_intro _ _ []);
        [reflexivity | cbn; now rewrite app_nil_r | reflexivity | reflexivity]. }
  pose proof (create_complete_dpp_uploaded env self product_id epcis_events w
                product cid Hp Hd Hc Hadd) as Hup.
  cbv zeta in Hup. destruct Hup as [Hprod Hup].
  assert (forallb (fun e => negb (is_unpin_event e))
            (creation_events env self product product_id
               (assembled_document env self product epcis_events) cid) = true)
    as Hevs.
  { unfold creation_events. cbv zeta. now destruct (_ && _ && _)%bool. }
  match type of Hup with
  | match db_insert ?r ?rows with _ => _ end =>
      destruct (db_insert r rows) as [rows'|e] eqn:Hins
  end.
  - destruct Hup as [_ [Hrows Htrace]].
    unfold db_insert in Hins.
    destruct (primary_key_free _ _); [|discriminate Hins].
    destruct (unique_columns_free _ _); [|discriminate Hins].
    injection Hins as <-.
    eapply keeps_history_intro; [exact Hprod | exact Hrows | exact Htrace |].
    rewrite forallb_app, Hevs. reflexivity.
  - destruct Hup as [_ [Hrows Htrace]].
    eapply (keeps_history_intro _ _ []);
      [exact Hprod | now rewrite app_nil_r | exact Htrace | exact Hevs].
Qed.

Lemma verify_keeps_history (env : Env) (self : DPPService.t)
    (dpp_id : string) (w : World) :
  keeps_history w (exec (verify_dpp_integrity env self dpp_id) w).
Proof.
  destruct (verify_dpp_integrity_tables env self dpp_id w) as [Hrows Hprod].
  destruct (find (fun d => DigitalProductPassport.id d =? dpp_id) (passports w))
    as [dpp|] eqn:Hfind.
  - apply (keeps_history_intro _ _ []
             (verification_events env self (DigitalProductPassport.ipfs_cid dpp)));
      [exact Hprod | now rewrite app_nil_r
      | now apply verify_dpp_integrity_trace |].
    unfold verification_events.
    destruct (IPFSService.client (DPPService.ipfs_service self));
      destruct (get_json env 0 (DigitalProductPassport.ipfs_cid dpp));
      destruct (BlockchainService.contract (DPPService.blockchain_service self));
      destruct (w3_is_connected env); reflexivity.
  - unfold exec. rewrite (proj1 (not_found_paths env self dpp_id w Hfind)).
    apply keeps_history_refl.
Qed.

Lemma update_keeps_history (env : Env) (self : DPPService.t)
    (dpp_id : string) (updated_data : pydict) (w : World) :
  keeps_history w (exec (update_dpp_metadata env self dpp_id updated_data) w).
Proof.
  destruct (update_dpp_metadata_cases env self dpp_id updated_data w)
    as [Hprod H].
  destruct (find (fun d => DigitalProductPassport.id d =? dpp_id) (passports w))
    as [dpp|] eqn:Hfind.
  2:{ destruct H as [_ [Hrows Htrace]].
      apply (keeps_history_intro _ _ [] []);
        rewrite ?app_nil_r; try assumption; reflexivity. }
  cbv zeta in H.
  destruct (IPFSService.client (DPPService.ipfs_service self)).
  2:{ destruct H as [_ [Hrows Htrace]].
      apply (keeps_history_intro _ _ [] []);
        rewrite ?app_nil_r; try assumption; reflexivity. }
  destruct (add_json env _) as [cid|e].
  2:{ destruct H as [_ [Hrows Htrace]].
      eapply (keeps_history_intro _ _ []);
        [exact Hprod | now rewrite app_nil_r | exact Htrace | reflexivity]. }
  match type of H with
  | match db_update ?r ?rows with _ => _ end =>
      destruct (db_update r rows) as [rows'|e] eqn:Hupd
  end.
  2:{ destruct H as [_ [Hrows Htrace]].
      eapply (keeps_history_intro _ _ []);
        [exact Hprod | now rewrite app_nil_r | exact Htrace | reflexivity]. }
  destruct H as [_ [Hrows Htrace]].
  split; [exact Hprod|]. split.
  - exists []. rewrite app_nil_r, Hrows. unfold db_update in Hupd.
    destruct (unique_columns_free _ _); [|discriminate Hupd].
    injection Hupd as <-. rewrite map_map. apply map_ext. intros o.
    destruct (String.eqb_spec (DigitalProductPassport.id o)
                (DigitalProductPassport.id dpp)) as [E|E];
      [symmetry; exact E | reflexivity].
  - eexists. split; [exact Htrace | reflexivity].
Qed.

Lemma run_keeps_history (env : Env) (self : DPPService.t) (op : operation)
    (w : World) :
  keeps_history w (run env self op w).
Proof.
  destruct op as [pid ev | dpp_id | dpp_id | dpp_id patch]; simpl.
  - apply create_keeps_history.
  - apply verify_keeps_history.
  - rewrite get_dpp_public_data_exec. apply verify_keeps_history.
  - apply update_keeps_history.
Qed.

(** X25.  What no operation does: over every sequence of creations,
    verifications, public-data reads and updates, whatever the external
    systems answer to each, the products table is unchanged, no passport is
    deleted or given another identifier (the identifiers of the rows are
    those from before, in the same order, followed by the new ones), and the
    trace of external calls only grows, by calls none of which unpins
    content. *)
Theorem operations_keep_history (self : DPPService.t)
    (steps : list (Env * operation)) (w : World) :
  let w' := run_all self steps w in
  products w' = products w /\
  (exists new,
      map DigitalProductPassport.id (passports w') =
      (map DigitalProductPassport.id (passports w) ++ new)%list) /\
  (exists evs,
      trace w' = (trace w ++ evs)%list /\
      forallb (fun e => negb (is_unpin_event e)) evs = true).
Proof.
  cbv zeta. change (keeps_history w (run_all self steps w)).
  unfold run_all. revert w.
  induction steps as [|[env op] steps IH]; intros w; simpl.
  - apply keeps_history_refl.
  - eapply keeps_history_trans; [apply run_keeps_history | apply IH].
Qed.
